(** * Risk-gated order execution of AI-Trader: a shallow embedding

    The development follows three source files:
    - [agent_tools/tool_live_trade.py]: the order router ([live_buy],
      [live_sell]), the limit checks and the TWAP scheduler;
    - [tools/live_risk_state.py]: the persisted daily baseline;
    - [tools/live_alerts.py] and [integrations/alpaca_broker.py]: the alert
      sink and the broker adapter the router talks to.

    Python floats are represented by exact rationals ([Q]): rounding, [inf]
    and [nan] are outside the model.  The file system is taken to be
    reliable (reads and writes of the two data files do not raise); every
    other effect is explicit: the process environment, the two data files,
    the module-level broker singleton, the HTTP calls made through
    [requests] and the clock. *)

From Stdlib Require Import ZArith QArith Qabs Qminmax Qround String Ascii List Bool Lia.
From stdpp Require Import base option gmap strings.
Import ListNotations.

Set Warnings "-register-all".

Local Open Scope string_scope.
Local Open Scope list_scope.
Local Open Scope Z_scope.

(** ** Python values *)

(** JSON-like values.  A dict is an association list in insertion order.
    [VFmt] is the value of an f-string: its template with the interpolated
    values, left unrendered. *)
Inductive value : Type :=
| VNone
| VBool (b : bool)
| VNum (x : Q)
| VStr (s : string)
| VFmt (template : string) (args : list value)
| VList (items : list value)
| VDict (fields : list (string * value)).

Inductive exn_class : Type :=
| ValueError | TypeError | AttributeError | RuntimeError
| ZeroDivisionError | RequestException | SMTPException.

(** An exception: its class and [str(exc)]. *)
Record exn : Type := Exn { exn_cls : exn_class; exn_str : value }.

Inductive outcome (A : Type) : Type :=
| Return (a : A)
| Raise (e : exn).
Arguments Return {A} a.
Arguments Raise {A} e.

(** [d.get(key)] on the fields of a dict. *)
Fixpoint fields_get (key : string) (d : list (string * value)) : option value :=
  match d with
  | [] => None
  | (k, v) :: rest => if String.eqb k key then Some v else fields_get key rest
  end.

(** [d[key] = v] on the fields of a dict. *)
Fixpoint fields_set (key : string) (v : value) (d : list (string * value))
  : list (string * value) :=
  match d with
  | [] => [(key, v)]
  | (k, v0) :: rest =>
      if String.eqb k key then (k, v) :: rest else (k, v0) :: fields_set key v rest
  end.

Definition attribute_error : exn :=
  Exn AttributeError (VStr "object has no attribute 'get'").

(** [obj.get(key, dflt)]: only a dict has [get]. *)
Definition py_get (obj : value) (key : string) (dflt : value) : outcome value :=
  match obj with
  | VDict d => Return (default dflt (fields_get key d))
  | _ => Raise attribute_error
  end.

(** Truth value of an object, as [if obj:] tests it. *)
Definition truthy (v : value) : bool :=
  match v with
  | VNone => false
  | VBool b => b
  | VNum x => negb (Qeq_bool x 0)
  | VStr s => negb (String.eqb s "")
  | VFmt t _ => negb (String.eqb t "")
  | VList l => match l with [] => false | _ => true end
  | VDict d => match d with [] => false | _ => true end
  end.

(** Truth value of an [Optional[float]] and of an [Optional[str]]. *)
Definition truthy_num (o : option Q) : bool :=
  match o with Some x => negb (Qeq_bool x 0) | None => false end.

Definition truthy_str (o : option string) : bool :=
  match o with Some s => negb (String.eqb s "") | None => false end.

(** [a > b] and [a >= b] on floats. *)
Definition Qgtb (a b : Q) : bool := negb (Qle_bool a b).
Definition Qgeb (a b : Q) : bool := Qle_bool b a.

(** [int(x)] on a float: truncation towards zero. *)
Definition py_trunc (x : Q) : Z := Z.quot (Qnum x) (Zpos (Qden x)).

(** [s.lower()], on ASCII. *)
Definition lower_ascii (c : ascii) : ascii :=
  let n := nat_of_ascii c in
  if andb (Nat.leb 65 n) (Nat.leb n 90) then ascii_of_nat (n + 32) else c.

Fixpoint lower (s : string) : string :=
  match s with
  | EmptyString => EmptyString
  | String c rest => String (lower_ascii c) (lower rest)
  end.

(** ** Decimal literals

    A reader of plain decimal literals ([12], [-3], [0.05]), used where a
    concrete instance of Python's [float] and [int] parsers is wanted. *)

Definition digit_of (c : ascii) : option Z :=
  let n := nat_of_ascii c in
  if andb (Nat.leb 48 n) (Nat.leb n 57) then Some (Z.of_nat (n - 48)) else None.

Fixpoint digits_from (acc : Z) (s : string) : option Z :=
  match s with
  | EmptyString => Some acc
  | String c rest =>
      match digit_of c with
      | Some d => digits_from (10 * acc + d) rest
      | None => None
      end
  end.

Definition natural_literal (s : string) : option Z :=
  match s with
  | EmptyString => None
  | _ => digits_from 0 s
  end.

Definition decimal_int (s : string) : option Z :=
  match s with
  | String "-" rest => option_map Z.opp (natural_literal rest)
  | _ => natural_literal s
  end.

(** Splits [s] at its first dot. *)
Fixpoint split_dot (s : string) : string * option string :=
  match s with
  | EmptyString => (EmptyString, None)
  | String "." rest => (EmptyString, Some rest)
  | String c rest => let '(a, b) := split_dot rest in (String c a, b)
  end.

Definition unsigned_decimal (s : string) : option Q :=
  match split_dot s with
  | (whole, None) => option_map inject_Z (natural_literal whole)
  | (whole, Some frac) =>
      match natural_literal whole, natural_literal frac with
      | Some w, Some f =>
          let scale := Z.pow 10 (Z.of_nat (String.length frac)) in
          Some (Qred (Qmake (w * scale + f) (Z.to_pos scale)))
      | _, _ => None
      end
  end.

Definition decimal_float (s : string) : option Q :=
  match s with
  | String "-" rest => option_map Qopp (unsigned_decimal rest)
  | _ => unsigned_decimal s
  end.

(** ** The world around the process *)

(** What [requests] hands back. [resp_json] is [None] when [response.json()]
    raises [ValueError]. *)
Record Response : Type := {
  resp_ok : bool;
  resp_status : Z;
  resp_text : string;
  resp_json : option value
}.

(** One HTTP call of the broker adapter, as it goes to [requests.request]. *)
Record http_call : Type := {
  call_method : string;
  call_url : string;
  call_key : string;
  call_secret : string;
  call_body : option value
}.

(** One mail handed to [smtplib]. *)
Record mail : Type := {
  mail_host : string;
  mail_port : Z;
  mail_tls : bool;
  mail_login : option (string * string);
  mail_from : string;
  mail_to : string;
  mail_subject : value;
  mail_body : value
}.

(** Everything outside the process: the clock, the broker's HTTP endpoint,
    the webhook endpoint and the mail server.  [remote] is their state; each
    operation answers and moves that state on. *)
Record Outside : Type := {
  remote : Type;
  utc_date : remote -> string;
  utc_iso : remote -> string;
  requests_request : http_call -> remote -> outcome Response * remote;
  requests_post : string -> value -> remote -> outcome Response * remote;
  smtp_deliver : mail -> remote -> option exn * remote;
  time_sleep : Z -> remote -> remote
}.

(** [integrations/alpaca_broker.py]: the fields of an [AlpacaBroker]. *)
Record AlpacaBroker : Type := {
  api_key : option string;
  api_secret : option string;
  base_url : string;
  timeout : Z
}.

(** The arguments shared by [live_buy], [live_sell] and [live_place_order]. *)
Record order_args : Type := {
  symbol : string;
  qty : option Q;
  notional : option Q;
  estimated_price : option Q;
  order_type : string;
  limit_price : option Q;
  stop_price : option Q;
  time_in_force : option string;
  asset_class : string
}.

(** The keyword arguments of [AlpacaBroker.submit_order]. *)
Record submit_args : Type := {
  sub_symbol : string;
  sub_side : string;
  sub_qty : option Q;
  sub_notional : option Q;
  sub_order_type : string;
  sub_limit_price : option Q;
  sub_stop_price : option Q;
  sub_time_in_force : option string;
  sub_client_order_id : option string
}.

(** The state a call runs in. *)
Record world (O : Outside) : Type := World {
  environ : gmap string string;        (* os.environ *)
  live_state_json : option value;      (* data/live_state.json; None: missing or not JSON *)
  live_alerts_jsonl : list value;      (* data/live_alerts.jsonl, oldest first *)
  _broker : option AlpacaBroker;       (* the module global of tool_live_trade *)
  sent : list http_call;               (* calls made to requests.request, oldest first *)
  outside : remote O
}.
Arguments World {O} _ _ _ _ _ _.
Arguments environ {O} _.
Arguments live_state_json {O} _.
Arguments live_alerts_jsonl {O} _.
Arguments _broker {O} _.
Arguments sent {O} _.
Arguments outside {O} _.

(** ** A scripted outside world *)

Record desk : Type := {
  desk_date : string;
  desk_calls : nat;
  desk_reply : nat -> http_call -> outcome Response
}.

Definition json_reply (v : value) : outcome Response :=
  Return {| resp_ok := true; resp_status := 200; resp_text := ""; resp_json := Some v |}.

Definition desk_outside : Outside := {|
  remote := desk;
  utc_date := desk_date;
  utc_iso := fun d => (desk_date d ++ "T09:30:00")%string;
  requests_request := fun c d =>
    (desk_reply d (desk_calls d) c,
     {| desk_date := desk_date d; desk_calls := S (desk_calls d);
        desk_reply := desk_reply d |});
  requests_post := fun _ _ d => (json_reply VNone, d);
  smtp_deliver := fun _ d => (None, d);
  time_sleep := fun _ d => d
|}.

Definition paper_url : string := "https://paper-api.alpaca.markets".

(** Answers by path: the account, the positions, and an acceptance for
    anything else (the orders). *)
Definition by_path (account positions : outcome Response) (c : http_call)
  : outcome Response :=
  if String.eqb (call_url c) (paper_url ++ "/v2/account")%string then account
  else if String.eqb (call_url c) (paper_url ++ "/v2/positions")%string then positions
  else json_reply (VDict [("status", VStr "accepted")]).

Definition keys_env : gmap string string :=
  <["ALPACA_API_KEY" := "k"]> (<["ALPACA_API_SECRET" := "s"]> ∅).

Definition fresh_world (env : gmap string string) (file : option value) (d : desk)
  : world desk_outside :=
  @World desk_outside env file [] None [] d.

Definition market_buy (sym : string) (q n p : option Q) : order_args :=
  {| symbol := sym; qty := q; notional := n; estimated_price := p;
     order_type := "market"; limit_price := None; stop_price := None;
     time_in_force := None; asset_class := "equity" |}.

Definition account_of (equity buying_power : string) : outcome Response :=
  json_reply (VDict [("equity", VStr equity); ("buying_power", VStr buying_power)]).

Definition holding (sym held market_value : string) : value :=
  VDict [("symbol", VStr sym); ("qty", VStr held); ("market_value", VStr market_value)].

Definition http_failure (status : Z) (text : string) : outcome Response :=
  Return {| resp_ok := false; resp_status := status; resp_text := text;
            resp_json := None |}.

Definition desk_at (date : string) (reply : nat -> http_call -> outcome Response) : desk :=
  {| desk_date := date; desk_calls := 0; desk_reply := reply |}.

Definition day_file (date : string) (equity_start : Q) : option value :=
  Some (VDict [("daily", VDict [("date", VStr date); ("equity_start", VNum equity_start)])]).

(** An account worth 9500 with five AAPL shares, on 2024-01-02. *)
Definition calm_desk : desk :=
  desk_at "2024-01-02"
    (fun _ => by_path (account_of "9500" "20000")
                      (json_reply (VList [holding "MSFT" "2" "800";
                                          holding "AAPL" "5" "900"]))).

(** Yesterday's baseline on file, no limit configured. *)
Definition stale_world : world desk_outside :=
  fresh_world keys_env (day_file "2024-01-01" 10000) calm_desk.

(** Today's baseline of 10000 on file and a daily-loss limit of 5%. *)
Definition loss_env : gmap string string := <["MAX_DAILY_LOSS_PCT" := "0.05"]> keys_env.

Definition loss_world (equity : string) : world desk_outside :=
  fresh_world loss_env (day_file "2024-01-02" 10000)
    (desk_at "2024-01-02"
       (fun _ => by_path (account_of equity "20000") (json_reply (VList [])))).

Definition paper_broker : AlpacaBroker :=
  {| api_key := Some "k"; api_secret := Some "s"; base_url := paper_url; timeout := 10 |}.

Definition market_sell (sym : string) (q n : option Q) : order_args :=
  market_buy sym q n None.

(** Five AAPL shares held, nothing configured. *)
Definition holding_world : world desk_outside :=
  fresh_world keys_env None calm_desk.

(** An order cap of 1000, and the same variable set to something that is
    not a number. *)
Definition capped_world : world desk_outside :=
  fresh_world (<["MAX_ORDER_NOTIONAL_USD" := "1000"]> keys_env) None calm_desk.

Definition garbled_world : world desk_outside :=
  fresh_world (<["MAX_ORDER_NOTIONAL_USD" := "abc"]> keys_env) None calm_desk.


Definition timed_out : outcome Response :=
  Raise (Exn RequestException (VStr "Read timed out. (read timeout=10)")).

(** The broker answers 500 to the account fetch and times out on the
    positions; orders are answered 422. *)
Definition down_world : world desk_outside :=
  fresh_world keys_env None
    (desk_at "2024-01-02"
       (fun _ c =>
          if String.eqb (call_method c) "POST"
          then http_failure 422 "insufficient qty"
          else by_path (http_failure 500 "Internal Server Error") timed_out c)).

(** The third call to the broker, whatever it is, is answered 503. *)
Definition flaky_world : world desk_outside :=
  fresh_world keys_env None
    (desk_at "2024-01-02"
       (fun i c =>
          if Nat.eqb i 2 then http_failure 503 "Service Unavailable"
          else by_path (account_of "9500" "20000") (json_reply (VList [])) c)).

(** ** More scripted worlds *)

(** [TWAP_SLICES=0]. *)
Definition zero_slices_world : world desk_outside :=
  fresh_world (<["TWAP_SLICES" := "0"]> keys_env) None calm_desk.

Definition crypto_buy (sym : string) (q : Q) : order_args :=
  {| symbol := sym; qty := Some q; notional := None; estimated_price := None;
     order_type := "market"; limit_price := None; stop_price := None;
     time_in_force := None; asset_class := "crypto" |}.


(** No credentials at all. *)
Definition keyless_broker : AlpacaBroker :=
  {| api_key := None; api_secret := None; base_url := paper_url; timeout := 10 |}.

(** Yesterday's baseline and a note on file. *)
Definition annotated_world : world desk_outside :=
  fresh_world keys_env
    (Some (VDict [("daily", VDict [("date", VStr "2024-01-01");
                                   ("equity_start", VNum 10000)]);
                  ("notes", VStr "keep")]))
    calm_desk.

(** A state file that holds a list. *)
Definition list_file_world : world desk_outside :=
  fresh_world keys_env (Some (VList [])) calm_desk.

(** Yesterday's baseline on file and a daily-loss limit of 5%. *)
Definition new_day_world : world desk_outside :=
  fresh_world loss_env (day_file "2024-01-01" 10000) calm_desk.

(** [ALERT_SMTP_PORT] is not a number. *)
Definition bad_port_world : world desk_outside :=
  fresh_world (<["ALERT_SMTP_PORT" := "smtp"]> keys_env) None calm_desk.

(** A webhook is configured. *)
Definition hooked_world : world desk_outside :=
  fresh_world (<["ALERT_WEBHOOK_URL" := "https://hooks.example/alerts"]> keys_env)
    None calm_desk.

(** The market clock says closed. *)
Definition closed_world : world desk_outside :=
  fresh_world keys_env None
    (desk_at "2024-01-06" (fun _ _ => json_reply (VDict [("is_open", VBool false)]))).

(** A printer of time stamps, right on whole seconds: [1000] reads
    ["1000.0"], as Python's [str] of that float does. *)
Fixpoint digits_of (fuel : nat) (n : Z) (acc : string) : string :=
  match fuel with
  | 0%nat => acc
  | S fuel =>
      let acc := String (ascii_of_nat (48 + Z.to_nat (n mod 10))) acc in
      if n / 10 =? 0 then acc else digits_of fuel (n / 10) acc
  end.

Definition whole_seconds (t : Q) : string := digits_of 20 (Qfloor t) ".0".

(** The same desk behind a webhook that answers 502. *)
Definition deaf_outside : Outside := {|
  remote := desk;
  utc_date := desk_date;
  utc_iso := fun d => (desk_date d ++ "T09:30:00")%string;
  requests_request := requests_request desk_outside;
  requests_post := fun _ _ d => (http_failure 502 "Bad Gateway", d);
  smtp_deliver := fun _ d => (None, d);
  time_sleep := fun _ d => d
|}.

Definition unheard_world : world deaf_outside :=
  @World deaf_outside (<["ALERT_WEBHOOK_URL" := "https://hooks.example/alerts"]> keys_env)
    None [] None [] calm_desk.

Section Engine.

(** Python's [float(str)] and [int(str)]: [None] stands for [ValueError]. *)
Variable py_float : string -> option Q.
Variable py_int : string -> option Z.
Variable O : Outside.

Definition set_live_state (f : option value) (w : world O) : world O :=
  World (environ w) f (live_alerts_jsonl w) (_broker w) (sent w) (outside w).
Definition set_live_alerts (l : list value) (w : world O) : world O :=
  World (environ w) (live_state_json w) l (_broker w) (sent w) (outside w).
Definition set_broker (b : option AlpacaBroker) (w : world O) : world O :=
  World (environ w) (live_state_json w) (live_alerts_jsonl w) b (sent w) (outside w).
Definition set_sent (l : list http_call) (w : world O) : world O :=
  World (environ w) (live_state_json w) (live_alerts_jsonl w) (_broker w) l (outside w).
Definition set_outside (r : remote O) (w : world O) : world O :=
  World (environ w) (live_state_json w) (live_alerts_jsonl w) (_broker w) (sent w) r.

(** ** Computations: state and exceptions *)

Definition M (A : Type) : Type := world O -> outcome A * world O.

Definition ret {A} (a : A) : M A := fun w => (Return a, w).
Definition raise {A} (e : exn) : M A := fun w => (Raise e, w).
Definition bind {A B} (m : M A) (k : A -> M B) : M B :=
  fun w => match m w with
           | (Return a, w') => k a w'
           | (Raise e, w') => (Raise e, w')
           end.
Definition lift {A} (o : outcome A) : M A := fun w => (o, w).

(** [try: m except <classes>: handler(exc)] *)
Definition try_except {A} (m : M A) (catches : exn_class -> bool) (handler : exn -> M A)
  : M A :=
  fun w => match m w with
           | (Return a, w') => (Return a, w')
           | (Raise e, w') => if catches (exn_cls e) then handler e w' else (Raise e, w')
           end.

Definition any_exception (c : exn_class) : bool := true.
Definition is_ValueError (c : exn_class) : bool :=
  match c with ValueError => true | _ => false end.
Definition is_TypeError_or_ValueError (c : exn_class) : bool :=
  match c with ValueError | TypeError => true | _ => false end.

Notation "'do' x <- m ; k" := (bind m (fun x => k))
  (at level 10, x name, m at level 100, k at level 200).
Notation "'run' m ; k" := (bind m (fun _ => k))
  (at level 10, m at level 100, k at level 200).

(** [os.getenv(key)] and [os.getenv(key, dflt)]. *)
Definition getenv (key : string) : M (option string) :=
  fun w => (Return (environ w !! key), w).
Definition getenv_default (key dflt : string) : M string :=
  fun w => (Return (default dflt (environ w !! key)), w).

(** [float(obj)]. *)
Definition to_float (v : value) : outcome Q :=
  match v with
  | VNum x => Return x
  | VBool b => Return (if b then 1%Q else 0%Q)
  | VStr s =>
      match py_float s with
      | Some x => Return x
      | None => Raise (Exn ValueError (VFmt "could not convert string to float: {!r}" [VStr s]))
      end
  | VFmt _ _ => Raise (Exn ValueError (VStr "could not convert string to float"))
  | VNone | VList _ | VDict _ =>
      Raise (Exn TypeError (VStr "float() argument must be a string or a real number"))
  end.

(** ** [integrations/alpaca_broker.py] *)

Definition AlpacaBroker_init : M AlpacaBroker :=
  do key <- getenv "ALPACA_API_KEY" ;
  do secret <- getenv "ALPACA_API_SECRET" ;
  do url <- getenv_default "ALPACA_BASE_URL" "https://paper-api.alpaca.markets" ;
  ret {| api_key := key; api_secret := secret; base_url := url; timeout := 10 |}.

Definition _headers (self : AlpacaBroker) : outcome (string * string) :=
  match api_key self, api_secret self with
  | Some k, Some s =>
      if orb (String.eqb k "") (String.eqb s "")
      then Raise (Exn ValueError (VStr "ALPACA_API_KEY and ALPACA_API_SECRET must be set"))
      else Return (k, s)
  | _, _ => Raise (Exn ValueError (VStr "ALPACA_API_KEY and ALPACA_API_SECRET must be set"))
  end.

Definition call_requests (c : http_call) : M Response :=
  fun w =>
    let '(r, o') := requests_request O c (outside w) in
    (r, set_outside o' (set_sent (sent w ++ [c]) w)).

Definition _request (self : AlpacaBroker) (method path : string) (json_body : option value)
  : M value :=
  let url := (base_url self ++ path)%string in
  do hd <- lift (_headers self) ;
  do response <- call_requests {| call_method := method; call_url := url;
                                  call_key := fst hd; call_secret := snd hd;
                                  call_body := json_body |} ;
  if negb (resp_ok response)
  then raise (Exn RuntimeError
                (VFmt "Alpaca API error {}: {}"
                      [VNum (inject_Z (resp_status response)); VStr (resp_text response)]))
  else match resp_json response with
       | Some v => ret v
       | None => ret (VDict [("raw", VStr (resp_text response))])
       end.

Definition get_account (self : AlpacaBroker) : M value :=
  _request self "GET" "/v2/account" None.

Definition list_positions (self : AlpacaBroker) : M value :=
  _request self "GET" "/v2/positions" None.

Definition get_clock (self : AlpacaBroker) : M value :=
  _request self "GET" "/v2/clock" None.

Definition cancel_all_orders (self : AlpacaBroker) : M value :=
  _request self "DELETE" "/v2/orders" None.

Definition add_num (key : string) (o : option Q) (d : list (string * value))
  : list (string * value) :=
  match o with Some x => fields_set key (VNum x) d | None => d end.

Definition add_str (key : string) (o : option string) (d : list (string * value))
  : list (string * value) :=
  if truthy_str o then fields_set key (VStr (default "" o)) d else d.

Definition submit_payload (a : submit_args) : list (string * value) :=
  add_str "client_order_id" (sub_client_order_id a)
    (add_str "time_in_force" (sub_time_in_force a)
       (add_num "stop_price" (sub_stop_price a)
          (add_num "limit_price" (sub_limit_price a)
             (add_num "notional" (sub_notional a)
                (add_num "qty" (sub_qty a)
                   [("symbol", VStr (sub_symbol a));
                    ("side", VStr (sub_side a));
                    ("type", VStr (sub_order_type a))]))))).

Definition submit_order (self : AlpacaBroker) (a : submit_args) : M value :=
  if andb (negb (truthy_num (sub_qty a))) (negb (bool_decide (is_Some (sub_notional a))))
  then raise (Exn ValueError (VStr "Either qty or notional must be provided"))
  else _request self "POST" "/v2/orders" (Some (VDict (submit_payload a))).

(** ** [tools/live_risk_state.py] *)

Definition load_state : M value :=
  fun w => (Return (default (VDict []) (live_state_json w)), w).

Definition save_state (state : value) : M unit :=
  fun w => (Return tt, set_live_state (Some state) w).

(** [obj != today] for a string [today]. *)
Definition differs_from_str (obj : value) (today : string) : bool :=
  match obj with
  | VStr s => negb (String.eqb s today)
  | _ => true
  end.

(** [state[key] = v]; [state] is known to be a dict where this is used. *)
Definition py_setitem (state : value) (key : string) (v : value) : outcome value :=
  match state with
  | VDict d => Return (VDict (fields_set key v d))
  | _ => Raise (Exn TypeError (VStr "object does not support item assignment"))
  end.

Definition get_or_init_day_state (equity : Q) : M value :=
  do today <- (fun w => (Return (utc_date O (outside w)), w)) ;
  do state <- load_state ;
  do day_state <- lift (py_get state "daily" (VDict [])) ;
  do stored <- lift (py_get day_state "date" VNone) ;
  if differs_from_str stored today then
    let day_state := VDict [("date", VStr today); ("equity_start", VNum equity)] in
    do state <- lift (py_setitem state "daily" day_state) ;
    run save_state state ;
    ret day_state
  else ret day_state.

(** ** [tools/live_alerts.py] *)

Definition _write_alert_log (entry : value) : M unit :=
  fun w => (Return tt, set_live_alerts (live_alerts_jsonl w ++ [entry]) w).

Definition post_webhook (url : string) (payload : value) : M Response :=
  fun w => let '(r, o') := requests_post O url payload (outside w) in (r, set_outside o' w).

Definition _send_webhook (message details : value) : M (option value) :=
  do url <- getenv "ALERT_WEBHOOK_URL" ;
  if negb (truthy_str url) then ret None
  else
    try_except
      (do response <- post_webhook (default "" url)
                        (VDict [("message", message); ("details", details)]) ;
       if negb (resp_ok response)
       then ret (Some (VFmt "Webhook error {}: {}"
                         [VNum (inject_Z (resp_status response));
                          VStr (resp_text response)]))
       else ret None)
      any_exception
      (fun exc => ret (Some (VFmt "Webhook exception: {}" [exn_str exc]))).

Definition deliver_mail (m : mail) : M unit :=
  fun w => match smtp_deliver O m (outside w) with
           | (None, o') => (Return tt, set_outside o' w)
           | (Some e, o') => (Raise e, set_outside o' w)
           end.

Definition _send_email (subject body : value) : M (option value) :=
  do host <- getenv "ALERT_SMTP_HOST" ;
  do port_raw <- getenv_default "ALERT_SMTP_PORT" "587" ;
  do port <- match py_int port_raw with
             | Some p => ret p
             | None => raise (Exn ValueError
                                (VFmt "invalid literal for int() with base 10: {!r}"
                                      [VStr port_raw]))
             end ;
  do user <- getenv "ALERT_SMTP_USER" ;
  do password <- getenv "ALERT_SMTP_PASS" ;
  do to_addr <- getenv "ALERT_EMAIL_TO" ;
  do from_addr <- getenv "ALERT_EMAIL_FROM" ;
  do tls_raw <- getenv_default "ALERT_SMTP_TLS" "true" ;
  let use_tls := String.eqb (lower tls_raw) "true" in
  if orb (negb (truthy_str host)) (orb (negb (truthy_str to_addr)) (negb (truthy_str from_addr)))
  then ret None
  else
    try_except
      (run deliver_mail
             {| mail_host := default "" host; mail_port := port; mail_tls := use_tls;
                mail_login := if andb (truthy_str user) (truthy_str password)
                              then Some (default "" user, default "" password) else None;
                mail_from := default "" from_addr; mail_to := default "" to_addr;
                mail_subject := subject; mail_body := body |} ;
       ret None)
      any_exception
      (fun exc => ret (Some (VFmt "Email exception: {}" [exn_str exc]))).

Definition opt_value (o : option value) : value := default VNone o.

(** The mail body is [json.dumps(details)]; the model hands over [details]. *)
Definition notify_alert (event : string) (details : value) : M unit :=
  do timestamp <- (fun w => (Return (utc_iso O (outside w)), w)) ;
  run _write_alert_log
        (VDict [("timestamp", VStr timestamp); ("event", VStr event); ("details", details)]) ;
  let message := VFmt "[AI-Trader Alert] {}" [VStr event] in
  do webhook_error <- _send_webhook message details ;
  do email_error <- _send_email message details ;
  if orb (bool_decide (is_Some webhook_error)) (bool_decide (is_Some email_error))
  then _write_alert_log
         (VDict [("timestamp", VStr timestamp);
                 ("event", VStr "alert_delivery_error");
                 ("details", VDict [("webhook_error", opt_value webhook_error);
                                    ("email_error", opt_value email_error)])])
  else ret tt.

(** ** [agent_tools/tool_live_trade.py] *)

Definition _get_broker : M AlpacaBroker :=
  fun w => match _broker w with
           | Some b => (Return b, w)
           | None =>
               match AlpacaBroker_init w with
               | (Return b, w') => (Return b, set_broker (Some b) w')
               | (Raise e, w') => (Raise e, w')
               end
           end.

Definition _get_env_float (key : string) : M (option Q) :=
  do value <- getenv key ;
  match value with
  | None => ret None
  | Some v => if String.eqb v "" then ret None else ret (py_float v)
  end.

(** Two early returns in a row: the first message wins. *)
Definition or_else (first second : option value) : option value :=
  match first with Some _ => first | None => second end.

Definition _ensure_notional_limits (notional : Q) (equity : option Q) : M (option value) :=
  do max_notional <- _get_env_float "MAX_ORDER_NOTIONAL_USD" ;
  do max_pct <- _get_env_float "MAX_ORDER_PCT_EQUITY" ;
  ret (or_else
         match max_notional with
         | Some mx =>
             if Qgtb notional mx
             then Some (VFmt "Order notional {} exceeds MAX_ORDER_NOTIONAL_USD {}"
                          [VNum notional; VNum mx])
             else None
         | None => None
         end
         match max_pct, equity with
         | Some pct, Some eq =>
             if andb (truthy_num equity) (Qgtb notional (eq * pct))
             then Some (VFmt "Order notional {} exceeds MAX_ORDER_PCT_EQUITY {}"
                          [VNum notional; VNum pct])
             else None
         | _, _ => None
         end).

Definition is_symbol (obj : value) (sym : string) : bool :=
  match obj with VStr s => String.eqb s sym | _ => false end.

(** The loop of [_get_position_qty] and [_get_position_notional]: the first
    dict whose ["symbol"] is [sym]. *)
Fixpoint find_position (items : list value) (sym : string) : option (list (string * value)) :=
  match items with
  | [] => None
  | VDict d :: rest =>
      if is_symbol (default VNone (fields_get "symbol" d)) sym then Some d
      else find_position rest sym
  | _ :: rest => find_position rest sym
  end.

(** [try: return f(float(obj)) except ValueError: return 0.0] *)
Definition float_or_zero (f : Q -> Q) (obj : value) : outcome Q :=
  match to_float obj with
  | Return x => Return (f x)
  | Raise e => if is_ValueError (exn_cls e) then Return 0%Q else Raise e
  end.

Definition _get_position_qty (positions : value) (sym : string) : outcome Q :=
  match positions with
  | VList items =>
      match find_position items sym with
      | Some pos => float_or_zero (fun x => x) (default (VNum 0) (fields_get "qty" pos))
      | None => Return 0%Q
      end
  | _ => Return 0%Q
  end.

Definition _get_position_notional (positions : value) (sym : string) : outcome Q :=
  match positions with
  | VList items =>
      match find_position items sym with
      | Some pos => float_or_zero Qabs (default (VNum 0) (fields_get "market_value" pos))
      | None => Return 0%Q
      end
  | _ => Return 0%Q
  end.

Definition _estimate_order_notional (qty notional estimated_price : option Q) : option Q :=
  match notional with
  | Some n => Some n
  | None =>
      match qty with
      | None => None
      | Some q =>
          match estimated_price with
          | None => None
          | Some p => Some (q * p)%Q
          end
      end
  end.

Definition _get_env_int (key : string) (dflt : Z) : M Z :=
  do raw <- getenv key ;
  match raw with
  | None => ret dflt
  | Some v => if String.eqb v "" then ret dflt else ret (default dflt (py_int v))
  end.

(** [equity_start - equity] and the division need a number on the left. *)
Definition as_number (obj : value) : outcome Q :=
  match obj with
  | VNum x => Return x
  | VBool b => Return (if b then 1%Q else 0%Q)
  | _ => Raise (Exn TypeError (VStr "unsupported operand type(s) for -"))
  end.

Definition _daily_loss_exceeded (equity : option Q) : M (option value) :=
  match equity with
  | None => ret None
  | Some eq =>
      do max_loss_pct <- _get_env_float "MAX_DAILY_LOSS_PCT" ;
      match max_loss_pct with
      | None => ret None
      | Some mx =>
          do day_state <- get_or_init_day_state eq ;
          do equity_start <- lift (py_get day_state "equity_start" VNone) ;
          if negb (truthy equity_start) then ret None
          else
            do es <- lift (as_number equity_start) ;
            let drawdown := Qmax 0 ((es - eq) / es) in
            if Qgeb drawdown mx
            then ret (Some (VFmt "Daily loss {:.2%} exceeds MAX_DAILY_LOSS_PCT {:.2%}"
                              [VNum drawdown; VNum mx]))
            else ret None
      end
  end.

Definition _ensure_position_limits (current_notional order_notional : Q) (equity : option Q)
  : M (option value) :=
  do max_pos_notional <- _get_env_float "MAX_POSITION_NOTIONAL_USD" ;
  do max_pos_pct <- _get_env_float "MAX_POSITION_PCT_EQUITY" ;
  let new_notional := (current_notional + order_notional)%Q in
  ret (or_else
         match max_pos_notional with
         | Some mx =>
             if Qgtb new_notional mx
             then Some (VFmt "Position notional {} exceeds MAX_POSITION_NOTIONAL_USD {}"
                          [VNum new_notional; VNum mx])
             else None
         | None => None
         end
         match max_pos_pct, equity with
         | Some pct, Some eq =>
             if andb (truthy_num equity) (Qgtb new_notional (eq * pct))
             then Some (VFmt "Position notional {} exceeds MAX_POSITION_PCT_EQUITY {}"
                          [VNum new_notional; VNum pct])
             else None
         | _, _ => None
         end).

(** [quantities[idx] += 1.0] for [idx] in [range(remainder)]. *)
Definition bump_first (remainder : nat) (quantities : list Q) : list Q :=
  fold_left (fun qs idx => alter (fun q => (q + 1)%Q) idx qs) (seq 0 remainder) quantities.

Definition _split_equity_qty (total_qty : Q) (slices : Z) : list Q :=
  if slices <=? 1 then [total_qty]
  else
    let base := py_trunc total_qty / slices in
    let remainder := py_trunc total_qty mod slices in
    if base <=? 0 then [inject_Z (py_trunc total_qty)]
    else
      let quantities := replicate (Z.to_nat slices) (inject_Z base) in
      let quantities := bump_first (Z.to_nat remainder) quantities in
      List.filter (fun q => Qgtb q 0) quantities.

Definition _split_notional (total_notional : Q) (slices : Z) : list Q :=
  if slices <=? 1 then [total_notional]
  else replicate (Z.to_nat slices) (total_notional / inject_Z slices)%Q.

Definition live_get_account : M value :=
  do broker <- _get_broker ; get_account broker.

Definition live_get_positions : M value :=
  do broker <- _get_broker ; list_positions broker.

Definition live_get_clock : M value :=
  do broker <- _get_broker ; get_clock broker.

Definition live_cancel_all_orders : M value :=
  do broker <- _get_broker ; cancel_all_orders broker.

Definition error_dict (message : value) : value := VDict [("error", message)].

(** [try: x = float(account.get(key)) except (TypeError, ValueError): x = None] *)
Definition account_figure (account : value) (key : string) : outcome (option Q) :=
  match py_get account key VNone with
  | Raise e => Raise e
  | Return raw =>
      match to_float raw with
      | Return x => Return (Some x)
      | Raise e => if is_TypeError_or_ValueError (exn_cls e) then Return None else Raise e
      end
  end.

(** [any(_get_env_float(key) is not None for key in keys)] *)
Fixpoint any_limit_set (keys : list string) : M bool :=
  match keys with
  | [] => ret false
  | key :: rest =>
      do v <- _get_env_float key ;
      if bool_decide (is_Some v) then ret true else any_limit_set rest
  end.

Definition notional_limit_keys : list string :=
  ["MAX_ORDER_NOTIONAL_USD"; "MAX_ORDER_PCT_EQUITY";
   "MAX_POSITION_NOTIONAL_USD"; "MAX_POSITION_PCT_EQUITY"].

Definition truthy_opt (o : option value) : bool :=
  match o with Some v => truthy v | None => false end.

Definition risk_details (type sym : string) (details : value) : value :=
  VDict [("type", VStr type); ("symbol", VStr sym); ("details", details)].

Definition default_tif (a : order_args) : option string :=
  match time_in_force a with
  | Some t => Some t
  | None => Some (if String.eqb (asset_class a) "crypto" then "gtc" else "day")
  end.

Definition submit_args_of (side : string) (a : order_args) : submit_args :=
  {| sub_symbol := symbol a; sub_side := side; sub_qty := qty a;
     sub_notional := notional a; sub_order_type := order_type a;
     sub_limit_price := limit_price a; sub_stop_price := stop_price a;
     sub_time_in_force := default_tif a; sub_client_order_id := None |}.

(** [try: return broker.submit_order(...) except Exception as exc: return {"error": str(exc)}] *)
Definition guarded_submit (broker : AlpacaBroker) (side : string) (a : order_args) : M value :=
  try_except (submit_order broker (submit_args_of side a))
             any_exception
             (fun exc => ret (error_dict (exn_str exc))).

Definition live_buy (a : order_args) : M value :=
  if andb (negb (bool_decide (is_Some (qty a)))) (negb (bool_decide (is_Some (notional a))))
  then ret (error_dict (VStr "Either qty or notional must be provided"))
  else
    do broker <- _get_broker ;
    do account <- get_account broker ;
    do equity <- lift (account_figure account "equity") ;
    do buying_power <- lift (account_figure account "buying_power") ;
    let order_notional := _estimate_order_notional (qty a) (notional a) (estimated_price a) in
    do unevaluable <- match order_notional with
                      | None => any_limit_set notional_limit_keys
                      | Some _ => ret false
                      end ;
    if unevaluable
    then ret (error_dict
                (VStr "estimated_price is required when qty is used with notional limits"))
    else
      do loss_error <- _daily_loss_exceeded equity ;
      if truthy_opt loss_error then
        run notify_alert "risk_limit_triggered"
              (risk_details "daily_loss" (symbol a) (opt_value loss_error)) ;
        ret (error_dict (opt_value loss_error))
      else
        match order_notional with
        | Some n =>
            do limit_error <- _ensure_notional_limits n equity ;
            if truthy_opt limit_error then
              run notify_alert "risk_limit_triggered"
                    (risk_details "order_notional" (symbol a) (opt_value limit_error)) ;
              ret (error_dict (opt_value limit_error))
            else if match buying_power with Some bp => Qgtb n bp | None => false end then
              run notify_alert "risk_limit_triggered"
                    (risk_details "buying_power" (symbol a) (VStr "Insufficient buying power")) ;
              ret (VDict [("error", VStr "Insufficient buying power");
                          ("buying_power", VNum (default 0%Q buying_power))])
            else
              do positions <- live_get_positions ;
              do current_notional <- lift (_get_position_notional positions (symbol a)) ;
              do position_error <- _ensure_position_limits current_notional n equity ;
              if truthy_opt position_error then
                run notify_alert "risk_limit_triggered"
                      (risk_details "position_limit" (symbol a) (opt_value position_error)) ;
                ret (error_dict (opt_value position_error))
              else guarded_submit broker "buy" a
        | None => guarded_submit broker "buy" a
        end.

Definition live_sell (a : order_args) : M value :=
  if andb (negb (bool_decide (is_Some (qty a)))) (negb (bool_decide (is_Some (notional a))))
  then ret (error_dict (VStr "Either qty or notional must be provided"))
  else
    do raw <- getenv_default "ALLOW_SHORT" "false" ;
    let allow_short := String.eqb (lower raw) "true" in
    do rejected <-
      match qty a with
      | Some q =>
          if negb allow_short then
            do positions <- live_get_positions ;
            do current_qty <- lift (_get_position_qty positions (symbol a)) ;
            if Qgtb q current_qty
            then ret (Some (VDict [("error", VStr "Shorting disabled or insufficient position");
                                   ("current_qty", VNum current_qty)]))
            else ret None
          else ret None
      | None => ret None
      end ;
    match rejected with
    | Some result => ret result
    | None =>
        do broker <- _get_broker ;
        guarded_submit broker "sell" a
    end.

Definition live_place_order (side : string) (a : order_args) : M value :=
  let side := lower side in
  if String.eqb side "buy" then live_buy a
  else if String.eqb side "sell" then live_sell a
  else ret (error_dict (VStr "side must be buy or sell")).

(** The body of both TWAP loops: place one slice, append its result, sleep. *)
Fixpoint run_slices (place : Q -> M value) (delay : Z) (amounts : list Q)
  (results : list value) : M (list value) :=
  match amounts with
  | [] => ret results
  | amount :: rest =>
      do result <- place amount ;
      let results := results ++ [result] in
      run (if 0 <? delay
           then fun w => (Return tt, set_outside (time_sleep O delay (outside w)) w)
           else ret tt) ;
      run_slices place delay rest results
  end.

(** [given or _get_env_int(key, dflt)] *)
Definition given_or_env (given : option Z) (key : string) (dflt : Z) : M Z :=
  match given with
  | Some n => if n =? 0 then _get_env_int key dflt else ret n
  | None => _get_env_int key dflt
  end.

Definition twap_result (results : list value) : value :=
  VDict [("slices", VNum (inject_Z (Z.of_nat (length results))));
         ("results", VList results)].

Definition live_twap_order (side : string) (a : order_args)
  (slices interval_seconds : option Z) : M value :=
  let side := lower side in
  if negb (orb (String.eqb side "buy") (String.eqb side "sell"))
  then ret (error_dict (VStr "side must be buy or sell"))
  else if andb (negb (bool_decide (is_Some (qty a)))) (negb (bool_decide (is_Some (notional a))))
  then ret (error_dict (VStr "Either qty or notional must be provided"))
  else
    do slice_count <- given_or_env slices "TWAP_SLICES" 4 ;
    do delay <- given_or_env interval_seconds "TWAP_INTERVAL_SECONDS" 15 ;
    let place := if String.eqb side "buy" then live_buy else live_sell in
    match qty a with
    | Some q =>
        do qty_slices <-
          (if String.eqb (asset_class a) "equity"
           then ret (_split_equity_qty q slice_count)
           else if slice_count =? 0
                then raise (Exn ZeroDivisionError (VStr "float division by zero"))
                else ret (replicate (Z.to_nat slice_count) (q / inject_Z slice_count)%Q)) ;
        do results <-
          run_slices
            (fun slice_qty =>
               place {| symbol := symbol a; qty := Some slice_qty; notional := None;
                        estimated_price := estimated_price a; order_type := order_type a;
                        limit_price := limit_price a; stop_price := stop_price a;
                        time_in_force := time_in_force a; asset_class := asset_class a |})
            delay qty_slices [] ;
        ret (twap_result results)
    | None =>
        let notional_slices := _split_notional (default 0%Q (notional a)) slice_count in
        do results <-
          run_slices
            (fun slice_notional =>
               place {| symbol := symbol a; qty := None; notional := Some slice_notional;
                        estimated_price := None; order_type := order_type a;
                        limit_price := limit_price a; stop_price := stop_price a;
                        time_in_force := time_in_force a; asset_class := asset_class a |})
            delay notional_slices [] ;
        ret (twap_result results)
    end.


(** ** [tools/live_monitor.py] *)

(** [try: return float(value) except (TypeError, ValueError): return None] *)
Definition _safe_float (v : value) : outcome (option Q) :=
  match to_float v with
  | Return x => Return (Some x)
  | Raise e => if is_TypeError_or_ValueError (exn_cls e) then Return None else Raise e
  end.

Definition opt_num (o : option Q) : value :=
  match o with Some x => VNum x | None => VNone end.

(** [_safe_float(account.get(key)) if isinstance(account, dict) else None] *)
Definition summary_figure (account : value) (key : string) : outcome (option Q) :=
  match account with
  | VDict d => _safe_float (default VNone (fields_get key d))
  | _ => Return None
  end.

(** [record_run_summary]; the lines of [data/live_runs.jsonl] are passed in
    and handed back with the new line appended.  The adapter is a fresh
    [AlpacaBroker()], not the singleton of the trade tools. *)
Definition record_run_summary (run_id model_signature status : string)
  (details : option value) (live_runs_jsonl : list value) : M (list value) :=
  do broker <- AlpacaBroker_init ;
  do account <- try_except (get_account broker) any_exception
                  (fun exc => ret (error_dict (exn_str exc))) ;
  do positions <- try_except (list_positions broker) any_exception
                    (fun exc => ret (VList [error_dict (exn_str exc)])) ;
  do timestamp <- (fun w => (Return (utc_iso O (outside w)), w)) ;
  do equity <- lift (summary_figure account "equity") ;
  do buying_power <- lift (summary_figure account "buying_power") ;
  let entry :=
    VDict [("timestamp", VStr timestamp);
           ("run_id", VStr run_id);
           ("model_signature", VStr model_signature);
           ("status", VStr status);
           ("account", account);
           ("equity", opt_num equity);
           ("buying_power", opt_num buying_power);
           ("positions", positions);
           ("details", match details with
                       | Some d => if truthy d then d else VDict []
                       | None => VDict []
                       end)] in
  ret (live_runs_jsonl ++ [entry]).

(** ** [tools/live_scheduler.py] *)

(** Python's [str(float)]. *)
Variable py_str : Q -> string.

(** ASCII white space, as [str.strip()] sees it. *)
Definition is_space (c : ascii) : bool :=
  let n := nat_of_ascii c in
  orb (andb (Nat.leb 9 n) (Nat.leb n 13)) (andb (Nat.leb 28 n) (Nat.leb n 32)).

Fixpoint lstrip (s : string) : string :=
  match s with
  | EmptyString => EmptyString
  | String c rest => if is_space c then lstrip rest else s
  end.

Fixpoint rstrip (s : string) : string :=
  match s with
  | EmptyString => EmptyString
  | String c rest =>
      match rstrip rest with
      | EmptyString => if is_space c then EmptyString else String c EmptyString
      | kept_ => String c kept_
      end
  end.

Definition strip (s : string) : string := rstrip (lstrip s).

Definition _env_bool (key : string) (dflt : bool) : M bool :=
  do raw <- getenv key ;
  match raw with
  | None => ret dflt
  | Some v =>
      if String.eqb v "" then ret dflt
      else ret (existsb (String.eqb (lower v)) ["1"; "true"; "yes"; "on"])
  end.

Definition _env_int (key : string) (dflt : Z) : M Z :=
  do raw <- getenv key ;
  match raw with
  | None => ret dflt
  | Some v => if String.eqb v "" then ret dflt else ret (default dflt (py_int v))
  end.

(** [_acquire_lock]: [lock] is the text of [data/live_scheduler.lock]
    ([None] when the file does not exist) and [now] is [time.time()]; the
    answer comes with the lock file as it is left. *)
Definition _acquire_lock (ttl_seconds : Z) (now : Q) (lock : option string)
  : bool * option string :=
  match lock with
  | Some text =>
      let last := default 0%Q (py_float (strip text)) in
      if negb (Qle_bool (inject_Z ttl_seconds) (now - last))
      then (false, lock)
      else (true, Some (py_str now))
  | None => (true, Some (py_str now))
  end.

Definition _release_lock (lock : option string) : option string := None.

(** [_equity_market_open]: the clock fetch is guarded, [clock.get] is not. *)
Definition _equity_market_open (broker : AlpacaBroker) : M (option bool) :=
  do clock <- try_except (do c <- get_clock broker ; ret (Some c)) any_exception
                (fun _ => ret None) ;
  match clock with
  | None => ret None
  | Some c =>
      do is_open <- lift (py_get c "is_open" VNone) ;
      ret (Some (truthy is_open))
  end.

(** One turn of the [while True] loop of [main], up to the sleep: whether to
    run, the lock, the session, the release in [finally].  [session] stands
    for [asyncio.run(_run_once(config_path))]; the result says whether the
    session was run, and comes with the lock file as it is left. *)
Definition main_turn (equity_open_only crypto_enabled : bool) (broker : AlpacaBroker)
  (lock_ttl : Z) (now : Q) (session : M unit) (lock : option string)
  : world O -> (outcome bool * option string) * world O :=
  fun w =>
    let '(market, w1) :=
      if andb equity_open_only (negb crypto_enabled)
      then _equity_market_open broker w
      else (Return None, w) in
    match market with
    | Raise e => ((Raise e, lock), w1)
    | Return (Some false) => ((Return false, lock), w1)
    | Return _ =>
        let '(acquired, lock1) := _acquire_lock lock_ttl now lock in
        if acquired then
          match session w1 with
          | (Return _, w2) => ((Return true, _release_lock lock1), w2)
          | (Raise e, w2) => ((Raise e, _release_lock lock1), w2)
          end
        else ((Return false, lock1), w1)
    end.

(** The settings [main] reads before anything else: the interval, whether
    equities wait for the market to open, whether crypto is traded, whether
    to run at start-up, and the TTL of the lock. *)
Definition main_settings : M (Z * bool * bool * bool * Z) :=
  do interval <- _env_int "LIVE_SCHEDULER_INTERVAL_SECONDS" 60 ;
  do equity_open_only <- _env_bool "LIVE_EQUITY_OPEN_ONLY" true ;
  do crypto_enabled <- _env_bool "LIVE_CRYPTO_ENABLED" true ;
  do run_on_startup <- _env_bool "LIVE_RUN_ON_STARTUP" true ;
  do lock_ttl <- _env_int "LIVE_RUN_LOCK_TTL_SECONDS" (Z.max 120 (interval * 2)) ;
  ret (interval, equity_open_only, crypto_enabled, run_on_startup, lock_ttl).

(** ** [agent/live_agent/live_agent.py] *)

(** [{**base, **extra}] on the fields of two dicts. *)
Definition merge_fields (base extra : list (string * value)) : list (string * value) :=
  fold_left (fun d kv => fields_set (fst kv) (snd kv) d) extra base.

(** The [while] loop of [run_trading_session].  [turn] stands for the body
    of the [try]: the agent's invocation, the extraction of its answer and
    the logging, which lie outside these sources; it answers whether the
    finish signal was seen and the messages as extended.  [log_error] is
    the [_log_message] call of the handler.  [steps_left] is
    [max_steps - current_step]. *)
Fixpoint session_loop (turn : list value -> M (bool * list value))
  (log_error : exn -> M unit) (steps_left : nat) (message : list value)
  (status : string) (error_details : option value) : M (string * option value) :=
  match steps_left with
  | 0%nat => ret (status, error_details)
  | S remaining =>
      do result <-
        try_except
          (do answer <- turn message ; ret (status, error_details, answer))
          any_exception
          (fun exc =>
             let status := "error" in
             let error_details := Some (error_dict (exn_str exc)) in
             run log_error exc ;
             raise exc) ;
      let '(status, error_details, (finished, message)) := result in
      if (finished : bool) then ret (status, error_details)
      else session_loop turn log_error remaining message status error_details
  end.

(** [run_trading_session].  [prepare] stands for what precedes the loop
    (the log file, the agent, the first log line), [run_id] for
    [str(uuid.uuid4())]; the run log is passed in and handed back. *)
Definition run_trading_session (prepare : M unit)
  (turn : list value -> M (bool * list value)) (log_error : exn -> M unit)
  (max_steps : nat) (run_id signature : string) (live_runs_jsonl : list value)
  : M (list value) :=
  run prepare ;
  let message :=
    [VDict [("role", VStr "user");
            ("content", VStr "Analyze current account and propose live trades.")]] in
  do final <- session_loop turn log_error max_steps message "completed" None ;
  let '(status, error_details) := final in
  do live_runs_jsonl <-
    record_run_summary run_id signature status error_details live_runs_jsonl ;
  if negb (String.eqb status "completed") then
    run notify_alert "live_run_error"
          (VDict (merge_fields
                    [("run_id", VStr run_id); ("signature", VStr signature)]
                    match error_details with
                    | Some (VDict d) => d
                    | _ => []
                    end)) ;
    ret live_runs_jsonl
  else ret live_runs_jsonl.

(** ** Definitions used to state the properties *)


(** The equity split as the design describes it: whole units, [base] units
    per slice, one more for each of the first [remainder] slices, and a
    single slice when [base] would be zero. *)
Definition planned_equity_split (total_qty : Q) (slices : Z) : list Q :=
  let units := py_trunc total_qty in
  if slices <=? 1 then [total_qty]
  else if units / slices <=? 0 then [inject_Z units]
  else inject_Z <$> (replicate (Z.to_nat (units mod slices)) (units / slices + 1)
                     ++ replicate (Z.to_nat (slices - units mod slices)) (units / slices)).

(** What [_get_env_float key] reads from an environment. *)
Definition env_float (env : gmap string string) (key : string) : option Q :=
  match env !! key with
  | None => None
  | Some v => if String.eqb v "" then None else py_float v
  end.

(** The day record the store holds, as [get_or_init_day_state] reads it:
    [load_state().get("daily", {})], and its ["date"]. *)
Definition stored_day (w : world O) : outcome value :=
  py_get (default (VDict []) (live_state_json w)) "daily" (VDict []).

Definition stored_date (w : world O) : outcome value :=
  match stored_day w with
  | Return day => py_get day "date" VNone
  | Raise e => Raise e
  end.

Definition fresh_day (today : string) (equity : Q) : value :=
  VDict [("date", VStr today); ("equity_start", VNum equity)].

(** The fractional decline from the start-of-day equity. *)
Definition drawdown (equity_start equity : Q) : Q :=
  Qmax 0 ((equity_start - equity) / equity_start).

(** A world that differs in its environment and in its state file only. *)
Definition tweak (f : gmap string string -> gmap string string)
  (g : option value -> option value) (w : world O) : world O :=
  World (f (environ w)) (g (live_state_json w)) (live_alerts_jsonl w)
        (_broker w) (sent w) (outside w).

(** [m] does not notice the difference: it gives the same outcome, and leaves
    worlds that differ the same way. *)
Definition respects {A} (T : world O -> world O) (m : M A) : Prop :=
  forall w, m (T w) = (fst (m w), T (snd (m w))).

(** The calls of [requests.request] that carry an order. *)
Definition orders_sent (w : world O) : list http_call :=
  List.filter (fun c => String.eqb (call_method c) "POST") (sent w).

(** The environment variables that hold a risk limit. *)
Definition risk_limit_keys : list string :=
  ["MAX_ORDER_NOTIONAL_USD"; "MAX_ORDER_PCT_EQUITY";
   "MAX_POSITION_NOTIONAL_USD"; "MAX_POSITION_PCT_EQUITY"; "MAX_DAILY_LOSS_PCT"].

Definition is_risk_limit_key (key : string) : bool :=
  existsb (String.eqb key) risk_limit_keys.

(** [m] leaves the part [part] of the world as it found it. *)
Definition keeps {X A} (part : world O -> X) (m : M A) : Prop :=
  forall w, part (snd (m w)) = part w.

(** The environment without [key]. *)
Definition unset (key : string) (w : world O) : world O :=
  tweak (delete key) (fun file => file) w.

(** Drops [key] from an environment when its value does not parse. *)
Definition unset_if_malformed (key : string) (env : gmap string string)
  : gmap string string :=
  match env !! key with
  | Some v => match py_float v with None => delete key env | Some _ => env end
  | None => env
  end.

(** Two worlds that differ at most in their environment. *)
Definition same_effects (w1 w2 : world O) : Prop :=
  live_state_json w1 = live_state_json w2
  /\ live_alerts_jsonl w1 = live_alerts_jsonl w2
  /\ _broker w1 = _broker w2
  /\ sent w1 = sent w2
  /\ outside w1 = outside w2.

(** [int(os.getenv("ALERT_SMTP_PORT", "587"))] does not raise. *)
Definition smtp_port_ok (env : gmap string string) : Prop :=
  is_Some (py_int (default "587" (env !! "ALERT_SMTP_PORT"))).

(** The line [notify_alert] writes first. *)
Definition alert_entry (w : world O) (event : string) (details : value) : value :=
  VDict [("timestamp", VStr (utc_iso O (outside w))); ("event", VStr event);
         ("details", details)].



(** A buy gets as far as the risk checks: a size is given, the account
    snapshot is fetched by [broker] and read as [equity] and [buying_power]
    leaving the world [w1], and the order notional is known or no notional
    limit is configured. *)
Definition reaches_checks (a : order_args) (w : world O) (broker : AlpacaBroker)
  (equity buying_power : option Q) (w1 : world O) : Prop :=
  (is_Some (qty a) \/ is_Some (notional a))
  /\ (exists w0 account,
         _get_broker w = (Return broker, w0)
         /\ get_account broker w0 = (Return account, w1)
         /\ account_figure account "equity" = Return equity
         /\ account_figure account "buying_power" = Return buying_power)
  /\ (_estimate_order_notional (qty a) (notional a) (estimated_price a) = None ->
      forall key, In key notional_limit_keys -> env_float (environ w) key = None).

(** The rest of [live_buy] once the daily-loss check has passed: the sizing
    checks and the submission. *)
Definition sized_buy (a : order_args) (broker : AlpacaBroker)
  (equity buying_power : option Q) : M value :=
  match _estimate_order_notional (qty a) (notional a) (estimated_price a) with
  | Some n =>
      do limit_error <- _ensure_notional_limits n equity ;
      if truthy_opt limit_error then
        run notify_alert "risk_limit_triggered"
              (risk_details "order_notional" (symbol a) (opt_value limit_error)) ;
        ret (error_dict (opt_value limit_error))
      else if match buying_power with Some bp => Qgtb n bp | None => false end then
        run notify_alert "risk_limit_triggered"
              (risk_details "buying_power" (symbol a) (VStr "Insufficient buying power")) ;
        ret (VDict [("error", VStr "Insufficient buying power");
                    ("buying_power", VNum (default 0%Q buying_power))])
      else
        do positions <- live_get_positions ;
        do current_notional <- lift (_get_position_notional positions (symbol a)) ;
        do position_error <- _ensure_position_limits current_notional n equity ;
        if truthy_opt position_error then
          run notify_alert "risk_limit_triggered"
                (risk_details "position_limit" (symbol a) (opt_value position_error)) ;
          ret (error_dict (opt_value position_error))
        else guarded_submit broker "buy" a
  | None => guarded_submit broker "buy" a
  end.

(** The rest of [live_buy] from the daily-loss check on. *)
Definition gated_buy (a : order_args) (broker : AlpacaBroker)
  (equity buying_power : option Q) : M value :=
  do loss_error <- _daily_loss_exceeded equity ;
  if truthy_opt loss_error then
    run notify_alert "risk_limit_triggered"
          (risk_details "daily_loss" (symbol a) (opt_value loss_error)) ;
    ret (error_dict (opt_value loss_error))
  else sized_buy a broker equity buying_power.

(** [os.getenv("ALLOW_SHORT", "false").lower() == "true"] is false. *)
Definition shorting_disabled (env : gmap string string) : Prop :=
  String.eqb (lower (default "false" (env !! "ALLOW_SHORT"))) "true" = false.

(** The end of [live_sell]: the order goes to the broker adapter. *)
Definition sell_submission (a : order_args) : M value :=
  do broker <- _get_broker ; guarded_submit broker "sell" a.

Definition short_sale_rejection (current_qty : Q) : value :=
  VDict [("error", VStr "Shorting disabled or insufficient position");
         ("current_qty", VNum current_qty)].

Definition fail_closed_rejection : value :=
  error_dict (VStr "estimated_price is required when qty is used with notional limits").

(** *** The risk checks of a buy, one by one *)





Definition over (amount : Q) (cap : option Q) : bool :=
  match cap with Some mx => Qgtb amount mx | None => false end.

Definition over_share (amount : Q) (equity share : option Q) : bool :=
  match share, equity with
  | Some pct, Some eq => truthy_num equity && Qgtb amount (eq * pct)
  | _, _ => false
  end.






Definition size_error : value :=
  error_dict (VStr "Either qty or notional must be provided").

Definition side_error : value := error_dict (VStr "side must be buy or sell").

Definition credentials_error : exn :=
  Exn ValueError (VStr "ALPACA_API_KEY and ALPACA_API_SECRET must be set").

(** The call [_request] hands to [requests.request]. *)
Definition broker_call (self : AlpacaBroker) (method path : string) (body : option value)
  : http_call :=
  {| call_method := method; call_url := (base_url self ++ path)%string;
     call_key := default "" (api_key self); call_secret := default "" (api_secret self);
     call_body := body |}.

(** The state the store holds, as [load_state] reads it. *)
Definition stored_state (w : world O) : value :=
  default (VDict []) (live_state_json w).

(** No mail can be sent: the host, the recipient or the sender is not set. *)
Definition mail_unconfigured (env : gmap string string) : Prop :=
  truthy_str (env !! "ALERT_SMTP_HOST") = false
  \/ truthy_str (env !! "ALERT_EMAIL_TO") = false
  \/ truthy_str (env !! "ALERT_EMAIL_FROM") = false.

(** The line [notify_alert] adds when a delivery failed. *)
Definition delivery_error_entry (w : world O) (webhook_error email_error : option value)
  : value :=
  VDict [("timestamp", VStr (utc_iso O (outside w)));
         ("event", VStr "alert_delivery_error");
         ("details", VDict [("webhook_error", opt_value webhook_error);
                            ("email_error", opt_value email_error)])].

(** The adapter [AlpacaBroker()] builds from an environment. *)
Definition broker_of_env (env : gmap string string) : AlpacaBroker :=
  {| api_key := env !! "ALPACA_API_KEY"; api_secret := env !! "ALPACA_API_SECRET";
     base_url := default "https://paper-api.alpaca.markets" (env !! "ALPACA_BASE_URL");
     timeout := 10 |}.

(** A figure of the run summary, [None] where the source yields [None]. *)
Definition figure_or_none (account : value) (key : string) : option Q :=
  match summary_figure account key with Return figure => figure | Raise _ => None end.

(** The line [record_run_summary] writes. *)
Definition summary_entry (timestamp run_id model_signature status : string)
  (account positions : value) (details : option value) : list (string * value) :=
  [("timestamp", VStr timestamp);
   ("run_id", VStr run_id);
   ("model_signature", VStr model_signature);
   ("status", VStr status);
   ("account", account);
   ("equity", opt_num (figure_or_none account "equity"));
   ("buying_power", opt_num (figure_or_none account "buying_power"));
   ("positions", positions);
   ("details", match details with
               | Some d => if truthy d then d else VDict []
               | None => VDict []
               end)].

(** The order an intent stands for, as [broker] would send it. *)
Definition order_call (broker : AlpacaBroker) (side : string) (a : order_args) : http_call :=
  broker_call broker "POST" "/v2/orders"
              (Some (VDict (submit_payload (submit_args_of side a)))).

(** [m] sends no order, or just the one order of [a]. *)
Definition sends_at_most {A} (side : string) (a : order_args) (m : M A) : Prop :=
  forall w,
    orders_sent (snd (m w)) = orders_sent w
    \/ exists broker, orders_sent (snd (m w)) = orders_sent w ++ [order_call broker side a].

(** [m] adds at most [bound] orders to those sent. *)
Definition orders_within {A} (bound : nat) (m : M A) : Prop :=
  forall w, exists added,
    orders_sent (snd (m w)) = orders_sent w ++ added /\ (length added <= bound)%nat.

(** * Properties *)

(** ** The equity split *)

Lemma inject_Z_succ (z : Z) : (inject_Z z + 1)%Q = inject_Z (z + 1).
Proof. unfold Qplus, inject_Z; simpl. f_equal. lia. Qed.

Lemma bump_prefix (f : Q -> Q) (x : Q) (r : nat) :
  forall (done_ : list Q) (m : nat),
    (r <= m)%nat ->
    fold_left (fun qs idx => alter f idx qs) (seq (length done_) r)
              (done_ ++ replicate m x)
    = done_ ++ replicate r (f x) ++ replicate (m - r) x.
Proof.
  induction r as [|r IH]; intros done_ m Hle.
  - simpl. by rewrite Nat.sub_0_r.
  - destruct m as [|m]; [lia|]. simpl.
    replace (alter f (length done_) (done_ ++ x :: replicate m x))
      with ((done_ ++ [f x]) ++ replicate m x).
    + replace (S (length done_)) with (length (done_ ++ [f x]))
        by (rewrite length_app; simpl; lia).
      rewrite IH by lia. by rewrite <- app_assoc.
    + pose proof (alter_app_r f done_ (x :: replicate m x) 0) as Halter.
      rewrite Nat.add_0_r in Halter. rewrite Halter.
      by rewrite <- app_assoc.
Qed.

Lemma bump_first_replicate (b : Z) (r n : nat) :
  (r <= n)%nat ->
  bump_first r (replicate n (inject_Z b))
  = inject_Z <$> (replicate r (b + 1) ++ replicate (n - r) b).
Proof.
  intros Hle. unfold bump_first.
  pose proof (bump_prefix (fun q => (q + 1)%Q) (inject_Z b) r [] n Hle) as Hbump.
  simpl in Hbump. rewrite Hbump.
  rewrite fmap_app, !fmap_replicate. by rewrite inject_Z_succ.
Qed.

Lemma Qgtb_unit_positive (z : Z) : 0 < z -> Qgtb (inject_Z z) 0 = true.
Proof.
  intros Hz. unfold Qgtb. apply negb_true_iff.
  destruct (Qle_bool (inject_Z z) 0) eqn:Hle; [|done].
  apply Qle_bool_iff in Hle. unfold Qle, inject_Z in Hle; simpl in Hle. lia.
Qed.

Lemma filter_positive_units (zs : list Z) :
  Forall (fun z => 0 < z) zs ->
  List.filter (fun q => Qgtb q 0) (inject_Z <$> zs) = inject_Z <$> zs.
Proof.
  induction 1 as [|z zs Hz _ IH]; [done|].
  rewrite fmap_cons. cbn [List.filter]. rewrite IH.
  by rewrite Qgtb_unit_positive.
Qed.

Lemma split_as_planned (total_qty : Q) (slices : Z) :
  _split_equity_qty total_qty slices = planned_equity_split total_qty slices.
Proof.
  unfold _split_equity_qty, planned_equity_split.
  destruct (Z.leb_spec slices 1) as [|Hs]; [done|].
  destruct (Z.leb_spec (py_trunc total_qty / slices) 0) as [|Hb]; [done|].
  pose proof (Z.mod_pos_bound (py_trunc total_qty) slices ltac:(lia)) as Hr.
  rewrite bump_first_replicate by lia.
  rewrite filter_positive_units.
  - by rewrite <- Z2Nat.inj_sub by lia.
  - apply Forall_app; split; apply Forall_replicate; lia.
Qed.








(** ** Running computations *)

Lemma bind_return {A B} (m : M A) (k : A -> M B) w x w' :
  m w = (Return x, w') -> bind m k w = k x w'.
Proof. intros H. unfold bind. by rewrite H. Qed.

Lemma bind_raise {A B} (m : M A) (k : A -> M B) w e w' :
  m w = (Raise e, w') -> bind m k w = (Raise e, w').
Proof. intros H. unfold bind. by rewrite H. Qed.

Lemma get_env_float_run (key : string) (w : world O) :
  _get_env_float key w = (Return (env_float (environ w) key), w).
Proof.
  unfold _get_env_float, env_float, bind, getenv, ret.
  destruct (environ w !! key) as [v|]; [|done]. by destruct (String.eqb v "").
Qed.

(** ** The daily baseline *)

Lemma fields_get_set (key : string) (v : value) (d : list (string * value)) :
  fields_get key (fields_set key v d) = Some v.
Proof.
  induction d as [|[k v0] d IH]; simpl.
  - by rewrite String.eqb_refl.
  - destruct (String.eqb k key) eqn:Hk; simpl; rewrite Hk; [done | exact IH].
Qed.

Lemma differs_from_str_spec (obj : value) (today : string) :
  differs_from_str obj today = true <-> obj <> VStr today.
Proof.
  destruct obj; simpl; try (split; [discriminate | done]).
  destruct (String.eqb_spec s today) as [->|Hne]; simpl.
  - split; [discriminate | congruence].
  - split; [congruence | done].
Qed.

(** A new day: the record is replaced and the replacement is on file. *)
Lemma day_state_rotates (equity : Q) (w : world O) (stored : value) :
  stored_date w = Return stored ->
  stored <> VStr (utc_date O (outside w)) ->
  exists w',
    get_or_init_day_state equity w
      = (Return (fresh_day (utc_date O (outside w)) equity), w')
    /\ stored_day w' = Return (fresh_day (utc_date O (outside w)) equity)
    /\ utc_date O (outside w') = utc_date O (outside w).
Proof.
  intros Hdate Hne. apply differs_from_str_spec in Hne.
  unfold stored_date, stored_day in Hdate.
  unfold get_or_init_day_state, bind, load_state, lift, save_state, ret.
  destruct (default (VDict []) (live_state_json w)) as [| | | | |?|st] eqn:Hst;
    try discriminate.
  simpl in Hdate |- *.
  destruct (py_get (default (VDict []) (fields_get "daily" st)) "date" VNone)
    as [d|] eqn:Hd; [|discriminate].
  injection Hdate as ->. rewrite Hne. simpl.
  eexists. split; [reflexivity|]. split; [|done].
  unfold stored_day; simpl. by rewrite fields_get_set.
Qed.

(** The same day: the record on file is returned and nothing is written. *)
Lemma day_state_kept (equity : Q) (w : world O) (day : value) :
  stored_day w = Return day ->
  py_get day "date" VNone = Return (VStr (utc_date O (outside w))) ->
  get_or_init_day_state equity w = (Return day, w).
Proof.
  intros Hday Hdate. unfold stored_day in Hday.
  unfold get_or_init_day_state, bind, load_state, lift, save_state, ret.
  rewrite Hday, Hdate. simpl. by rewrite String.eqb_refl.
Qed.

(** Whatever a call returns is the record of today on file afterwards. *)
Lemma day_state_on_file (equity : Q) (w w' : world O) (day : value) :
  get_or_init_day_state equity w = (Return day, w') ->
  stored_day w' = Return day
  /\ py_get day "date" VNone = Return (VStr (utc_date O (outside w))).
Proof.
  unfold get_or_init_day_state, bind, load_state, lift, save_state, ret.
  destruct (py_get (default (VDict []) (live_state_json w)) "daily" (VDict []))
    as [d0|] eqn:Hday; [|discriminate].
  destruct (py_get d0 "date" VNone) as [stored|] eqn:Hdate; [|discriminate].
  destruct (differs_from_str stored (utc_date O (outside w))) eqn:Hdiff.
  - destruct (default (VDict []) (live_state_json w)) as [| | | | |?|st] eqn:Hst;
      try discriminate.
    simpl. intros [= <- <-]. split; [|by simpl].
    unfold stored_day; simpl. by rewrite fields_get_set.
  - intros [= <- <-]. split; [exact Hday|].
    destruct stored; simpl in Hdiff; try discriminate.
    apply negb_false_iff, String.eqb_eq in Hdiff. by subst.
Qed.

(** C7: the baseline is written once per day.  Two calls on the same day,
    whatever equity each is given, return the record the first one returned,
    and the second writes nothing; when the stored date is not today, the
    call returns [{date: today, equity_start: equity_now}], and that record,
    not the previous one, is on file when it returns. *)
Theorem day_state_write_once :
  (forall (equity1 equity2 : Q) (w w1 w2 : world O) (day : value),
      get_or_init_day_state equity1 w = (Return day, w1) ->
      live_state_json w2 = live_state_json w1 ->
      utc_date O (outside w2) = utc_date O (outside w) ->
      get_or_init_day_state equity2 w2 = (Return day, w2))
  /\ (forall (equity_now : Q) (w : world O) (stored : value),
        stored_date w = Return stored ->
        stored <> VStr (utc_date O (outside w)) ->
        exists w',
          get_or_init_day_state equity_now w
            = (Return (fresh_day (utc_date O (outside w)) equity_now), w')
          /\ stored_day w' = Return (fresh_day (utc_date O (outside w)) equity_now)
          /\ utc_date O (outside w') = utc_date O (outside w)).
Proof.
  split.
  - intros equity1 equity2 w w1 w2 day Hfirst Hfile Hdate.
    apply day_state_on_file in Hfirst as [Hday Htoday].
    apply day_state_kept.
    + unfold stored_day in *. by rewrite Hfile.
    + by rewrite Hdate.
  - intros equity_now w stored. apply day_state_rotates.
Qed.

(** ** Computations that do not notice a changed setting *)

Section Respects.

Variable f : gmap string string -> gmap string string.
Variable g : option value -> option value.
Variable key0 : string.

Hypothesis key0_is_limit : is_risk_limit_key key0 = true.
Hypothesis f_elsewhere : forall env key, key <> key0 -> f env !! key = env !! key.

Let T := tweak f g.

Lemma f_other (key : string) :
  is_risk_limit_key key = false -> forall env, f env !! key = env !! key.
Proof.
  intros Hkey env. apply f_elsewhere. intros ->.
  rewrite key0_is_limit in Hkey. discriminate.
Qed.

Lemma respects_ret {A} (a : A) : respects T (ret a).
Proof. by intros w. Qed.

Lemma respects_raise {A} (e : exn) : respects T (@raise A e).
Proof. by intros w. Qed.

Lemma respects_lift {A} (o : outcome A) : respects T (lift o).
Proof. by intros w. Qed.

Lemma respects_bind {A B} (m : M A) (k : A -> M B) :
  respects T m -> (forall x, respects T (k x)) -> respects T (bind m k).
Proof.
  intros Hm Hk w. unfold bind. rewrite Hm.
  destruct (m w) as [[x|e] w']; simpl; [apply Hk | done].
Qed.

Lemma respects_try {A} (m : M A) (catches : exn_class -> bool) (h : exn -> M A) :
  respects T m -> (forall e, respects T (h e)) -> respects T (try_except m catches h).
Proof.
  intros Hm Hh w. unfold try_except. rewrite Hm.
  destruct (m w) as [[x|e] w']; simpl; [done|].
  destruct (catches (exn_cls e)); [apply Hh | done].
Qed.

Lemma respects_getenv (key : string) :
  is_risk_limit_key key = false -> respects T (getenv key).
Proof. intros Hkey w. unfold getenv; simpl. by rewrite f_other. Qed.

Lemma respects_getenv_default (key dflt : string) :
  is_risk_limit_key key = false -> respects T (getenv_default key dflt).
Proof. intros Hkey w. unfold getenv_default; simpl. by rewrite f_other. Qed.

Lemma respects_call_requests (c : http_call) : respects T (call_requests c).
Proof.
  intros w. unfold call_requests; simpl.
  by destruct (requests_request O c (outside w)).
Qed.

Lemma respects_post_webhook (url : string) (payload : value) :
  respects T (post_webhook url payload).
Proof.
  intros w. unfold post_webhook; simpl.
  by destruct (requests_post O url payload (outside w)).
Qed.

Lemma respects_deliver_mail (m : mail) : respects T (deliver_mail m).
Proof.
  intros w. unfold deliver_mail; simpl.
  by destruct (smtp_deliver O m (outside w)) as [[e|] o'].
Qed.

Lemma respects_write_alert_log (entry : value) : respects T (_write_alert_log entry).
Proof. by intros w. Qed.

Ltac respects_step :=
  first
    [ apply respects_ret | apply respects_raise | apply respects_lift
    | apply respects_getenv; reflexivity
    | apply respects_getenv_default; reflexivity
    | apply respects_call_requests | apply respects_post_webhook
    | apply respects_deliver_mail | apply respects_write_alert_log
    | apply respects_bind; [|intros ?]
    | apply respects_try; [|intros ?]
    | match goal with
      | |- respects _ (match ?x with _ => _ end) => destruct x
      end
    | solve [intros ?; reflexivity] ].

Lemma respects_get_broker : respects T _get_broker.
Proof.
  assert (respects T AlpacaBroker_init) as Hinit
    by (unfold AlpacaBroker_init; repeat respects_step).
  intros w. unfold _get_broker. change (_broker (T w)) with (_broker w).
  destruct (_broker w); [done|]. rewrite Hinit.
  by destruct (AlpacaBroker_init w) as [[b|e] w'].
Qed.

Lemma respects_request (self : AlpacaBroker) (method path : string) (body : option value) :
  respects T (_request self method path body).
Proof. unfold _request. repeat respects_step. Qed.

Lemma respects_positions : respects T live_get_positions.
Proof.
  unfold live_get_positions, list_positions.
  apply respects_bind; [apply respects_get_broker | intros ?; apply respects_request].
Qed.

Lemma respects_guarded_submit (broker : AlpacaBroker) (side : string) (a : order_args) :
  respects T (guarded_submit broker side a).
Proof.
  unfold guarded_submit, submit_order.
  apply respects_try; [|intros ?; respects_step].
  destruct (_ && _); [respects_step | apply respects_request].
Qed.


Lemma respects_send_webhook (message details : value) :
  respects T (_send_webhook message details).
Proof. unfold _send_webhook. repeat respects_step. Qed.

Lemma respects_send_email (subject body : value) :
  respects T (_send_email subject body).
Proof. unfold _send_email. repeat respects_step. Qed.

Lemma respects_notify_alert (event : string) (details : value) :
  respects T (notify_alert event details).
Proof.
  unfold notify_alert.
  apply respects_bind; [respects_step | intros timestamp].
  apply respects_bind; [respects_step | intros _].
  apply respects_bind; [apply respects_send_webhook | intros webhook_error].
  apply respects_bind; [apply respects_send_email | intros email_error].
  repeat respects_step.
Qed.

(** From here on the state file is left alone and [key0] reads the same. *)
Hypothesis g_id : forall file, g file = file.
Hypothesis f_key0 : forall env, env_float (f env) key0 = env_float env key0.

Lemma respects_get_env_float (key : string) : respects T (_get_env_float key).
Proof.
  intros w. rewrite !get_env_float_run. simpl. f_equal. f_equal.
  destruct (String.eqb_spec key key0) as [->|Hne]; [apply f_key0|].
  unfold env_float. by rewrite f_elsewhere.
Qed.

Lemma respects_load_state : respects T load_state.
Proof. intros w. unfold load_state; simpl. by rewrite g_id. Qed.

Lemma respects_save_state (state : value) : respects T (save_state state).
Proof. intros w. unfold save_state, set_live_state, T, tweak; simpl. by rewrite !g_id. Qed.

Lemma respects_day_state (equity : Q) : respects T (get_or_init_day_state equity).
Proof.
  unfold get_or_init_day_state.
  apply respects_bind; [respects_step | intros today].
  apply respects_bind; [apply respects_load_state | intros state].
  apply respects_bind; [respects_step | intros day_state].
  apply respects_bind; [respects_step | intros stored].
  destruct (differs_from_str stored today); [|respects_step].
  apply respects_bind; [respects_step | intros state'].
  apply respects_bind; [apply respects_save_state | intros _]. respects_step.
Qed.

Lemma respects_daily_loss (equity : option Q) : respects T (_daily_loss_exceeded equity).
Proof.
  unfold _daily_loss_exceeded. destruct equity as [eq|]; [|respects_step].
  apply respects_bind; [apply respects_get_env_float | intros [mx|]]; [|respects_step].
  apply respects_bind; [apply respects_day_state | intros day_state].
  repeat respects_step.
Qed.

Lemma respects_notional_limits (n : Q) (equity : option Q) :
  respects T (_ensure_notional_limits n equity).
Proof.
  unfold _ensure_notional_limits.
  apply respects_bind; [apply respects_get_env_float | intros ?].
  apply respects_bind; [apply respects_get_env_float | intros ?]. respects_step.
Qed.

Lemma respects_position_limits (current n : Q) (equity : option Q) :
  respects T (_ensure_position_limits current n equity).
Proof.
  unfold _ensure_position_limits.
  apply respects_bind; [apply respects_get_env_float | intros ?].
  apply respects_bind; [apply respects_get_env_float | intros ?]. respects_step.
Qed.

Lemma respects_any_limit_set (keys : list string) : respects T (any_limit_set keys).
Proof.
  induction keys as [|key keys IH]; simpl; [respects_step|].
  apply respects_bind; [apply respects_get_env_float | intros v].
  destruct (bool_decide _); [respects_step | exact IH].
Qed.

Lemma respects_live_buy (a : order_args) : respects T (live_buy a).
Proof.
  unfold live_buy. destruct (_ && _); [respects_step|].
  apply respects_bind; [apply respects_get_broker | intros broker].
  apply respects_bind; [apply respects_request | intros account].
  apply respects_bind; [respects_step | intros equity].
  apply respects_bind; [respects_step | intros buying_power].
  apply respects_bind.
  { destruct (_estimate_order_notional _ _ _);
      [respects_step | apply respects_any_limit_set]. }
  intros [|]; [respects_step|].
  apply respects_bind; [apply respects_daily_loss | intros loss_error].
  destruct (truthy_opt loss_error).
  { apply respects_bind; [apply respects_notify_alert | intros _]. respects_step. }
  destruct (_estimate_order_notional _ _ _) as [n|];
    [|apply respects_guarded_submit].
  apply respects_bind; [apply respects_notional_limits | intros limit_error].
  destruct (truthy_opt limit_error).
  { apply respects_bind; [apply respects_notify_alert | intros _]. respects_step. }
  destruct (match buying_power with Some bp => Qgtb n bp | None => false end).
  { apply respects_bind; [apply respects_notify_alert | intros _]. respects_step. }
  apply respects_bind; [apply respects_positions | intros positions].
  apply respects_bind; [respects_step | intros current_notional].
  apply respects_bind; [apply respects_position_limits | intros position_error].
  destruct (truthy_opt position_error); [|apply respects_guarded_submit].
  apply respects_bind; [apply respects_notify_alert | intros _]. respects_step.
Qed.

End Respects.

(** ** A malformed limit *)

Lemma unset_if_malformed_elsewhere (key0 : string) (env : gmap string string) (key : string) :
  key <> key0 -> unset_if_malformed key0 env !! key = env !! key.
Proof.
  intros Hne. unfold unset_if_malformed.
  destruct (env !! key0) as [v|]; [|done].
  destruct (py_float v); [done|]. by rewrite lookup_delete_ne.
Qed.

Lemma unset_if_malformed_reads_same (key0 : string) (env : gmap string string) :
  env_float (unset_if_malformed key0 env) key0 = env_float env key0.
Proof.
  unfold unset_if_malformed.
  destruct (env !! key0) as [v|] eqn:Hv; [|done].
  destruct (py_float v) eqn:Hparse; [done|].
  unfold env_float. rewrite lookup_delete_eq, Hv, Hparse. by destruct (String.eqb v "").
Qed.

Lemma malformed_as_unset {A} (m : M A) (key v : string) (w : world O) :
  respects (tweak (unset_if_malformed key) (fun file => file)) m ->
  environ w !! key = Some v ->
  py_float v = None ->
  fst (m (unset key w)) = fst (m w)
  /\ same_effects (snd (m (unset key w))) (snd (m w)).
Proof.
  intros Hm Hv Hparse.
  assert (unset key w = tweak (unset_if_malformed key) (fun file => file) w) as ->.
  { unfold unset, tweak, unset_if_malformed. by rewrite Hv, Hparse. }
  rewrite Hm. simpl. by repeat split.
Qed.

(** C10: a risk limit whose variable is set to something [float] cannot
    parse reads as [None] (no exception, no zero), and the buy path and each
    limit check then behave exactly as in the world where the variable is
    not set at all: same outcome, same effects. *)
Theorem malformed_limit_reads_as_unset
  (key v : string) (w : world O) :
  is_risk_limit_key key = true ->
  environ w !! key = Some v ->
  py_float v = None ->
  _get_env_float key w = (Return None, w)
  /\ (forall a,
        fst (live_buy a (unset key w)) = fst (live_buy a w)
        /\ same_effects (snd (live_buy a (unset key w))) (snd (live_buy a w)))
  /\ (forall n equity,
        fst (_ensure_notional_limits n equity (unset key w))
        = fst (_ensure_notional_limits n equity w))
  /\ (forall current n equity,
        fst (_ensure_position_limits current n equity (unset key w))
        = fst (_ensure_position_limits current n equity w))
  /\ (forall equity,
        fst (_daily_loss_exceeded equity (unset key w))
        = fst (_daily_loss_exceeded equity w)
        /\ same_effects (snd (_daily_loss_exceeded equity (unset key w)))
                        (snd (_daily_loss_exceeded equity w))).
Proof.
  intros Hkey Hv Hparse.
  pose proof (unset_if_malformed_elsewhere key) as Helse.
  pose proof (unset_if_malformed_reads_same key) as Hsame.
  split.
  { rewrite get_env_float_run. unfold env_float. rewrite Hv, Hparse.
    by destruct (String.eqb v ""). }
  split.
  { intros a. apply (malformed_as_unset _ key v); [|done..].
    by apply (respects_live_buy _ _ key). }
  split.
  { intros n equity. apply (malformed_as_unset _ key v); [|done..].
    by apply (respects_notional_limits _ _ key). }
  split.
  { intros current n equity. apply (malformed_as_unset _ key v); [|done..].
    by apply (respects_position_limits _ _ key). }
  intros equity. apply (malformed_as_unset _ key v); [|done..].
  by apply (respects_daily_loss _ _ key).
Qed.

(** ** Computations that leave a part of the world alone *)

Section Keeps.

Context {X : Type} (part : world O -> X).

Hypothesis part_outside : forall o w, part (set_outside o w) = part w.
Hypothesis part_sent : forall l w, part (set_sent l w) = part w.
Hypothesis part_broker : forall b w, part (set_broker b w) = part w.
Hypothesis part_file : forall file w, part (set_live_state file w) = part w.
Hypothesis part_alerts : forall l w, part (set_live_alerts l w) = part w.

Lemma keeps_ret {A} (a : A) : keeps part (ret a).
Proof. by intros w. Qed.

Lemma keeps_raise {A} (e : exn) : keeps part (@raise A e).
Proof. by intros w. Qed.

Lemma keeps_lift {A} (o : outcome A) : keeps part (lift o).
Proof. by intros w. Qed.

Lemma keeps_bind {A B} (m : M A) (k : A -> M B) :
  keeps part m -> (forall x, keeps part (k x)) -> keeps part (bind m k).
Proof.
  intros Hm Hk w. unfold bind. specialize (Hm w).
  destruct (m w) as [[x|e] w']; simpl in *; [by rewrite Hk | done].
Qed.

Lemma keeps_try {A} (m : M A) (catches : exn_class -> bool) (h : exn -> M A) :
  keeps part m -> (forall e, keeps part (h e)) -> keeps part (try_except m catches h).
Proof.
  intros Hm Hh w. unfold try_except. specialize (Hm w).
  destruct (m w) as [[x|e] w']; simpl in *; [done|].
  destruct (catches (exn_cls e)); [by rewrite Hh | done].
Qed.

Lemma keeps_getenv (key : string) : keeps part (getenv key).
Proof. by intros w. Qed.

Lemma keeps_getenv_default (key dflt : string) : keeps part (getenv_default key dflt).
Proof. by intros w. Qed.

Lemma keeps_call_requests (c : http_call) : keeps part (call_requests c).
Proof.
  intros w. unfold call_requests.
  destruct (requests_request O c (outside w)); simpl.
  by rewrite part_outside, part_sent.
Qed.

Lemma keeps_post_webhook (url : string) (payload : value) :
  keeps part (post_webhook url payload).
Proof.
  intros w. unfold post_webhook.
  destruct (requests_post O url payload (outside w)); simpl. by rewrite part_outside.
Qed.

Lemma keeps_deliver_mail (m : mail) : keeps part (deliver_mail m).
Proof.
  intros w. unfold deliver_mail.
  destruct (smtp_deliver O m (outside w)) as [[e|] o']; simpl; by rewrite part_outside.
Qed.

Lemma keeps_write_alert_log (entry : value) : keeps part (_write_alert_log entry).
Proof. intros w. unfold _write_alert_log; simpl. by rewrite part_alerts. Qed.

Lemma keeps_load_state : keeps part load_state.
Proof. by intros w. Qed.

Lemma keeps_save_state (state : value) : keeps part (save_state state).
Proof. intros w. unfold save_state; simpl. by rewrite part_file. Qed.

Ltac keeps_step :=
  first
    [ apply keeps_ret | apply keeps_raise | apply keeps_lift
    | apply keeps_getenv | apply keeps_getenv_default
    | apply keeps_call_requests | apply keeps_post_webhook
    | apply keeps_deliver_mail | apply keeps_write_alert_log
    | apply keeps_load_state | apply keeps_save_state
    | apply keeps_bind; [|intros ?]
    | apply keeps_try; [|intros ?]
    | match goal with
      | |- keeps _ (match ?x with _ => _ end) => destruct x
      end
    | solve [intros ?; reflexivity] ].

Lemma keeps_get_broker : keeps part _get_broker.
Proof.
  assert (keeps part AlpacaBroker_init) as Hinit
    by (unfold AlpacaBroker_init; repeat keeps_step).
  intros w. unfold _get_broker. destruct (_broker w); [done|].
  specialize (Hinit w).
  destruct (AlpacaBroker_init w) as [[b|e] w']; simpl in *; [|done].
  by rewrite part_broker.
Qed.

Lemma keeps_request (self : AlpacaBroker) (method path : string) (body : option value) :
  keeps part (_request self method path body).
Proof. unfold _request. repeat keeps_step. Qed.

Lemma keeps_positions : keeps part live_get_positions.
Proof.
  unfold live_get_positions, list_positions.
  apply keeps_bind; [apply keeps_get_broker | intros ?; apply keeps_request].
Qed.

Lemma keeps_guarded_submit (broker : AlpacaBroker) (side : string) (a : order_args) :
  keeps part (guarded_submit broker side a).
Proof.
  unfold guarded_submit, submit_order.
  apply keeps_try; [|intros ?; keeps_step].
  destruct (_ && _); [keeps_step | apply keeps_request].
Qed.

Lemma keeps_live_sell (a : order_args) : keeps part (live_sell a).
Proof.
  unfold live_sell.
  destruct (_ && _); [keeps_step|].
  apply keeps_bind; [keeps_step | intros raw].
  apply keeps_bind.
  - destruct (qty a) as [q|]; [|keeps_step].
    destruct (negb _); [|keeps_step].
    apply keeps_bind; [apply keeps_positions | intros positions].
    repeat keeps_step.
  - intros [result|]; [keeps_step|].
    apply keeps_bind; [apply keeps_get_broker | intros b].
    apply keeps_guarded_submit.
Qed.

Lemma keeps_day_state (equity : Q) : keeps part (get_or_init_day_state equity).
Proof. unfold get_or_init_day_state. repeat keeps_step. Qed.

Lemma keeps_daily_loss (equity : option Q) : keeps part (_daily_loss_exceeded equity).
Proof.
  unfold _daily_loss_exceeded. destruct equity as [eq|]; [|keeps_step].
  apply keeps_bind; [intros w; by rewrite get_env_float_run | intros [mx|]];
    [|keeps_step].
  apply keeps_bind; [apply keeps_day_state | intros day_state].
  repeat keeps_step.
Qed.

Lemma keeps_notify_alert (event : string) (details : value) :
  keeps part (notify_alert event details).
Proof.
  unfold notify_alert, _send_webhook, _send_email. repeat keeps_step.
Qed.

End Keeps.

Lemma kept {X A} (part : world O -> X) (m : M A) (w w' : world O) (r : outcome A) :
  keeps part m -> m w = (r, w') -> part w' = part w.
Proof. intros Hk Hrun. specialize (Hk w). by rewrite Hrun in Hk. Qed.

Lemma account_keeps {X} (part : world O -> X) (w w0 w1 : world O)
  (broker : AlpacaBroker) (account : value) :
  (forall o w, part (set_outside o w) = part w) ->
  (forall l w, part (set_sent l w) = part w) ->
  (forall b w, part (set_broker b w) = part w) ->
  _get_broker w = (Return broker, w0) ->
  get_account broker w0 = (Return account, w1) ->
  part w1 = part w.
Proof.
  intros Ho Hs Hb Hbroker Haccount.
  rewrite (kept part _ _ _ _ (keeps_request part Ho Hs _ _ _ _) Haccount).
  apply (kept part _ _ _ _ (keeps_get_broker part Hb) Hbroker).
Qed.

(** ** Alerts *)

Lemma keeps_send_webhook {X} (part : world O -> X) (message details : value) :
  (forall o w, part (set_outside o w) = part w) ->
  keeps part (_send_webhook message details).
Proof.
  intros Hout. unfold _send_webhook.
  apply keeps_bind; [apply keeps_getenv | intros url].
  destruct (negb _); [apply keeps_ret|].
  apply keeps_try; [|intros ?; apply keeps_ret].
  apply keeps_bind; [by apply keeps_post_webhook | intros r].
  destruct (negb _); apply keeps_ret.
Qed.


Lemma send_webhook_returns (message details : value) (w : world O) :
  exists r w', _send_webhook message details w = (Return r, w').
Proof.
  unfold _send_webhook, bind, getenv, try_except, post_webhook, ret, any_exception.
  destruct (negb _); [by eauto|].
  destruct (requests_post O _ _ (outside w)) as [[r|e] o']; [|by eauto].
  destruct (negb (resp_ok r)); by eauto.
Qed.



(** ** Reaching the risk checks *)

Lemma any_limit_set_run (keys : list string) (w : world O) :
  any_limit_set keys w
  = (Return (existsb (fun key => bool_decide (is_Some (env_float (environ w) key))) keys), w).
Proof.
  induction keys as [|key keys IH]; [done|].
  simpl. rewrite (bind_return _ _ _ _ _ (get_env_float_run key w)).
  destruct (bool_decide _); [done | exact IH].
Qed.

Lemma no_limit_set (keys : list string) (env : gmap string string) :
  (forall key, In key keys -> env_float env key = None) ->
  existsb (fun key => bool_decide (is_Some (env_float env key))) keys = false.
Proof.
  induction keys as [|key keys IH]; intros Hnone; [done|]. simpl.
  rewrite (Hnone key) by (by left). simpl.
  apply IH. intros k Hk. apply Hnone. by right.
Qed.

Lemma size_given (a : order_args) :
  is_Some (qty a) \/ is_Some (notional a) ->
  negb (bool_decide (is_Some (qty a))) && negb (bool_decide (is_Some (notional a))) = false.
Proof.
  intros [H|H].
  - by rewrite (bool_decide_eq_true_2 _ H).
  - rewrite (bool_decide_eq_true_2 _ H). simpl. apply andb_false_r.
Qed.

Lemma live_buy_reaches (a : order_args) (w : world O) (broker : AlpacaBroker)
  (equity buying_power : option Q) (w1 : world O) :
  reaches_checks a w broker equity buying_power w1 ->
  live_buy a w = gated_buy a broker equity buying_power w1.
Proof.
  intros (Hsize & (w0 & account & Hbroker & Haccount & Heq & Hbp) & Hguard).
  assert (environ w1 = environ w) as Henv
    by (by apply (account_keeps environ w w0 w1 broker account)).
  unfold live_buy. rewrite (size_given a Hsize).
  rewrite (bind_return _ _ _ _ _ Hbroker), (bind_return _ _ _ _ _ Haccount).
  rewrite Heq, Hbp.
  rewrite (bind_return _ _ w1 equity w1) by done.
  rewrite (bind_return _ _ w1 buying_power w1) by done.
  unfold gated_buy, sized_buy.
  destruct (_estimate_order_notional (qty a) (notional a) (estimated_price a)) as [n|].
  - by rewrite (bind_return _ _ w1 false w1).
  - rewrite (bind_return _ _ _ _ _ (any_limit_set_run notional_limit_keys w1)).
    rewrite Henv, no_limit_set; [done | by apply Hguard].
Qed.

(** ** The daily-loss circuit breaker *)

Lemma daily_loss_run (equity limit equity_start : Q) (day : value) (w w' : world O) :
  env_float (environ w) "MAX_DAILY_LOSS_PCT" = Some limit ->
  get_or_init_day_state equity w = (Return day, w') ->
  py_get day "equity_start" VNone = Return (VNum equity_start) ->
  ~ (equity_start == 0)%Q ->
  _daily_loss_exceeded (Some equity) w
  = (Return (if Qle_bool limit (drawdown equity_start equity)
             then Some (VFmt "Daily loss {:.2%} exceeds MAX_DAILY_LOSS_PCT {:.2%}"
                          [VNum (drawdown equity_start equity); VNum limit])
             else None), w').
Proof.
  intros Hlimit Hday Hstart Hnz. unfold _daily_loss_exceeded.
  rewrite (bind_return _ _ _ _ _ (get_env_float_run _ w)), Hlimit.
  rewrite (bind_return _ _ _ _ _ Hday), Hstart.
  rewrite (bind_return _ _ w' (VNum equity_start) w') by done.
  change (truthy (VNum equity_start)) with (negb (Qeq_bool equity_start 0)).
  destruct (Qeq_bool equity_start 0) eqn:Hz; [by apply Qeq_bool_iff in Hz|].
  cbn [negb].
  rewrite (bind_return _ _ w' equity_start w') by done.
  fold (drawdown equity_start equity). unfold Qgeb.
  by destruct (Qle_bool limit (drawdown equity_start equity)).
Qed.


Lemma daily_loss_message_truthy (equity : option Q) (w w' : world O) (message : value) :
  _daily_loss_exceeded equity w = (Return (Some message), w') ->
  truthy message = true.
Proof.
  unfold _daily_loss_exceeded. destruct equity as [eq|]; [|discriminate].
  rewrite (bind_return _ _ _ _ _ (get_env_float_run _ w)).
  destruct (env_float _ _) as [limit|]; [|discriminate].
  unfold bind at 1.
  destruct (get_or_init_day_state eq w) as [[day|e] w1]; [|discriminate].
  unfold bind, lift, ret.
  destruct (py_get day "equity_start" VNone) as [start|]; [|discriminate].
  destruct (negb (truthy start)); [discriminate|].
  destruct (as_number start) as [es|]; [|discriminate].
  destruct (Qgeb _ _); [|discriminate].
  by intros [= <- _].
Qed.





(** ** The short-sale guard *)

Lemma Qgtb_true (a b : Q) : Qgtb a b = true <-> (b < a)%Q.
Proof.
  unfold Qgtb. rewrite negb_true_iff. split.
  - intros Hle. apply Qnot_le_lt. intros H. apply Qle_bool_iff in H. congruence.
  - intros Hlt. destruct (Qle_bool a b) eqn:Hle; [|done].
    apply Qle_bool_iff in Hle. exfalso. by apply (Qlt_not_le b a).
Qed.

Lemma Qgtb_false (a b : Q) : Qgtb a b = false <-> (a <= b)%Q.
Proof.
  unfold Qgtb. rewrite negb_false_iff. apply Qle_bool_iff.
Qed.

Lemma live_sell_guarded (a : order_args) (w w1 : world O) (q held : Q) (positions : value) :
  qty a = Some q ->
  shorting_disabled (environ w) ->
  live_get_positions w = (Return positions, w1) ->
  _get_position_qty positions (symbol a) = Return held ->
  live_sell a w
  = if Qgtb q held then (Return (short_sale_rejection held), w1)
    else sell_submission a w1.
Proof.
  intros Hq Hshort Hpos Hheld. unfold live_sell.
  rewrite size_given by (left; rewrite Hq; by eexists).
  rewrite (bind_return _ _ w (default "false" (environ w !! "ALLOW_SHORT")) w) by done.
  rewrite Hshort, Hq. cbn [negb].
  unfold bind at 1. unfold bind at 1. rewrite Hpos, Hheld. unfold lift.
  unfold bind at 1. by destruct (Qgtb q held).
Qed.

Lemma live_sell_notional_only (a : order_args) (w : world O) (n : Q) :
  qty a = None ->
  notional a = Some n ->
  live_sell a w = sell_submission a w.
Proof.
  intros Hq Hn. unfold live_sell.
  rewrite size_given by (right; rewrite Hn; by eexists).
  rewrite (bind_return _ _ w (default "false" (environ w !! "ALLOW_SHORT")) w) by done.
  by rewrite Hq.
Qed.

(** C9: with shorting disabled, a sell of more than the held quantity is
    rejected, the result carrying the held quantity, and no order is sent;
    a sell of the held quantity or less goes to the broker adapter; a sell
    that gives only a notional goes to the broker adapter without the
    positions being looked at.  The held quantity is that of the first
    position with the symbol, and zero when there is none. *)
Theorem short_sale_guard :
  (forall (a : order_args) (w w1 : world O) (q held : Q) (positions : value),
      qty a = Some q ->
      shorting_disabled (environ w) ->
      live_get_positions w = (Return positions, w1) ->
      _get_position_qty positions (symbol a) = Return held ->
      ((held < q)%Q -> live_sell a w = (Return (short_sale_rejection held), w1))
      /\ ((q <= held)%Q -> live_sell a w = sell_submission a w1))
  /\ (forall (a : order_args) (w : world O) (n : Q),
        qty a = None ->
        notional a = Some n ->
        live_sell a w = sell_submission a w)
  /\ (forall (items : list value) (sym : string),
        find_position items sym = None ->
        _get_position_qty (VList items) sym = Return 0%Q).
Proof.
  split; [|split].
  - intros a w w1 q held positions Hq Hshort Hpos Hheld.
    rewrite (live_sell_guarded a w w1 q held positions Hq Hshort Hpos Hheld).
    split.
    + intros Hlt. apply Qgtb_true in Hlt. by rewrite Hlt.
    + intros Hle. apply Qgtb_false in Hle. by rewrite Hle.
  - exact live_sell_notional_only.
  - intros items sym Hnone. unfold _get_position_qty. by rewrite Hnone.
Qed.

(** ** Failing closed on an unknown notional *)

Lemma some_limit_set (keys : list string) (env : gmap string string) (key : string) :
  In key keys ->
  is_Some (env_float env key) ->
  existsb (fun key => bool_decide (is_Some (env_float env key))) keys = true.
Proof.
  intros Hin Hset. apply existsb_exists. exists key. split; [done|].
  by apply bool_decide_eq_true_2.
Qed.

Lemma get_account_sends_no_order (broker : AlpacaBroker) :
  keeps orders_sent (get_account broker).
Proof.
  intros w. unfold get_account, _request, bind, lift, call_requests.
  destruct (_headers broker) as [hd|e]; [|done].
  destruct (requests_request O _ (outside w)) as [[r|e] o']; simpl.
  - assert (orders_sent (set_outside o' (set_sent (sent w ++ [
              {| call_method := "GET";
                 call_url := (base_url broker ++ "/v2/account")%string;
                 call_key := hd.1; call_secret := hd.2; call_body := None |}]) w))
            = orders_sent w) as Hsame.
    { unfold orders_sent; simpl. rewrite List.filter_app; simpl. apply app_nil_r. }
    destruct (negb (resp_ok r)); [exact Hsame|].
    destruct (resp_json r); exact Hsame.
  - unfold orders_sent; simpl. rewrite List.filter_app; simpl. apply app_nil_r.
Qed.

Lemma live_buy_unevaluable (a : order_args) (w : world O) (q : Q) (key : string) :
  qty a = Some q ->
  notional a = None ->
  estimated_price a = None ->
  In key notional_limit_keys ->
  is_Some (env_float (environ w) key) ->
  live_buy a w
  = match _get_broker w with
    | (Return broker, w0) =>
        match get_account broker w0 with
        | (Return account, w1) =>
            match account_figure account "equity" with
            | Return _ =>
                match account_figure account "buying_power" with
                | Return _ => (Return fail_closed_rejection, w1)
                | Raise e => (Raise e, w1)
                end
            | Raise e => (Raise e, w1)
            end
        | (Raise e, w1) => (Raise e, w1)
        end
    | (Raise e, w0) => (Raise e, w0)
    end.
Proof.
  intros Hq Hn Hp Hin Hset. unfold live_buy.
  rewrite size_given by (left; rewrite Hq; by eexists).
  unfold bind at 1. destruct (_get_broker w) as [[broker|e] w0] eqn:Hbroker; [|done].
  unfold bind at 1. destruct (get_account broker w0) as [[account|e] w1] eqn:Haccount;
    [|done].
  unfold bind at 1, lift at 1.
  destruct (account_figure account "equity") as [equity|e]; [|done].
  unfold bind at 1, lift at 1.
  destruct (account_figure account "buying_power") as [buying_power|e]; [|done].
  rewrite Hq, Hn, Hp. cbn [_estimate_order_notional].
  rewrite (bind_return _ _ _ _ _ (any_limit_set_run notional_limit_keys w1)).
  rewrite (account_keeps environ w w0 w1 broker account) by done.
  by rewrite (some_limit_set _ _ key).
Qed.

(** C5: a buy given by quantity without an estimated price, while one of
    the four order and position notional limits is configured, never sends
    an order; and once the account snapshot has been fetched and read, the
    call returns the rejection that asks for [estimated_price], before the
    daily-loss check, the alert sink or the positions are touched. *)
Theorem unknown_notional_fails_closed
  (a : order_args) (w : world O) (q : Q) (key : string) :
  qty a = Some q ->
  notional a = None ->
  estimated_price a = None ->
  In key notional_limit_keys ->
  is_Some (env_float (environ w) key) ->
  orders_sent (snd (live_buy a w)) = orders_sent w
  /\ (forall r, fst (live_buy a w) = Return r -> r = fail_closed_rejection)
  /\ (forall broker w0 account w1 equity buying_power,
        _get_broker w = (Return broker, w0) ->
        get_account broker w0 = (Return account, w1) ->
        account_figure account "equity" = Return equity ->
        account_figure account "buying_power" = Return buying_power ->
        live_buy a w = (Return fail_closed_rejection, w1)).
Proof.
  intros Hq Hn Hp Hin Hset.
  rewrite (live_buy_unevaluable a w q key Hq Hn Hp Hin Hset).
  split; [|split].
  - destruct (_get_broker w) as [[broker|e] w0] eqn:Hbroker.
    + assert (orders_sent w0 = orders_sent w) as <-
        by (by apply (kept orders_sent _ _ _ _ (keeps_get_broker orders_sent ltac:(done))
                        Hbroker)).
      destruct (get_account broker w0) as [[account|e] w1] eqn:Haccount.
      * assert (orders_sent w1 = orders_sent w0) as <-
          by apply (kept orders_sent _ _ _ _ (get_account_sends_no_order broker) Haccount).
        destruct (account_figure account "equity"); [|done].
        by destruct (account_figure account "buying_power").
      * apply (kept orders_sent _ _ _ _ (get_account_sends_no_order broker) Haccount).
    + by apply (kept orders_sent _ _ _ _ (keeps_get_broker orders_sent ltac:(done)) Hbroker).
  - intros r.
    destruct (_get_broker w) as [[broker|e] w0]; [|done].
    destruct (get_account broker w0) as [[account|e] w1]; [|done].
    destruct (account_figure account "equity"); [|done].
    destruct (account_figure account "buying_power"); [|done].
    by intros [= <-].
  - intros broker w0 account w1 equity buying_power Hbroker Haccount Heq Hbp.
    by rewrite Hbroker, Haccount, Heq, Hbp.
Qed.

(** ** The order of the risk checks *)

Lemma notional_limits_run (n : Q) (equity : option Q) (w : world O) :
  _ensure_notional_limits n equity w
  = (Return
       (or_else
          (if over n (env_float (environ w) "MAX_ORDER_NOTIONAL_USD")
           then Some (VFmt "Order notional {} exceeds MAX_ORDER_NOTIONAL_USD {}"
                        [VNum n;
                         VNum (default 0%Q (env_float (environ w) "MAX_ORDER_NOTIONAL_USD"))])
           else None)
          (if over_share n equity (env_float (environ w) "MAX_ORDER_PCT_EQUITY")
           then Some (VFmt "Order notional {} exceeds MAX_ORDER_PCT_EQUITY {}"
                        [VNum n;
                         VNum (default 0%Q (env_float (environ w) "MAX_ORDER_PCT_EQUITY"))])
           else None)), w).
Proof.
  unfold _ensure_notional_limits.
  rewrite (bind_return _ _ _ _ _ (get_env_float_run _ w)).
  rewrite (bind_return _ _ _ _ _ (get_env_float_run _ w)).
  unfold ret, over, over_share. do 2 f_equal.
  destruct (env_float (environ w) "MAX_ORDER_NOTIONAL_USD") as [mx|];
    destruct (env_float (environ w) "MAX_ORDER_PCT_EQUITY") as [pct|];
    destruct equity as [eq|]; simpl; try done.
Qed.

Lemma position_limits_run (current n : Q) (equity : option Q) (w : world O) :
  _ensure_position_limits current n equity w
  = (Return
       (or_else
          (if over (current + n) (env_float (environ w) "MAX_POSITION_NOTIONAL_USD")
           then Some (VFmt "Position notional {} exceeds MAX_POSITION_NOTIONAL_USD {}"
                        [VNum (current + n)%Q;
                         VNum (default 0%Q
                                 (env_float (environ w) "MAX_POSITION_NOTIONAL_USD"))])
           else None)
          (if over_share (current + n) equity
                (env_float (environ w) "MAX_POSITION_PCT_EQUITY")
           then Some (VFmt "Position notional {} exceeds MAX_POSITION_PCT_EQUITY {}"
                        [VNum (current + n)%Q;
                         VNum (default 0%Q
                                 (env_float (environ w) "MAX_POSITION_PCT_EQUITY"))])
           else None)), w).
Proof.
  unfold _ensure_position_limits.
  rewrite (bind_return _ _ _ _ _ (get_env_float_run _ w)).
  rewrite (bind_return _ _ _ _ _ (get_env_float_run _ w)).
  unfold ret, over, over_share. do 2 f_equal.
  destruct (env_float (environ w) "MAX_POSITION_NOTIONAL_USD") as [mx|];
    destruct (env_float (environ w) "MAX_POSITION_PCT_EQUITY") as [pct|];
    destruct equity as [eq|]; simpl; try done.
Qed.



(** ** What the router catches and what it lets through *)

(** The submission is wrapped: it always returns. *)
Lemma guarded_submit_returns (broker : AlpacaBroker) (side : string) (a : order_args)
  (w : world O) :
  exists r w', guarded_submit broker side a w = (Return r, w').
Proof.
  unfold guarded_submit, try_except, any_exception.
  destruct (submit_order broker (submit_args_of side a) w) as [[r|e] w']; by eauto.
Qed.

(** The account fetch of a buy is not: its exception leaves [live_buy]. *)
Lemma live_buy_account_failure (a : order_args) (w w0 w1 : world O)
  (broker : AlpacaBroker) (e : exn) :
  is_Some (qty a) \/ is_Some (notional a) ->
  _get_broker w = (Return broker, w0) ->
  get_account broker w0 = (Raise e, w1) ->
  live_buy a w = (Raise e, w1).
Proof.
  intros Hsize Hbroker Haccount. unfold live_buy. rewrite (size_given a Hsize).
  rewrite (bind_return _ _ _ _ _ Hbroker). by rewrite (bind_raise _ _ _ _ _ Haccount).
Qed.

(** Nor is the positions fetch of a guarded sell. *)
Lemma live_sell_positions_failure (a : order_args) (w w1 : world O) (q : Q) (e : exn) :
  qty a = Some q ->
  shorting_disabled (environ w) ->
  live_get_positions w = (Raise e, w1) ->
  live_sell a w = (Raise e, w1).
Proof.
  intros Hq Hshort Hpos. unfold live_sell.
  rewrite size_given by (left; rewrite Hq; by eexists).
  rewrite (bind_return _ _ w (default "false" (environ w !! "ALLOW_SHORT")) w) by done.
  rewrite Hshort, Hq. cbn [negb].
  unfold bind at 1. unfold bind at 1. by rewrite Hpos.
Qed.

(** A sell never writes to the alert log. *)
Lemma live_sell_never_alerts (a : order_args) : keeps live_alerts_jsonl (live_sell a).
Proof. apply keeps_live_sell; done. Qed.

(** ** The TWAP loop *)

(** When every slice returns, the loop returns one result per slice, in
    order, after the results it was given. *)
Lemma run_slices_completes (place : Q -> M value) (delay : Z) (amounts : list Q) :
  (forall amount w, exists r w', place amount w = (Return r, w')) ->
  forall results w,
    exists new w',
      run_slices place delay amounts results w = (Return (results ++ new), w')
      /\ length new = length amounts.
Proof.
  intros Hplace. induction amounts as [|amount rest IH]; intros results w.
  - exists [], w. split; [|done]. simpl. by rewrite app_nil_r.
  - destruct (Hplace amount w) as (r & w1 & Hr). simpl.
    rewrite (bind_return _ _ _ _ _ Hr).
    set (w2 := if 0 <? delay then set_outside (time_sleep O delay (outside w1)) w1 else w1).
    rewrite (bind_return _ _ w1 tt w2) by (subst w2; by destruct (0 <? delay)).
    destruct (IH (results ++ [r]) w2) as (new & w' & Hrun & Hlen).
    exists (r :: new), w'. split; [|simpl; by rewrite Hlen].
    rewrite Hrun. by rewrite <- app_assoc.
Qed.

(** A slice that raises ends the loop: the results so far are lost. *)
Lemma run_slices_aborts (place : Q -> M value) (delay : Z) (amount : Q) (rest : list Q)
  (results : list value) (w w' : world O) (e : exn) :
  place amount w = (Raise e, w') ->
  run_slices place delay (amount :: rest) results w = (Raise e, w').
Proof. intros Hr. simpl. by rewrite (bind_raise _ _ _ _ _ Hr). Qed.

Lemma get_broker_returns (w : world O) :
  exists broker w', _get_broker w = (Return broker, w').
Proof.
  unfold _get_broker. destruct (_broker w); [by eauto|].
  unfold AlpacaBroker_init, bind, getenv, getenv_default, ret. by eauto.
Qed.

Lemma given_or_env_returns (given : option Z) (key : string) (dflt : Z) (w : world O) :
  exists z, given_or_env given key dflt w = (Return z, w).
Proof.
  assert (exists z, _get_env_int key dflt w = (Return z, w)) as Henv.
  { unfold _get_env_int, bind, getenv, ret.
    destruct (environ w !! key) as [v|]; [|by eauto].
    destruct (String.eqb v ""); by eauto. }
  unfold given_or_env. destruct given as [z|]; [|done].
  destruct (z =? 0); [done | by exists z].
Qed.

(** A sell by notional touches neither the account nor the positions, so
    it always returns. *)
Lemma live_sell_by_notional_returns (a : order_args) (n : Q) (w : world O) :
  qty a = None ->
  notional a = Some n ->
  exists r w', live_sell a w = (Return r, w').
Proof.
  intros Hq Hn. rewrite (live_sell_notional_only a w n Hq Hn). unfold sell_submission.
  destruct (get_broker_returns w) as (broker & w0 & Hbroker).
  rewrite (bind_return _ _ _ _ _ Hbroker). apply guarded_submit_returns.
Qed.

(** Hence a TWAP sell by notional reports every slice it planned, whatever
    the broker answers to the orders. *)
Lemma twap_sell_by_notional_completes (a : order_args) (n : Q)
  (slices interval_seconds : option Z) (w : world O) :
  qty a = None ->
  notional a = Some n ->
  exists count results w',
    live_twap_order "sell" a slices interval_seconds w
    = (Return (twap_result results), w')
    /\ length results = length (_split_notional n count).
Proof.
  intros Hq Hn. unfold live_twap_order.
  change (lower "sell") with "sell". cbn [String.eqb Ascii.eqb Bool.eqb orb negb].
  rewrite size_given by (right; rewrite Hn; by eexists).
  destruct (given_or_env_returns slices "TWAP_SLICES" 4 w) as (count & Hcount).
  destruct (given_or_env_returns interval_seconds "TWAP_INTERVAL_SECONDS" 15 w)
    as (delay & Hdelay).
  rewrite (bind_return _ _ _ _ _ Hcount), (bind_return _ _ _ _ _ Hdelay).
  rewrite Hq, Hn. cbn [default from_option id].
  match goal with
  | |- context [run_slices ?place delay ?amounts []] =>
      destruct (run_slices_completes place delay amounts) with (results := @nil value)
        (w := w) as (new & w' & Hrun & Hlen)
  end.
  { intros amount w0. by apply (live_sell_by_notional_returns _ amount). }
  exists count, new, w'. split; [|done].
  rewrite (bind_return _ _ _ _ _ Hrun). done.
Qed.

(** * Further properties of the code *)

(** ** The notional split *)


Lemma split_notional_length (total_notional : Q) (slices : Z) :
  length (_split_notional total_notional slices) = Z.to_nat (Z.max 1 slices).
Proof.
  unfold _split_notional. destruct (Z.leb_spec slices 1).
  - by rewrite Z.max_l by lia.
  - by rewrite Z.max_r, length_replicate by lia.
Qed.


(** ** Request errors *)

Lemma size_missing (a : order_args) :
  qty a = None -> notional a = None ->
  negb (bool_decide (is_Some (qty a))) && negb (bool_decide (is_Some (notional a))) = true.
Proof.
  intros -> ->.
  assert (bool_decide (is_Some (@None Q)) = false) as ->
    by (apply bool_decide_eq_false_2; by intros [? ?]).
  done.
Qed.

Lemma lower_ascii_idempotent (c : ascii) : lower_ascii (lower_ascii c) = lower_ascii c.
Proof. destruct c as [[] [] [] [] [] [] [] []]; reflexivity. Qed.

Lemma lower_idempotent (s : string) : lower (lower s) = lower s.
Proof.
  induction s as [|c s IH]; [done|]. simpl. by rewrite lower_ascii_idempotent, IH.
Qed.

(** X2: an intent with no size, or with a side that is neither buy nor sell
    in any letter case, gets its error result from every entry point of the
    router and of the scheduler without anything being read, fetched, sent
    or written: the world is the one the call started in. *)
Theorem request_errors_touch_nothing :
  (forall (a : order_args) (w : world O),
      qty a = None -> notional a = None ->
      live_buy a w = (Return size_error, w)
      /\ live_sell a w = (Return size_error, w)
      /\ (forall side,
             live_place_order side a w = (Return size_error, w)
             \/ live_place_order side a w = (Return side_error, w))
      /\ (forall side slices interval_seconds,
             live_twap_order side a slices interval_seconds w = (Return size_error, w)
             \/ live_twap_order side a slices interval_seconds w
                = (Return side_error, w)))
  /\ (forall (side : string) (a : order_args) (w : world O) slices interval_seconds,
        lower side <> "buy" -> lower side <> "sell" ->
        live_place_order side a w = (Return side_error, w)
        /\ live_twap_order side a slices interval_seconds w = (Return side_error, w)).
Proof.
  split.
  - intros a w Hq Hn.
    assert (live_buy a w = (Return size_error, w)) as Hbuy
      by (unfold live_buy; by rewrite size_missing).
    assert (live_sell a w = (Return size_error, w)) as Hsell
      by (unfold live_sell; by rewrite size_missing).
    split; [done|]. split; [done|]. split.
    + intros side. unfold live_place_order.
      destruct (String.eqb (lower side) "buy"); [by left|].
      destruct (String.eqb (lower side) "sell"); [by left | by right].
    + intros side slices interval_seconds. unfold live_twap_order.
      destruct (negb _); [by right|]. left. by rewrite size_missing.
  - intros side a w slices interval_seconds Hbuy Hsell.
    apply String.eqb_neq in Hbuy, Hsell.
    unfold live_place_order, live_twap_order. by rewrite Hbuy, Hsell.
Qed.

(** X3: the side is matched without regard to letter case: an order placed
    or scheduled under [side] behaves as under [side.lower()], and one whose
    lowered side is ["buy"] or ["sell"] is exactly the buy or the sell. *)
Theorem side_is_case_insensitive (side : string) (a : order_args) :
  live_place_order side a = live_place_order (lower side) a
  /\ (forall slices interval_seconds,
         live_twap_order side a slices interval_seconds
         = live_twap_order (lower side) a slices interval_seconds)
  /\ (lower side = "buy" -> live_place_order side a = live_buy a)
  /\ (lower side = "sell" -> live_place_order side a = live_sell a).
Proof.
  split; [|split; [|split]].
  - unfold live_place_order. by rewrite lower_idempotent.
  - intros slices interval_seconds. unfold live_twap_order. by rewrite lower_idempotent.
  - intros Hbuy. unfold live_place_order. by rewrite Hbuy.
  - intros Hsell. unfold live_place_order. by rewrite Hsell.
Qed.

(** ** Slice counts at the edges *)

(** X4: for an asset class other than equity the quantity is divided by the
    slice count as it comes.  A negative count plans no slice at all: the
    scheduler reports zero slices and an empty result list, and nothing is
    fetched or sent.  A count of zero, which only [TWAP_SLICES=0] can give
    since an argument of zero falls back to the environment, raises
    [ZeroDivisionError] before anything is fetched or sent. *)
Theorem crypto_twap_slice_count_edges
  (side : string) (a : order_args) (q : Q) (w : world O) :
  lower side = "buy" \/ lower side = "sell" ->
  qty a = Some q ->
  asset_class a <> "equity" ->
  (forall n interval_seconds,
      n < 0 ->
      live_twap_order side a (Some n) interval_seconds w = (Return (twap_result []), w))
  /\ (forall slices interval_seconds v,
         slices = None \/ slices = Some 0 ->
         environ w !! "TWAP_SLICES" = Some v -> v <> "" -> py_int v = Some 0 ->
         live_twap_order side a slices interval_seconds w
         = (Raise (Exn ZeroDivisionError (VStr "float division by zero")), w)).
Proof.
  intros Hside Hq Hclass. apply String.eqb_neq in Hclass.
  assert (negb (String.eqb (lower side) "buy" || String.eqb (lower side) "sell") = false)
    as Hvalid.
  { destruct Hside as [->| ->]; reflexivity. }
  split.
  - intros n interval_seconds Hn. unfold live_twap_order.
    rewrite Hvalid, size_given by (left; rewrite Hq; by eexists).
    assert (given_or_env (Some n) "TWAP_SLICES" 4 w = (Return n, w)) as Hcount.
    { unfold given_or_env. destruct (Z.eqb_spec n 0); [lia | done]. }
    destruct (given_or_env_returns interval_seconds "TWAP_INTERVAL_SECONDS" 15 w)
      as (delay & Hdelay).
    rewrite (bind_return _ _ _ _ _ Hcount), (bind_return _ _ _ _ _ Hdelay).
    rewrite Hq, Hclass.
    destruct (Z.eqb_spec n 0); [lia|].
    rewrite (bind_return _ _ w (replicate (Z.to_nat n) (q / inject_Z n)%Q) w) by done.
    replace (Z.to_nat n) with 0%nat by lia. reflexivity.
  - intros slices interval_seconds v Hslices Hv Hne Hparse. unfold live_twap_order.
    rewrite Hvalid, size_given by (left; rewrite Hq; by eexists).
    assert (given_or_env slices "TWAP_SLICES" 4 w = (Return 0, w)) as Hcount.
    { apply String.eqb_neq in Hne.
      assert (_get_env_int "TWAP_SLICES" 4 w = (Return 0, w)) as Henv.
      { unfold _get_env_int, bind, getenv, ret. by rewrite Hv, Hne, Hparse. }
      unfold given_or_env. by destruct Hslices as [->| ->]. }
    destruct (given_or_env_returns interval_seconds "TWAP_INTERVAL_SECONDS" 15 w)
      as (delay & Hdelay).
    rewrite (bind_return _ _ _ _ _ Hcount), (bind_return _ _ _ _ _ Hdelay).
    rewrite Hq, Hclass. reflexivity.
Qed.

(** ** The sizing limits, exactly *)






(** ** Looking a position up *)





(** ** A TWAP sell by notional *)

Lemma keeps_run_slices {X} (part : world O -> X) (place : Q -> M value) (delay : Z)
  (amounts : list Q) :
  (forall o w, part (set_outside o w) = part w) ->
  (forall amount, keeps part (place amount)) ->
  forall results, keeps part (run_slices place delay amounts results).
Proof.
  intros Hout Hplace. induction amounts as [|amount rest IH]; intros results; [done|].
  simpl. apply keeps_bind; [apply Hplace | intros r].
  apply keeps_bind; [|intros _; apply IH].
  destruct (0 <? delay); [|done]. intros w. simpl. apply Hout.
Qed.

(** X8: a TWAP sell given by notional always comes back with a slice count
    and one result per planned slice, [max(1, count)] of them where [count]
    is the slice argument or, failing that, [TWAP_SLICES] or 4, whatever
    the broker answers to the orders; it writes no alert and leaves the
    daily state file alone. *)
Theorem twap_sell_by_notional_reports_every_slice
  (side : string) (a : order_args) (n : Q) (slices interval_seconds : option Z)
  (w : world O) :
  lower side = "sell" ->
  qty a = None ->
  notional a = Some n ->
  exists count results w',
    given_or_env slices "TWAP_SLICES" 4 w = (Return count, w)
    /\ live_twap_order side a slices interval_seconds w
       = (Return (twap_result results), w')
    /\ length results = Z.to_nat (Z.max 1 count)
    /\ live_alerts_jsonl w' = live_alerts_jsonl w
    /\ live_state_json w' = live_state_json w.
Proof.
  intros Hside Hq Hn. unfold live_twap_order. rewrite Hside.
  cbn [String.eqb Ascii.eqb Bool.eqb orb negb].
  rewrite size_given by (right; rewrite Hn; by eexists).
  destruct (given_or_env_returns slices "TWAP_SLICES" 4 w) as (count & Hcount).
  destruct (given_or_env_returns interval_seconds "TWAP_INTERVAL_SECONDS" 15 w)
    as (delay & Hdelay).
  rewrite (bind_return _ _ _ _ _ Hcount), (bind_return _ _ _ _ _ Hdelay).
  rewrite Hq, Hn. cbn [default from_option id].
  match goal with
  | |- context [run_slices ?place delay ?amounts []] =>
      set (place_slice := place);
      destruct (run_slices_completes place_slice delay amounts) with (results := @nil value)
        (w := w) as (new & w' & Hrun & Hlen)
  end.
  { intros amount w0. by apply (live_sell_by_notional_returns _ amount). }
  exists count, new, w'. split; [done|].
  rewrite (bind_return _ _ _ _ _ Hrun). split; [done|]. split; [|split].
  - by rewrite Hlen, split_notional_length.
  - apply (kept live_alerts_jsonl _ _ _ _
             (keeps_run_slices live_alerts_jsonl place_slice delay _ ltac:(done)
                ltac:(intros amount; apply keeps_live_sell; done) []) Hrun).
  - apply (kept live_state_json _ _ _ _
             (keeps_run_slices live_state_json place_slice delay _ ltac:(done)
                ltac:(intros amount; apply keeps_live_sell; done) []) Hrun).
Qed.

(** ** The broker adapter *)

Lemma headers_without_credentials (self : AlpacaBroker) :
  truthy_str (api_key self) = false \/ truthy_str (api_secret self) = false ->
  _headers self = Raise credentials_error.
Proof.
  unfold _headers, truthy_str.
  destruct (api_key self) as [k|], (api_secret self) as [s|];
    try (destruct (String.eqb k "")); try (destruct (String.eqb s ""));
    simpl; try done; by intros [|].
Qed.

Lemma headers_with_credentials (self : AlpacaBroker) (k s : string) :
  api_key self = Some k -> api_secret self = Some s -> k <> "" -> s <> "" ->
  _headers self = Return (k, s).
Proof.
  intros Hk Hs Hk0 Hs0. apply String.eqb_neq in Hk0, Hs0.
  unfold _headers. by rewrite Hk, Hs, Hk0, Hs0.
Qed.

Lemma request_sends_one (self : AlpacaBroker) (method path : string) (body : option value)
  (w : world O) (k s : string) :
  api_key self = Some k -> api_secret self = Some s -> k <> "" -> s <> "" ->
  sent (snd (_request self method path body w))
  = sent w ++ [broker_call self method path body].
Proof.
  intros Hk Hs Hk0 Hs0. unfold _request, bind, lift, call_requests.
  rewrite (headers_with_credentials self k s Hk Hs Hk0 Hs0).
  unfold broker_call. rewrite Hk, Hs. simpl.
  destruct (requests_request O _ (outside w)) as [[r|e] o']; simpl; [|done].
  destruct (negb (resp_ok r)); [done|]. by destruct (resp_json r).
Qed.

(** X9: the adapter's [_request].  Without both credentials (missing or
    empty) it raises [ValueError] and nothing goes out.  With them, exactly
    one call goes to [requests], carrying the method, [base_url + path], the
    two credentials and the body, whatever comes back.  It returns a value
    only for an answer that is [ok]: the answer's JSON, or [{"raw": text}]
    when the body is not JSON; an answer that is not [ok] is raised as a
    [RuntimeError] naming the status and the text. *)
Theorem request_needs_credentials
  (self : AlpacaBroker) (method path : string) (body : option value) (w : world O) :
  (truthy_str (api_key self) = false \/ truthy_str (api_secret self) = false ->
   _request self method path body w = (Raise credentials_error, w))
  /\ (forall k s,
         api_key self = Some k -> api_secret self = Some s -> k <> "" -> s <> "" ->
         sent (snd (_request self method path body w))
         = sent w ++ [broker_call self method path body])
  /\ (forall v w',
         _request self method path body w = (Return v, w') ->
         exists r o',
           requests_request O (broker_call self method path body) (outside w)
           = (Return r, o')
           /\ resp_ok r = true
           /\ v = default (VDict [("raw", VStr (resp_text r))]) (resp_json r))
  /\ (forall r o',
         truthy_str (api_key self) = true -> truthy_str (api_secret self) = true ->
         requests_request O (broker_call self method path body) (outside w)
         = (Return r, o') ->
         resp_ok r = false ->
         fst (_request self method path body w)
         = Raise (Exn RuntimeError
                    (VFmt "Alpaca API error {}: {}"
                          [VNum (inject_Z (resp_status r)); VStr (resp_text r)]))).
Proof.
  split; [|split; [|split]].
  - intros Hmissing. unfold _request, bind, lift.
    by rewrite (headers_without_credentials self Hmissing).
  - intros k s. apply request_sends_one.
  - intros v w'. unfold _request, bind, lift, call_requests.
    destruct (_headers self) as [[k s]|e] eqn:Hhd; [|discriminate].
    assert (broker_call self method path body
            = {| call_method := method; call_url := (base_url self ++ path)%string;
                 call_key := k; call_secret := s; call_body := body |}) as Hcall.
    { unfold _headers in Hhd. unfold broker_call.
      destruct (api_key self) as [k0|], (api_secret self) as [s0|]; try discriminate.
      destruct (_ || _); [discriminate|]. by injection Hhd as -> ->. }
    rewrite Hcall. simpl.
    destruct (requests_request O _ (outside w)) as [[r|e] o']; simpl; [|discriminate].
    destruct (resp_ok r) eqn:Hok; simpl; [|discriminate].
    unfold ret. destruct (resp_json r) as [j|] eqn:Hj; intros [= <- <-];
      exists r, o'; by rewrite Hj.
  - intros r o' Hk Hs Hreply Hok. unfold _request, bind, lift, call_requests.
    unfold truthy_str in Hk, Hs.
    destruct (api_key self) as [k|] eqn:Hk', (api_secret self) as [s|] eqn:Hs';
      try discriminate.
    apply negb_true_iff, String.eqb_neq in Hk, Hs.
    rewrite (headers_with_credentials self k s Hk' Hs' Hk Hs).
    unfold broker_call in Hreply. rewrite Hk', Hs' in Hreply. simpl in *.
    by rewrite Hreply, Hok.
Qed.

(** X10: what the router puts in an order.  The payload always carries the
    symbol, the side and the order type; it carries [qty], [notional],
    [limit_price] and [stop_price] exactly when the intent gives them, and
    never a [client_order_id].  Its [time_in_force] is the caller's when
    given, else ["gtc"] for crypto and ["day"] otherwise; a caller who gives
    the empty string gets no [time_in_force] in the payload at all. *)
Theorem order_payload_fields (side : string) (a : order_args) :
  let payload := submit_payload (submit_args_of side a) in
  fields_get "symbol" payload = Some (VStr (symbol a))
  /\ fields_get "side" payload = Some (VStr side)
  /\ fields_get "type" payload = Some (VStr (order_type a))
  /\ fields_get "qty" payload = VNum <$> qty a
  /\ fields_get "notional" payload = VNum <$> notional a
  /\ fields_get "limit_price" payload = VNum <$> limit_price a
  /\ fields_get "stop_price" payload = VNum <$> stop_price a
  /\ fields_get "client_order_id" payload = None
  /\ fields_get "time_in_force" payload
     = match time_in_force a with
       | Some t => if String.eqb t "" then None else Some (VStr t)
       | None => Some (VStr (if String.eqb (asset_class a) "crypto" then "gtc" else "day"))
       end.
Proof.
  destruct a as [sym q n p ty lp sp tif cls]. unfold submit_payload, submit_args_of.
  cbn [sub_symbol sub_side sub_qty sub_notional sub_order_type sub_limit_price
         sub_stop_price sub_time_in_force sub_client_order_id default_tif
         symbol qty notional order_type limit_price stop_price time_in_force asset_class].
  unfold add_str, add_num, truthy_str.
  destruct q, n, lp, sp; destruct tif as [t|]; simpl;
    try (destruct (String.eqb t "")); try (destruct (String.eqb cls "crypto"));
    simpl; repeat split; reflexivity.
Qed.

(** X11: a quantity of zero counts as no quantity for the adapter: an order
    of zero units with no notional comes back from the guarded submission
    as the size error without any call to the broker, while an order with a
    non-zero quantity or a notional, given both credentials, sends exactly
    one [POST /v2/orders] carrying the payload, whatever the answer. *)
Theorem zero_quantity_order_is_never_sent
  (broker : AlpacaBroker) (side : string) (a : order_args) (w : world O) :
  (forall q, qty a = Some q -> (q == 0)%Q -> notional a = None ->
             guarded_submit broker side a w = (Return size_error, w))
  /\ (forall k s,
         truthy_num (qty a) = true \/ is_Some (notional a) ->
         api_key broker = Some k -> api_secret broker = Some s -> k <> "" -> s <> "" ->
         sent (snd (guarded_submit broker side a w))
         = sent w ++ [broker_call broker "POST" "/v2/orders"
                        (Some (VDict (submit_payload (submit_args_of side a))))]).
Proof.
  split.
  - intros q Hq Hz Hn. unfold guarded_submit, try_except, submit_order.
    cbn [submit_args_of sub_qty sub_notional]. rewrite Hq, Hn. cbn [truthy_num].
    apply Qeq_bool_iff in Hz. rewrite Hz.
    assert (bool_decide (is_Some (@None Q)) = false) as ->
      by (apply bool_decide_eq_false_2; by intros [? ?]).
    reflexivity.
  - intros k s Hsize Hk Hs Hk0 Hs0.
    pose proof (request_sends_one broker "POST" "/v2/orders"
                  (Some (VDict (submit_payload (submit_args_of side a)))) w k s
                  Hk Hs Hk0 Hs0) as Hsent.
    unfold guarded_submit, try_except, submit_order.
    cbn [submit_args_of sub_qty sub_notional].
    assert (negb (truthy_num (qty a)) && negb (bool_decide (is_Some (notional a))) = false)
      as ->.
    { destruct Hsize as [->|Hn]; [done|].
      rewrite (bool_decide_eq_true_2 _ Hn). apply andb_false_r. }
    fold (submit_args_of side a).
    destruct (_request broker "POST" "/v2/orders" _ w) as [[v|e] w']; exact Hsent.
Qed.

(** X12: the trade tools build their broker adapter once.  The first
    [_get_broker] reads the two credentials and the base URL from the
    environment and keeps the adapter; from then on the same adapter is
    returned, whatever the environment has become, and nothing is changed. *)
Theorem broker_is_built_once :
  (forall w : world O,
      _broker w = None ->
      _get_broker w
      = (Return {| api_key := environ w !! "ALPACA_API_KEY";
                   api_secret := environ w !! "ALPACA_API_SECRET";
                   base_url := default "https://paper-api.alpaca.markets"
                                 (environ w !! "ALPACA_BASE_URL");
                   timeout := 10 |},
         set_broker (Some {| api_key := environ w !! "ALPACA_API_KEY";
                             api_secret := environ w !! "ALPACA_API_SECRET";
                             base_url := default "https://paper-api.alpaca.markets"
                                           (environ w !! "ALPACA_BASE_URL");
                             timeout := 10 |}) w))
  /\ (forall (w w1 w2 : world O) (broker : AlpacaBroker),
         _get_broker w = (Return broker, w1) ->
         _broker w2 = _broker w1 ->
         _get_broker w2 = (Return broker, w2)).
Proof.
  split.
  - intros w Hnone. unfold _get_broker. by rewrite Hnone.
  - intros w w1 w2 broker Hfirst Hsame.
    assert (_broker w1 = Some broker) as Hkept.
    { unfold _get_broker in Hfirst. destruct (_broker w) as [b|] eqn:Hb.
      - by injection Hfirst as <- <-.
      - unfold AlpacaBroker_init, bind, getenv, getenv_default, ret in Hfirst.
        by injection Hfirst as <- <-. }
    unfold _get_broker. by rewrite Hsame, Hkept.
Qed.

(** ** The daily state file *)

Lemma fields_get_set_other (key k : string) (v : value) (d : list (string * value)) :
  k <> key -> fields_get k (fields_set key v d) = fields_get k d.
Proof.
  intros Hne. induction d as [|[k0 v0] d IH]; simpl.
  - destruct (String.eqb_spec key k); [congruence | done].
  - destruct (String.eqb_spec k0 key) as [->|Hk0]; simpl.
    + destruct (String.eqb_spec key k); [congruence | done].
    + destruct (String.eqb_spec k0 k); [done | exact IH].
Qed.

(** X13: the daily state store changes one thing only.  Whatever else the
    state file holds beside ["daily"] is still there, under the same keys,
    after a call that returns, rotation included; and the call leaves the
    environment, the alert log, the broker adapter and the calls sent as
    they were. *)
Theorem day_state_keeps_other_keys
  (equity : Q) (w w' : world O) (day : value) (key : string) (dflt : value) :
  get_or_init_day_state equity w = (Return day, w') ->
  key <> "daily" ->
  py_get (stored_state w') key dflt = py_get (stored_state w) key dflt
  /\ environ w' = environ w
  /\ live_alerts_jsonl w' = live_alerts_jsonl w
  /\ _broker w' = _broker w
  /\ sent w' = sent w
  /\ outside w' = outside w.
Proof.
  intros Hrun Hkey. unfold stored_state.
  unfold get_or_init_day_state, bind, load_state, lift, save_state, ret in Hrun.
  destruct (py_get (default (VDict []) (live_state_json w)) "daily" (VDict []))
    as [d0|] eqn:Hday; [|discriminate].
  destruct (py_get d0 "date" VNone) as [stored|]; [|discriminate].
  destruct (differs_from_str stored (utc_date O (outside w))).
  - destruct (default (VDict []) (live_state_json w)) as [| | | | |?|st] eqn:Hst;
      try discriminate.
    simpl in Hrun. injection Hrun as <- <-. simpl.
    by rewrite fields_get_set_other.
  - injection Hrun as <- <-. by rewrite Hday || done.
Qed.

(** X14: what the store makes of the file it finds.  A missing or
    unreadable file is an empty state: the call returns today's record with
    the given equity and the file then holds exactly [{"daily": record}].
    A file that is JSON but not an object, or whose ["daily"] is not an
    object, makes the call raise [AttributeError] and nothing is written. *)
Theorem day_state_file_edges (equity : Q) (w : world O) :
  (live_state_json w = None ->
   get_or_init_day_state equity w
   = (Return (fresh_day (utc_date O (outside w)) equity),
      set_live_state
        (Some (VDict [("daily", fresh_day (utc_date O (outside w)) equity)])) w))
  /\ (forall v,
         live_state_json w = Some v ->
         (forall d, v <> VDict d) ->
         get_or_init_day_state equity w = (Raise attribute_error, w))
  /\ (forall d v,
         live_state_json w = Some (VDict d) ->
         fields_get "daily" d = Some v ->
         (forall x, v <> VDict x) ->
         get_or_init_day_state equity w = (Raise attribute_error, w)).
Proof.
  unfold get_or_init_day_state, bind, load_state, lift, save_state, ret.
  split; [|split].
  - by intros ->.
  - intros v -> Hv. destruct v; try done. by destruct (Hv fields).
  - intros d v -> Hd Hv. simpl. rewrite Hd. simpl.
    destruct v; try done. by destruct (Hv fields).
Qed.

(** ** The breaker over a day *)

Lemma drawdown_antitone (equity_start e e' : Q) :
  (0 < equity_start)%Q -> (e' <= e)%Q ->
  (drawdown equity_start e <= drawdown equity_start e')%Q.
Proof.
  intros Hpos Hle. unfold drawdown. apply Q.max_le_compat_l.
  unfold Qdiv. apply Qmult_le_compat_r.
  - apply Qplus_le_r. by apply Qopp_le_compat.
  - apply Qlt_le_weak. by apply Qinv_lt_0_compat.
Qed.

Lemma drawdown_of_gain (equity_start e : Q) :
  (0 < equity_start)%Q -> (equity_start <= e)%Q ->
  (drawdown equity_start e == 0)%Q.
Proof.
  intros Hpos Hle. unfold drawdown. apply Q.max_l.
  unfold Qdiv. rewrite <- (Qmult_0_l (/ equity_start)).
  apply Qmult_le_compat_r.
  - apply (Qplus_le_l _ _ e). ring_simplify. exact Hle.
  - apply Qlt_le_weak. by apply Qinv_lt_0_compat.
Qed.

Lemma same_day_verdict (e limit equity_start : Q) (day : value) (w : world O) :
  env_float (environ w) "MAX_DAILY_LOSS_PCT" = Some limit ->
  stored_day w = Return day ->
  py_get day "date" VNone = Return (VStr (utc_date O (outside w))) ->
  py_get day "equity_start" VNone = Return (VNum equity_start) ->
  (0 < equity_start)%Q ->
  _daily_loss_exceeded (Some e) w
  = (Return (if Qle_bool limit (drawdown equity_start e)
             then Some (VFmt "Daily loss {:.2%} exceeds MAX_DAILY_LOSS_PCT {:.2%}"
                          [VNum (drawdown equity_start e); VNum limit])
             else None), w).
Proof.
  intros Hlimit Hday Hdate Hstart Hpos.
  apply (daily_loss_run e limit equity_start day); [done | | done |].
  - by apply day_state_kept.
  - intros Hz. rewrite Hz in Hpos. by apply Qlt_irrefl in Hpos.
Qed.

(** X15: over one day, with a positive baseline on file, the breaker is
    monotone in the equity: if it rejects at some equity it rejects at every
    lower one, and with a positive limit it never rejects while the equity
    is at or above the baseline.  In neither case is the file written. *)
Theorem breaker_is_monotone_over_the_day
  (limit equity_start : Q) (day : value) (w : world O) :
  env_float (environ w) "MAX_DAILY_LOSS_PCT" = Some limit ->
  stored_day w = Return day ->
  py_get day "date" VNone = Return (VStr (utc_date O (outside w))) ->
  py_get day "equity_start" VNone = Return (VNum equity_start) ->
  (0 < equity_start)%Q ->
  (forall e e' message,
      (e' <= e)%Q ->
      _daily_loss_exceeded (Some e) w = (Return (Some message), w) ->
      exists message', _daily_loss_exceeded (Some e') w = (Return (Some message'), w))
  /\ (forall e,
         (0 < limit)%Q -> (equity_start <= e)%Q ->
         _daily_loss_exceeded (Some e) w = (Return None, w)).
Proof.
  intros Hlimit Hday Hdate Hstart Hpos. split.
  - intros e e' message Hle.
    rewrite !(same_day_verdict _ limit equity_start day w) by done.
    destruct (Qle_bool limit (drawdown equity_start e)) eqn:Htrip; [|discriminate].
    intros _. apply Qle_bool_iff in Htrip.
    assert (Qle_bool limit (drawdown equity_start e') = true) as ->; [|by eauto].
    apply Qle_bool_iff. eapply Qle_trans; [exact Htrip|]. by apply drawdown_antitone.
  - intros e Hlim Hgain.
    rewrite (same_day_verdict _ limit equity_start day w) by done.
    destruct (Qle_bool limit (drawdown equity_start e)) eqn:Htrip; [|done].
    apply Qle_bool_iff in Htrip. rewrite drawdown_of_gain in Htrip by done.
    exfalso. by apply (Qlt_not_le 0 limit).
Qed.

(** X16: the first evaluation of a day cannot be rejected by a positive
    loss limit.  When the date on file is not today, the breaker takes the
    equity it is given as the day's baseline, writes it to the file, and
    passes. *)
Theorem first_evaluation_of_the_day_passes
  (equity limit : Q) (stored : value) (w : world O) :
  env_float (environ w) "MAX_DAILY_LOSS_PCT" = Some limit ->
  (0 < limit)%Q ->
  stored_date w = Return stored ->
  stored <> VStr (utc_date O (outside w)) ->
  exists w',
    _daily_loss_exceeded (Some equity) w = (Return None, w')
    /\ stored_day w' = Return (fresh_day (utc_date O (outside w)) equity).
Proof.
  intros Hlimit Hpos Hdate Hne.
  destruct (day_state_rotates equity w stored Hdate Hne) as (w' & Hrun & Hfile & _).
  exists w'. split; [|done]. unfold _daily_loss_exceeded.
  rewrite (bind_return _ _ _ _ _ (get_env_float_run _ w)), Hlimit.
  rewrite (bind_return _ _ _ _ _ Hrun).
  rewrite (bind_return _ _ w' (VNum equity) w') by done.
  change (truthy (VNum equity)) with (negb (Qeq_bool equity 0)).
  destruct (Qeq_bool equity 0) eqn:Hz; [done|]. cbn [negb].
  rewrite (bind_return _ _ w' equity w') by done.
  unfold Qgeb.
  destruct (Qle_bool limit (Qmax 0 ((equity - equity) / equity))) eqn:Htrip; [|done].
  apply Qle_bool_iff in Htrip. exfalso.
  assert (Qmax 0 ((equity - equity) / equity) == 0)%Q as Hzero.
  { apply Q.max_l. unfold Qdiv.
    assert (equity - equity == 0)%Q as -> by ring.
    rewrite Qmult_0_l. apply Qle_refl. }
  rewrite Hzero in Htrip. by apply (Qlt_not_le 0 limit).
Qed.

(** ** The alert sink *)

Lemma mail_unconfigured_skip (env : gmap string string) :
  mail_unconfigured env ->
  negb (truthy_str (env !! "ALERT_SMTP_HOST"))
  || (negb (truthy_str (env !! "ALERT_EMAIL_TO"))
      || negb (truthy_str (env !! "ALERT_EMAIL_FROM"))) = true.
Proof.
  intros [->|[->| ->]]; simpl; [done| |].
  - by destruct (negb _).
  - destruct (negb _); [done|]. by destruct (negb _).
Qed.

Lemma send_webhook_off (message details : value) (w : world O) :
  truthy_str (environ w !! "ALERT_WEBHOOK_URL") = false ->
  _send_webhook message details w = (Return None, w).
Proof.
  intros Hurl. unfold _send_webhook.
  rewrite (bind_return _ _ w (environ w !! "ALERT_WEBHOOK_URL") w) by done.
  by rewrite Hurl.
Qed.

Lemma send_webhook_on (message details : value) (w : world O) (url : string) :
  environ w !! "ALERT_WEBHOOK_URL" = Some url ->
  url <> "" ->
  _send_webhook message details w
  = match requests_post O url (VDict [("message", message); ("details", details)])
            (outside w) with
    | (Return r, o') =>
        (Return (if negb (resp_ok r)
                 then Some (VFmt "Webhook error {}: {}"
                              [VNum (inject_Z (resp_status r)); VStr (resp_text r)])
                 else None), set_outside o' w)
    | (Raise e, o') =>
        (Return (Some (VFmt "Webhook exception: {}" [exn_str e])), set_outside o' w)
    end.
Proof.
  intros Hurl Hne. apply String.eqb_neq in Hne. unfold _send_webhook.
  rewrite (bind_return _ _ w (environ w !! "ALERT_WEBHOOK_URL") w) by done.
  rewrite Hurl. cbn [truthy_str]. rewrite Hne. cbn [negb default from_option id].
  unfold try_except, bind, post_webhook, any_exception, ret.
  destruct (requests_post O url _ (outside w)) as [[r|e] o']; [|done].
  by destruct (negb (resp_ok r)).
Qed.

Lemma send_email_off (subject body : value) (w : world O) :
  smtp_port_ok (environ w) ->
  mail_unconfigured (environ w) ->
  _send_email subject body w = (Return None, w).
Proof.
  intros [port Hport] Hmail. unfold _send_email.
  rewrite (bind_return _ _ w (environ w !! "ALERT_SMTP_HOST") w) by done.
  rewrite (bind_return _ _ w (default "587" (environ w !! "ALERT_SMTP_PORT")) w) by done.
  rewrite Hport.
  rewrite (bind_return _ _ w port w) by done.
  rewrite (bind_return _ _ w (environ w !! "ALERT_SMTP_USER") w) by done.
  rewrite (bind_return _ _ w (environ w !! "ALERT_SMTP_PASS") w) by done.
  rewrite (bind_return _ _ w (environ w !! "ALERT_EMAIL_TO") w) by done.
  rewrite (bind_return _ _ w (environ w !! "ALERT_EMAIL_FROM") w) by done.
  rewrite (bind_return _ _ w (default "true" (environ w !! "ALERT_SMTP_TLS")) w) by done.
  by rewrite (mail_unconfigured_skip _ Hmail).
Qed.

(** X17: with no webhook URL and no complete mail set-up, an alert is one
    line appended to the alert log and nothing else: no call leaves the
    process and the rest of the world is as before. *)
Theorem alert_without_channels_is_one_line
  (event : string) (details : value) (w : world O) :
  truthy_str (environ w !! "ALERT_WEBHOOK_URL") = false ->
  smtp_port_ok (environ w) ->
  mail_unconfigured (environ w) ->
  notify_alert event details w
  = (Return tt,
     set_live_alerts (live_alerts_jsonl w ++ [alert_entry w event details]) w).
Proof.
  intros Hurl Hport Hmail. unfold notify_alert.
  rewrite (bind_return _ _ w (utc_iso O (outside w)) w) by done.
  set (w1 := set_live_alerts (live_alerts_jsonl w ++ [alert_entry w event details]) w).
  rewrite (bind_return _ _ w tt w1) by done.
  rewrite (bind_return _ _ w1 None w1) by (by apply send_webhook_off).
  rewrite (bind_return _ _ w1 None w1) by (by apply send_email_off).
  reflexivity.
Qed.

(** X18: an [ALERT_SMTP_PORT] that is not an integer makes every alert
    raise [ValueError], after the alert line has been written to the log.
    A buy rejected by the daily-loss breaker then raises instead of
    returning its rejection, the alert line being in the log. *)
Theorem malformed_smtp_port_breaks_alerts (w : world O) :
  py_int (default "587" (environ w !! "ALERT_SMTP_PORT")) = None ->
  (forall event details,
      exists e w',
        notify_alert event details w = (Raise e, w')
        /\ exn_cls e = ValueError
        /\ live_alerts_jsonl w' = live_alerts_jsonl w ++ [alert_entry w event details])
  /\ (forall a w0 broker equity buying_power w1 message,
         reaches_checks a w0 broker equity buying_power w1 ->
         _daily_loss_exceeded equity w1 = (Return (Some message), w) ->
         exists e w',
           live_buy a w0 = (Raise e, w')
           /\ exn_cls e = ValueError
           /\ live_alerts_jsonl w'
              = live_alerts_jsonl w
                ++ [alert_entry w "risk_limit_triggered"
                      (risk_details "daily_loss" (symbol a) message)]).
Proof.
  intros Hport.
  assert (forall event details,
             exists e w',
               notify_alert event details w = (Raise e, w')
               /\ exn_cls e = ValueError
               /\ live_alerts_jsonl w'
                  = live_alerts_jsonl w ++ [alert_entry w event details]) as Hnotify.
  { intros event details. unfold notify_alert.
    rewrite (bind_return _ _ w (utc_iso O (outside w)) w) by done.
    set (w1 := set_live_alerts (live_alerts_jsonl w ++ [alert_entry w event details]) w).
    rewrite (bind_return _ _ w tt w1) by done.
    destruct (send_webhook_returns (VFmt "[AI-Trader Alert] {}" [VStr event]) details w1)
      as (werr & w2 & Hweb).
    rewrite (bind_return _ _ w1 werr w2 Hweb).
    pose proof (kept environ _ _ _ _
                  (keeps_send_webhook environ _ details ltac:(done)) Hweb) as Henv.
    pose proof (kept live_alerts_jsonl _ _ _ _
                  (keeps_send_webhook live_alerts_jsonl _ details ltac:(done)) Hweb)
      as Hlog.
    assert (exists e, _send_email (VFmt "[AI-Trader Alert] {}" [VStr event]) details w2
                      = (Raise e, w2) /\ exn_cls e = ValueError) as (e & Hmail & Hcls).
    { unfold _send_email, bind, getenv, getenv_default, raise.
      rewrite Henv. simpl. simpl in Hport. rewrite Hport. by eauto. }
    exists e, w2. by rewrite (bind_raise _ _ _ _ _ Hmail). }
  split; [exact Hnotify|].
  intros a w0 broker equity buying_power w1 message Hreach Hloss.
  rewrite (live_buy_reaches _ _ _ _ _ _ Hreach). unfold gated_buy.
  rewrite (bind_return _ _ _ _ _ Hloss). cbn [truthy_opt].
  rewrite (daily_loss_message_truthy _ _ _ _ Hloss).
  change (opt_value (Some message)) with message.
  destruct (Hnotify "risk_limit_triggered" (risk_details "daily_loss" (symbol a) message))
    as (e & w' & Hrun & Hcls & Hlog).
  exists e, w'. by rewrite (bind_raise _ _ _ _ _ Hrun).
Qed.

(** X19: a webhook that fails is not an error of the alert.  With a webhook
    URL set and no mail set-up, [notify_alert] returns normally whatever the
    post does: after an [ok] answer the log gains the alert line alone;
    after an answer that is not [ok], or an exception of the post, it gains
    the alert line followed by one ["alert_delivery_error"] line carrying
    the webhook's status and text, or the exception's text. *)
Theorem webhook_failure_is_logged
  (event : string) (details : value) (w : world O) (url : string) :
  environ w !! "ALERT_WEBHOOK_URL" = Some url ->
  url <> "" ->
  smtp_port_ok (environ w) ->
  mail_unconfigured (environ w) ->
  fst (notify_alert event details w) = Return tt
  /\ live_alerts_jsonl (snd (notify_alert event details w))
     = live_alerts_jsonl w
       ++ alert_entry w event details
          :: match fst (requests_post O url
                          (VDict [("message", VFmt "[AI-Trader Alert] {}" [VStr event]);
                                  ("details", details)]) (outside w)) with
             | Return r =>
                 if resp_ok r then []
                 else [delivery_error_entry w
                         (Some (VFmt "Webhook error {}: {}"
                                  [VNum (inject_Z (resp_status r)); VStr (resp_text r)]))
                         None]
             | Raise e =>
                 [delivery_error_entry w
                    (Some (VFmt "Webhook exception: {}" [exn_str e])) None]
             end.
Proof.
  intros Hurl Hne Hport Hmail. unfold notify_alert.
  rewrite (bind_return _ _ w (utc_iso O (outside w)) w) by done.
  set (w1 := set_live_alerts (live_alerts_jsonl w ++ [alert_entry w event details]) w).
  rewrite (bind_return _ _ w tt w1) by done.
  pose proof (send_webhook_on (VFmt "[AI-Trader Alert] {}" [VStr event]) details w1 url
                Hurl Hne) as Hweb.
  change (outside w1) with (outside w) in Hweb.
  destruct (requests_post O url _ (outside w)) as [[r|e] o']; cbn [fst].
  - rewrite (bind_return _ _ _ _ _ Hweb).
    rewrite (bind_return _ _ (set_outside o' w1) None (set_outside o' w1))
      by (by apply send_email_off).
    destruct (resp_ok r); simpl; [done|].
    split; [done|]. by rewrite <- app_assoc.
  - rewrite (bind_return _ _ _ _ _ Hweb).
    rewrite (bind_return _ _ (set_outside o' w1) None (set_outside o' w1))
      by (by apply send_email_off).
    simpl. split; [done|]. by rewrite <- app_assoc.
Qed.

(** ** The run summary *)

Lemma summary_figure_returns (account : value) (key : string) :
  exists figure, summary_figure account key = Return figure.
Proof.
  unfold summary_figure, _safe_float, to_float.
  destruct account as [| | | | | |d]; try by eauto.
  destruct (default VNone (fields_get key d)) as [|b|x|s|t args|items|d']; simpl;
    try by eauto.
  destruct (py_float s); by eauto.
Qed.

Lemma recorded_fetch (fetch : M value) (wrap : exn -> value) (w : world O) :
  exists v w',
    try_except fetch any_exception (fun exc => ret (wrap exc)) w = (Return v, w')
    /\ w' = snd (fetch w)
    /\ (forall e, fst (fetch w) = Raise e -> v = wrap e)
    /\ (forall v0, fst (fetch w) = Return v0 -> v = v0).
Proof.
  unfold try_except, any_exception, ret.
  destruct (fetch w) as [[v0|e] w1]; simpl.
  - exists v0, w1. repeat split; [done|]. by intros ? [= <-].
  - exists (wrap e), w1. repeat split; [|done]. by intros ? [= <-].
Qed.

(** X20: [record_run_summary] always records.  Whatever the broker does,
    the call returns with exactly one line appended to the run log, holding
    the run id, the model signature and the status it was given, the
    account and the positions; a failed account fetch is recorded as
    [{"error": str(exc)}] with a null equity and buying power, a failed
    positions fetch as [[{"error": str(exc)}]].  It works with an adapter of
    its own: the trade tools' adapter, the state file and the alert log are
    left as they were. *)
Theorem run_summary_is_always_recorded
  (run_id model_signature status : string) (details : option value)
  (live_runs_jsonl : list value) (w : world O) :
  let broker := broker_of_env (environ w) in
  exists account positions w',
    record_run_summary run_id model_signature status details live_runs_jsonl w
    = (Return (live_runs_jsonl
               ++ [VDict (summary_entry (utc_iso O (outside w')) run_id model_signature
                            status account positions details)]), w')
    /\ (forall e, fst (get_account broker w) = Raise e ->
                  account = error_dict (exn_str e)
                  /\ figure_or_none account "equity" = None
                  /\ figure_or_none account "buying_power" = None)
    /\ (forall v, fst (get_account broker w) = Return v -> account = v)
    /\ (forall e, fst (list_positions broker (snd (get_account broker w))) = Raise e ->
                  positions = VList [error_dict (exn_str e)])
    /\ (forall v, fst (list_positions broker (snd (get_account broker w))) = Return v ->
                  positions = v)
    /\ _broker w' = _broker w
    /\ live_state_json w' = live_state_json w
    /\ live_alerts_jsonl w' = live_alerts_jsonl w.
Proof.
  intros broker.
  destruct (recorded_fetch (get_account broker) (fun exc => error_dict (exn_str exc)) w)
    as (account & w1 & Haccount & Hw1 & Hafail & Haok).
  destruct (recorded_fetch (list_positions broker)
              (fun exc => VList [error_dict (exn_str exc)]) w1)
    as (positions & w2 & Hpositions & Hw2 & Hpfail & Hpok).
  exists account, positions, w2.
  assert (forall {X} (part : world O -> X),
             (forall o w, part (set_outside o w) = part w) ->
             (forall l w, part (set_sent l w) = part w) -> part w2 = part w) as Hkeep.
  { intros X part Ho Hs. rewrite Hw2, Hw1.
    unfold list_positions, get_account.
    rewrite (keeps_request part Ho Hs broker "GET" "/v2/positions" None).
    apply (keeps_request part Ho Hs broker "GET" "/v2/account" None). }
  split; [|split; [|split; [|split; [|split; [|split; [|split]]]]]].
  - unfold record_run_summary.
    rewrite (bind_return _ _ w broker w) by done.
    rewrite (bind_return _ _ _ _ _ Haccount), (bind_return _ _ _ _ _ Hpositions).
    rewrite (bind_return _ _ w2 (utc_iso O (outside w2)) w2) by done.
    unfold summary_entry, figure_or_none.
    destruct (summary_figure_returns account "equity") as (equity & ->).
    destruct (summary_figure_returns account "buying_power") as (bp & ->).
    rewrite (bind_return _ _ w2 equity w2) by done.
    by rewrite (bind_return _ _ w2 bp w2) by done.
  - intros e He. by rewrite (Hafail e He).
  - exact Haok.
  - intros e. rewrite <- Hw1. apply Hpfail.
  - intros v. rewrite <- Hw1. apply Hpok.
  - by apply Hkeep.
  - by apply Hkeep.
  - by apply Hkeep.
Qed.

(** ** The scheduler's lock *)

Lemma Qle_bool_false (a b : Q) : Qle_bool a b = false <-> (b < a)%Q.
Proof. rewrite <- Qgtb_true. unfold Qgtb. by rewrite negb_true_iff. Qed.

(** X21: the lock keeps a second run out for [ttl] seconds and no longer.
    Once a run has taken the lock at time [t1] (and the stamp it wrote reads
    back as [t1]), an attempt at [t2] is refused, leaving the file as it is,
    as long as [t2 - t1 < ttl]; from [t2 - t1 >= ttl] on it succeeds and
    restamps the file, the lock being treated as abandoned; and after a
    release any attempt succeeds. *)
Theorem lock_excludes_for_ttl (ttl : Z) (t1 t2 : Q) (lock : option string) :
  py_float (strip (py_str t1)) = Some t1 ->
  fst (_acquire_lock ttl t1 lock) = true ->
  let held := snd (_acquire_lock ttl t1 lock) in
  ((t2 - t1 < inject_Z ttl)%Q -> _acquire_lock ttl t2 held = (false, held))
  /\ ((inject_Z ttl <= t2 - t1)%Q ->
      _acquire_lock ttl t2 held = (true, Some (py_str t2)))
  /\ _acquire_lock ttl t2 (_release_lock held) = (true, Some (py_str t2)).
Proof.
  intros Hstamp Htaken held.
  assert (held = Some (py_str t1)) as ->.
  { subst held. unfold _acquire_lock in *. destruct lock as [text|]; [|done].
    by destruct (negb _). }
  split; [|split].
  - intros Hin. unfold _acquire_lock. rewrite Hstamp. cbn [default from_option id].
    apply Qle_bool_false in Hin. by rewrite Hin.
  - intros Hout. unfold _acquire_lock. rewrite Hstamp. cbn [default from_option id].
    apply Qle_bool_iff in Hout. by rewrite Hout.
  - reflexivity.
Qed.

Lemma refused_lock_unchanged (ttl : Z) (now : Q) (lock : option string) :
  fst (_acquire_lock ttl now lock) = false ->
  snd (_acquire_lock ttl now lock) = lock.
Proof.
  unfold _acquire_lock. destruct lock as [text|]; [|done]. by destruct (negb _).
Qed.

(** X22: the lock file at the edges.  With no lock file the lock is taken
    and stamped.  A lock file whose text is not a number counts as stamped
    at time zero, so it blocks only while [now < ttl].  An attempt that is
    refused never changes the file, and one that succeeds always leaves it
    holding the stamp of [now]. *)
Theorem lock_file_edges (ttl : Z) (now : Q) :
  _acquire_lock ttl now None = (true, Some (py_str now))
  /\ (forall text,
         py_float (strip text) = None ->
         ((inject_Z ttl <= now)%Q ->
          _acquire_lock ttl now (Some text) = (true, Some (py_str now)))
         /\ ((now < inject_Z ttl)%Q ->
             _acquire_lock ttl now (Some text) = (false, Some text)))
  /\ (forall lock,
         fst (_acquire_lock ttl now lock) = false ->
         snd (_acquire_lock ttl now lock) = lock)
  /\ (forall lock,
         fst (_acquire_lock ttl now lock) = true ->
         snd (_acquire_lock ttl now lock) = Some (py_str now)).
Proof.
  split; [done|]. split; [|split].
  - intros text Hparse. unfold _acquire_lock. rewrite Hparse.
    cbn [default from_option id].
    assert (now - 0 == now)%Q as Hnow by ring.
    split.
    + intros Hle. rewrite <- Hnow in Hle. apply Qle_bool_iff in Hle. by rewrite Hle.
    + intros Hlt. rewrite <- Hnow in Hlt. apply Qle_bool_false in Hlt. by rewrite Hlt.
  - intros lock. apply refused_lock_unchanged.
  - intros lock. unfold _acquire_lock. destruct lock as [text|]; [|done].
    by destruct (negb _).
Qed.

(** ** A turn of the scheduler *)

Lemma market_open_on_failed_clock (broker : AlpacaBroker) (w w1 : world O) (e : exn) :
  get_clock broker w = (Raise e, w1) ->
  _equity_market_open broker w = (Return None, w1).
Proof.
  intros Hclock. unfold _equity_market_open, try_except, bind, any_exception, ret.
  by rewrite Hclock.
Qed.

(** X23: a turn of the scheduler's loop.  The market clock is looked at
    only for an equities-only set-up; a clock that says closed skips the
    turn without touching the lock; a clock that cannot be fetched does not:
    the turn goes on as if the market were open.  A turn that finds the
    lock held within its TTL runs nothing.  A turn that takes the lock runs
    the session and leaves no lock file behind, whether the session returns
    or raises, the exception being passed on. *)
Theorem scheduler_turn
  (crypto_enabled equity_open_only : bool) (broker : AlpacaBroker) (lock_ttl : Z)
  (now : Q) (session : M unit) (lock : option string) (w : world O) :
  (forall w1,
      equity_open_only = true -> crypto_enabled = false ->
      _equity_market_open broker w = (Return (Some false), w1) ->
      main_turn equity_open_only crypto_enabled broker lock_ttl now session lock w
      = ((Return false, lock), w1))
  /\ (forall e w1,
         equity_open_only = true -> crypto_enabled = false ->
         get_clock broker w = (Raise e, w1) ->
         main_turn equity_open_only crypto_enabled broker lock_ttl now session lock w
         = main_turn false crypto_enabled broker lock_ttl now session lock w1)
  /\ (equity_open_only = false \/ crypto_enabled = true ->
      (fst (_acquire_lock lock_ttl now lock) = false ->
       main_turn equity_open_only crypto_enabled broker lock_ttl now session lock w
       = ((Return false, lock), w))
      /\ (fst (_acquire_lock lock_ttl now lock) = true ->
          main_turn equity_open_only crypto_enabled broker lock_ttl now session lock w
          = ((match fst (session w) with
              | Return _ => Return true
              | Raise e => Raise e
              end, None), snd (session w)))).
Proof.
  split; [|split].
  - intros w1 -> -> Hclosed. unfold main_turn. simpl. by rewrite Hclosed.
  - intros e w1 -> -> Hclock. unfold main_turn. simpl.
    by rewrite (market_open_on_failed_clock broker w w1 e Hclock).
  - intros Hskip.
    assert (equity_open_only && negb crypto_enabled = false) as Hcond.
    { destruct Hskip as [->| ->]; [done | apply andb_false_r]. }
    unfold main_turn. rewrite Hcond.
    destruct (_acquire_lock lock_ttl now lock) as [acquired lock1] eqn:Hlock.
    simpl. split; intros ->.
    + pose proof (refused_lock_unchanged lock_ttl now lock) as Hsame.
      rewrite Hlock in Hsame. simpl in Hsame. by rewrite Hsame.
    + by destruct (session w) as [[[]|e] w2].
Qed.

(** ** One order at most *)

Lemma get_sends_no_order (self : AlpacaBroker) (path : string) :
  keeps orders_sent (_request self "GET" path None).
Proof.
  intros w. unfold _request, bind, lift, call_requests.
  destruct (_headers self) as [hd|e]; [|done].
  assert (forall o' c,
             call_method c = "GET" ->
             orders_sent (set_outside o' (set_sent (sent w ++ [c]) w)) = orders_sent w)
    as Hsame.
  { intros o' c Hc. unfold orders_sent; simpl.
    rewrite List.filter_app; simpl. rewrite Hc. simpl. apply app_nil_r. }
  destruct (requests_request O _ (outside w)) as [[r|e] o']; simpl.
  - destruct (negb (resp_ok r)); [by apply Hsame|].
    destruct (resp_json r); by apply Hsame.
  - by apply Hsame.
Qed.

Lemma positions_send_no_order : keeps orders_sent live_get_positions.
Proof.
  unfold live_get_positions, list_positions.
  apply keeps_bind; [by apply keeps_get_broker | intros b; apply get_sends_no_order].
Qed.

Lemma notify_sends_no_order (event : string) (details : value) :
  keeps orders_sent (notify_alert event details).
Proof. by apply keeps_notify_alert. Qed.

Lemma sends_nothing {A} (side : string) (a : order_args) (m : M A) :
  keeps orders_sent m -> sends_at_most side a m.
Proof. intros Hk w. left. apply Hk. Qed.

Lemma sends_after {A B} (side : string) (a : order_args) (m : M A) (k : A -> M B) :
  keeps orders_sent m -> (forall x, sends_at_most side a (k x)) ->
  sends_at_most side a (bind m k).
Proof.
  intros Hm Hk w. unfold bind. specialize (Hm w).
  destruct (m w) as [[x|e] w']; simpl in *; [|by left].
  rewrite <- Hm. apply Hk.
Qed.

Lemma guarded_submit_sends_at_most (broker : AlpacaBroker) (side : string) (a : order_args) :
  sends_at_most side a (guarded_submit broker side a).
Proof.
  intros w. unfold guarded_submit, try_except, any_exception, submit_order.
  destruct (_ && _); [by left|].
  unfold _request, bind, lift, call_requests, raise, ret.
  destruct (_headers broker) as [[k s]|e] eqn:Hhd; [|by left].
  right. exists broker.
  assert (order_call broker side a
          = {| call_method := "POST"; call_url := (base_url broker ++ "/v2/orders")%string;
               call_key := k; call_secret := s;
               call_body := Some (VDict (submit_payload (submit_args_of side a))) |})
    as Hcall.
  { unfold _headers in Hhd. unfold order_call, broker_call.
    destruct (api_key broker) as [k0|], (api_secret broker) as [s0|]; try discriminate.
    destruct (_ || _); [discriminate|]. by injection Hhd as -> ->. }
  rewrite Hcall. simpl.
  assert (forall o',
             orders_sent (set_outside o' (set_sent (sent w ++ [
               {| call_method := "POST";
                  call_url := (base_url broker ++ "/v2/orders")%string;
                  call_key := k; call_secret := s;
                  call_body := Some (VDict (submit_payload (submit_args_of side a))) |}]) w))
             = orders_sent w ++ [
               {| call_method := "POST";
                  call_url := (base_url broker ++ "/v2/orders")%string;
                  call_key := k; call_secret := s;
                  call_body := Some (VDict (submit_payload (submit_args_of side a))) |}])
    as Hsent.
  { intros o'. unfold orders_sent; simpl. by rewrite List.filter_app. }
  destruct (requests_request O _ (outside w)) as [[r|e] o']; simpl; [|by apply Hsent].
  destruct (negb (resp_ok r)); simpl; [by apply Hsent|].
  destruct (resp_json r); by apply Hsent.
Qed.

Lemma buy_sends_one_order_at_most (a : order_args) :
  sends_at_most "buy" a (live_buy a).
Proof.
  unfold live_buy. destruct (_ && _); [by apply sends_nothing|].
  apply sends_after; [by apply keeps_get_broker | intros broker].
  apply sends_after; [apply get_sends_no_order | intros account].
  apply sends_after; [done | intros equity].
  apply sends_after; [done | intros buying_power].
  apply sends_after.
  { destruct (_estimate_order_notional _ _ _); [done|].
    intros w. by rewrite any_limit_set_run. }
  intros [|]; [by apply sends_nothing|].
  apply sends_after; [by apply keeps_daily_loss | intros loss_error].
  destruct (truthy_opt loss_error).
  { apply sends_nothing. apply keeps_bind; [apply notify_sends_no_order | done]. }
  destruct (_estimate_order_notional _ _ _) as [n|];
    [|apply guarded_submit_sends_at_most].
  apply sends_after; [intros w; by rewrite notional_limits_run | intros limit_error].
  destruct (truthy_opt limit_error).
  { apply sends_nothing. apply keeps_bind; [apply notify_sends_no_order | done]. }
  destruct (match buying_power with Some bp => Qgtb n bp | None => false end).
  { apply sends_nothing. apply keeps_bind; [apply notify_sends_no_order | done]. }
  apply sends_after; [apply positions_send_no_order | intros positions].
  apply sends_after; [done | intros current].
  apply sends_after; [intros w; by rewrite position_limits_run | intros position_error].
  destruct (truthy_opt position_error); [|apply guarded_submit_sends_at_most].
  apply sends_nothing. apply keeps_bind; [apply notify_sends_no_order | done].
Qed.

Lemma sell_sends_one_order_at_most (a : order_args) :
  sends_at_most "sell" a (live_sell a).
Proof.
  unfold live_sell. destruct (_ && _); [by apply sends_nothing|].
  apply sends_after; [done | intros raw].
  apply sends_after.
  { destruct (qty a) as [q|]; [|done]. destruct (negb _); [|done].
    apply keeps_bind; [apply positions_send_no_order | intros positions].
    apply keeps_bind; [done | intros current]. by destruct (Qgtb q current). }
  intros [result|]; [by apply sends_nothing|].
  apply sends_after; [by apply keeps_get_broker | intros broker].
  apply guarded_submit_sends_at_most.
Qed.

(** X24: a call of the router sends at most one order, and it is the order
    of the intent: after [live_buy] or [live_sell] the orders sent are those
    sent before, or those followed by one [POST /v2/orders] whose payload is
    the intent's, on every path, rejections and exceptions included. *)
Theorem router_sends_one_order_at_most (a : order_args) :
  sends_at_most "buy" a (live_buy a) /\ sends_at_most "sell" a (live_sell a).
Proof.
  split;
    [apply buy_sends_one_order_at_most | apply sell_sends_one_order_at_most].
Qed.

Lemma one_order_within {A} (side : string) (a : order_args) (m : M A) :
  sends_at_most side a m -> orders_within 1 m.
Proof.
  intros Hm w. destruct (Hm w) as [Hsame|(broker & Hone)].
  - exists []. split; [by rewrite app_nil_r | simpl; lia].
  - exists [order_call broker side a]. by split.
Qed.

Lemma no_order_within {A} (m : M A) : keeps orders_sent m -> orders_within 0 m.
Proof. intros Hk w. exists []. split; [by rewrite app_nil_r, Hk | done]. Qed.

Lemma orders_within_bind {A B} (n1 n2 : nat) (m : M A) (k : A -> M B) :
  orders_within n1 m -> (forall x, orders_within n2 (k x)) ->
  orders_within (n1 + n2) (bind m k).
Proof.
  intros Hm Hk w. unfold bind. destruct (Hm w) as (l1 & H1 & Hlen1).
  destruct (m w) as [[x|e] w']; simpl in *.
  - destruct (Hk x w') as (l2 & H2 & Hlen2).
    exists (l1 ++ l2). split; [by rewrite H2, H1, app_assoc|].
    rewrite length_app. lia.
  - exists l1. split; [done | lia].
Qed.

Lemma orders_within_weaken {A} (n n' : nat) (m : M A) :
  (n <= n')%nat -> orders_within n m -> orders_within n' m.
Proof.
  intros Hle Hm w. destruct (Hm w) as (l & H & Hlen). exists l. split; [done | lia].
Qed.

Lemma run_slices_orders_within (place : Q -> M value) (delay : Z) (amounts : list Q) :
  (forall amount, orders_within 1 (place amount)) ->
  forall results, orders_within (length amounts) (run_slices place delay amounts results).
Proof.
  intros Hplace. induction amounts as [|amount rest IH]; intros results.
  - by apply no_order_within.
  - simpl. apply (orders_within_bind 1 (length rest)); [apply Hplace | intros r].
    apply (orders_within_bind 0 (length rest)); [|intros _; apply IH].
    apply no_order_within. by destruct (0 <? delay).
Qed.

Lemma split_equity_length (total_qty : Q) (slices : Z) :
  (length (_split_equity_qty total_qty slices) <= Z.to_nat (Z.max 1 slices))%nat.
Proof.
  rewrite split_as_planned. unfold planned_equity_split.
  destruct (Z.leb_spec slices 1); [simpl; lia|].
  destruct (Z.leb_spec (py_trunc total_qty / slices) 0); [simpl; lia|].
  pose proof (Z.mod_pos_bound (py_trunc total_qty) slices ltac:(lia)).
  rewrite length_fmap, length_app, !length_replicate. lia.
Qed.

(** X25: a TWAP order sends at most one order per slice and never more
    than [max(1, count)] in all, [count] being the slice argument or,
    failing that, [TWAP_SLICES] or 4: whatever the side, the asset class and
    the broker's answers, and also when the scheduler ends in an
    exception. *)
Theorem twap_sends_one_order_per_slice_at_most
  (side : string) (a : order_args) (slices interval_seconds : option Z) (w : world O) :
  exists count added,
    given_or_env slices "TWAP_SLICES" 4 w = (Return count, w)
    /\ orders_sent (snd (live_twap_order side a slices interval_seconds w))
       = orders_sent w ++ added
    /\ (length added <= Z.to_nat (Z.max 1 count))%nat.
Proof.
  destruct (given_or_env_returns slices "TWAP_SLICES" 4 w) as (count & Hcount).
  destruct (given_or_env_returns interval_seconds "TWAP_INTERVAL_SECONDS" 15 w)
    as (delay & Hdelay).
  assert (forall slice, orders_within 1
            ((if String.eqb (lower side) "buy" then live_buy else live_sell) slice))
    as Hplace.
  { intros slice. destruct (String.eqb (lower side) "buy").
    - apply (one_order_within "buy" slice), buy_sends_one_order_at_most.
    - apply (one_order_within "sell" slice), sell_sends_one_order_at_most. }
  assert (exists added, orders_sent w = orders_sent w ++ added
                        /\ (length added <= Z.to_nat (Z.max 1 count))%nat) as Hnone.
  { exists []. split; [by rewrite app_nil_r | simpl; lia]. }
  cut (exists added,
          orders_sent (snd (live_twap_order side a slices interval_seconds w))
          = orders_sent w ++ added
          /\ (length added <= Z.to_nat (Z.max 1 count))%nat).
  { intros (added & Hadded & Hlen). by exists count, added. }
  unfold live_twap_order.
  destruct (negb _); [exact Hnone|]. destruct (_ && _); [exact Hnone|].
  rewrite (bind_return _ _ _ _ _ Hcount), (bind_return _ _ _ _ _ Hdelay).
  destruct (qty a) as [q|].
  - destruct (String.eqb (asset_class a) "equity").
    + rewrite (bind_return _ _ w (_split_equity_qty q count) w) by done.
      match goal with
      | |- context [run_slices ?place delay ?amounts []] =>
          destruct (orders_within_bind (length amounts) 0
                      (run_slices place delay amounts [])
                      (fun results => ret (twap_result results))
                      ltac:(apply run_slices_orders_within; intros x; apply Hplace)
                      ltac:(intros x; by apply no_order_within) w)
            as (added & Hadded & Hlen)
      end.
      exists added. split; [exact Hadded|].
      pose proof (split_equity_length q count). lia.
    + destruct (Z.eqb_spec count 0) as [->|Hnz]; [exact Hnone|].
      rewrite (bind_return _ _ w (replicate (Z.to_nat count) (q / inject_Z count)%Q) w)
        by done.
      match goal with
      | |- context [run_slices ?place delay ?amounts []] =>
          destruct (orders_within_bind (length amounts) 0
                      (run_slices place delay amounts [])
                      (fun results => ret (twap_result results))
                      ltac:(apply run_slices_orders_within; intros x; apply Hplace)
                      ltac:(intros x; by apply no_order_within) w)
            as (added & Hadded & Hlen)
      end.
      exists added. split; [exact Hadded|].
      rewrite length_replicate in Hlen. lia.
  - match goal with
    | |- context [run_slices ?place delay ?amounts []] =>
        destruct (orders_within_bind (length amounts) 0
                    (run_slices place delay amounts [])
                    (fun results => ret (twap_result results))
                    ltac:(apply run_slices_orders_within; intros x; apply Hplace)
                    ltac:(intros x; by apply no_order_within) w)
          as (added & Hadded & Hlen)
    end.
    exists added. split; [exact Hadded|].
    rewrite split_notional_length in Hlen. lia.
Qed.

(** ** The agent's session *)

Lemma record_run_summary_returns (run_id model_signature status : string)
  (details : option value) (live_runs_jsonl : list value) (w : world O) :
  exists account positions w',
    record_run_summary run_id model_signature status details live_runs_jsonl w
    = (Return (live_runs_jsonl
               ++ [VDict (summary_entry (utc_iso O (outside w')) run_id model_signature
                            status account positions details)]), w')
    /\ live_alerts_jsonl w' = live_alerts_jsonl w.
Proof.
  set (broker := broker_of_env (environ w)).
  destruct (recorded_fetch (get_account broker) (fun exc => error_dict (exn_str exc)) w)
    as (account & w1 & Haccount & Hw1 & _).
  destruct (recorded_fetch (list_positions broker)
              (fun exc => VList [error_dict (exn_str exc)]) w1)
    as (positions & w2 & Hpositions & Hw2 & _).
  exists account, positions, w2. split.
  - unfold record_run_summary.
    rewrite (bind_return _ _ w broker w) by done.
    rewrite (bind_return _ _ _ _ _ Haccount), (bind_return _ _ _ _ _ Hpositions).
    rewrite (bind_return _ _ w2 (utc_iso O (outside w2)) w2) by done.
    unfold summary_entry, figure_or_none.
    destruct (summary_figure_returns account "equity") as (equity & ->).
    destruct (summary_figure_returns account "buying_power") as (bp & ->).
    rewrite (bind_return _ _ w2 equity w2) by done.
    by rewrite (bind_return _ _ w2 bp w2) by done.
  - rewrite Hw2, Hw1. unfold list_positions, get_account.
    rewrite (keeps_request (@live_alerts_jsonl O) ltac:(done) ltac:(done)
               broker "GET" "/v2/positions" None).
    apply (keeps_request (@live_alerts_jsonl O) ltac:(done) ltac:(done)
             broker "GET" "/v2/account" None).
Qed.

Lemma session_loop_keeps_status (turn : list value -> M (bool * list value))
  (log_error : exn -> M unit) (steps : nat) :
  forall (message : list value) (status : string) (details : option value)
         (w : world O) (final : string * option value) (w' : world O),
    session_loop turn log_error steps message status details w = (Return final, w') ->
    final = (status, details).
Proof.
  induction steps as [|steps IH]; intros message status details w final w'.
  - by intros [= <- _].
  - simpl. unfold bind at 1, try_except, bind, any_exception, ret, raise.
    destruct (turn message w) as [[[finished message']|e] w1]; simpl.
    + destruct finished; [by intros [= <- _]|]. apply IH.
    + by destruct (log_error e w1) as [[u|e'] w2].
Qed.

Lemma session_loop_failed_turn (turn : list value -> M (bool * list value))
  (log_error : exn -> M unit) (steps : nat) (message : list value) (status : string)
  (details : option value) (w w1 : world O) (e : exn) :
  turn message w = (Raise e, w1) ->
  exists e',
    session_loop turn log_error (S steps) message status details w
    = (Raise e', snd (log_error e w1))
    /\ (forall u w2, log_error e w1 = (Return u, w2) -> e' = e).
Proof.
  intros Hturn. simpl.
  unfold bind at 1, try_except, bind, any_exception, ret, raise. rewrite Hturn. simpl.
  destruct (log_error e w1) as [[u|e'] w2]; simpl.
  - exists e. split; [done|]. by intros.
  - exists e'. split; [done|]. by intros.
Qed.

(** X26: the [live_run_error] alert of [run_trading_session] cannot be
    reached.  The handler of the loop sets [status = "error"] and then
    re-raises, so the statements after the loop only ever run with
    [status == "completed"] and no error details: a session that returns
    has recorded one summary line with status ["completed"] and has written
    nothing to the alert log after the loop; a turn that raises makes the
    loop raise (the same exception when the error could be logged); and a
    loop that raises makes the session raise from the world the loop left,
    with no summary and no alert. *)
Theorem run_error_alert_is_unreachable (prepare : M unit)
  (turn : list value -> M (bool * list value)) (log_error : exn -> M unit)
  (max_steps : nat) (run_id signature : string) (live_runs_jsonl : list value)
  (w : world O) :
  let session :=
    run_trading_session prepare turn log_error max_steps run_id signature live_runs_jsonl in
  let first_message :=
    [VDict [("role", VStr "user");
            ("content", VStr "Analyze current account and propose live trades.")]] in
  (forall log w', session w = (Return log, w') ->
     exists w1 w2 account positions,
       prepare w = (Return tt, w1)
       /\ session_loop turn log_error max_steps first_message "completed" None w1
          = (Return ("completed", None), w2)
       /\ log = live_runs_jsonl
                ++ [VDict (summary_entry (utc_iso O (outside w')) run_id signature
                             "completed" account positions None)]
       /\ live_alerts_jsonl w' = live_alerts_jsonl w2)
  /\ (forall steps message status details w0 w1 e,
        turn message w0 = (Raise e, w1) ->
        exists e',
          session_loop turn log_error (S steps) message status details w0
          = (Raise e', snd (log_error e w1))
          /\ (forall u w2, log_error e w1 = (Return u, w2) -> e' = e))
  /\ (forall w1 w2 e,
        prepare w = (Return tt, w1) ->
        session_loop turn log_error max_steps first_message "completed" None w1
        = (Raise e, w2) ->
        session w = (Raise e, w2)).
Proof.
  intros session first_message. split; [|split].
  - intros log w'. unfold session, run_trading_session.
    unfold bind at 1. destruct (prepare w) as [[[]|e] w1]; [|done].
    unfold bind at 1. fold first_message.
    destruct (session_loop turn log_error max_steps first_message "completed" None w1)
      as [[final|e] w2] eqn:Hloop; [|done].
    pose proof (session_loop_keeps_status _ _ _ _ _ _ _ _ _ Hloop) as ->.
    destruct (record_run_summary_returns run_id signature "completed" None
                live_runs_jsonl w2) as (account & positions & w3 & Hrec & Halerts).
    rewrite (bind_return _ _ _ _ _ Hrec). simpl. unfold ret. intros [= <- <-].
    by exists w1, w2, account, positions.
  - intros steps message status details w0 w1 e.
    apply session_loop_failed_turn.
  - intros w1 w2 e Hprep Hloop. unfold session, run_trading_session.
    unfold bind at 1. rewrite Hprep. unfold bind at 1. fold first_message.
    by rewrite Hloop.
Qed.

(** ** The scheduler's settings *)

Lemma env_int_run (key : string) (dflt : Z) (w : world O) :
  exists n,
    _env_int key dflt w = (Return n, w)
    /\ (truthy_str (environ w !! key) = false -> n = dflt)
    /\ (forall v, environ w !! key = Some v -> v <> "" -> n = default dflt (py_int v)).
Proof.
  unfold _env_int, bind, getenv, ret.
  destruct (environ w !! key) as [v|]; simpl.
  - destruct (String.eqb_spec v "") as [->|Hne]; simpl.
    + exists dflt. split; [done|]. split; [done|]. by intros ? [= <-] ?.
    + exists (default dflt (py_int v)). split; [done|]. split.
      * unfold truthy_str. destruct (String.eqb_spec v ""); [done|]. by intros.
      * by intros ? [= <-] _.
  - exists dflt. by repeat split.
Qed.

Lemma env_bool_run (key : string) (dflt : bool) (w : world O) :
  exists b,
    _env_bool key dflt w = (Return b, w)
    /\ (truthy_str (environ w !! key) = false -> b = dflt)
    /\ (forall v, environ w !! key = Some v -> v <> "" ->
                  (b = true <-> In (lower v) ["1"; "true"; "yes"; "on"])).
Proof.
  unfold _env_bool, bind, getenv, ret.
  destruct (environ w !! key) as [v|]; cbv beta iota.
  - destruct (String.eqb_spec v "") as [->|Hne]; cbv beta iota.
    + exists dflt. split; [done|]. split; [done|]. by intros ? [= <-] ?.
    + eexists. split; [done|]. split.
      * unfold truthy_str. destruct (String.eqb_spec v ""); [done|]. by intros.
      * intros ? [= <-] _. rewrite existsb_exists. split.
        -- intros (x & Hin & Heq). apply String.eqb_eq in Heq. by subst x.
        -- intros Hin. exists (lower v). split; [done|]. apply String.eqb_refl.
  - exists dflt. by repeat split.
Qed.

(** X27: the settings of the scheduler.  Reading them never raises and
    changes nothing.  An interval that is unset, empty or not an integer is
    60 seconds; a lock TTL that is unset or empty is
    [max(120, 2 * interval)], hence never under two minutes nor under two
    intervals.  Crypto trading is on unless [LIVE_CRYPTO_ENABLED] is set to
    something other than [1], [true], [yes] or [on] (in any letter case);
    and while it is on, a turn of the loop is the turn of a set-up that does
    not wait for the market: the clock is not looked at, whatever
    [LIVE_EQUITY_OPEN_ONLY] says. *)
Theorem scheduler_settings_defaults (w : world O) :
  exists interval equity_open_only crypto_enabled run_on_startup lock_ttl,
    main_settings w
    = (Return (interval, equity_open_only, crypto_enabled, run_on_startup, lock_ttl), w)
    /\ (truthy_str (environ w !! "LIVE_SCHEDULER_INTERVAL_SECONDS") = false ->
        interval = 60)
    /\ (forall v, environ w !! "LIVE_SCHEDULER_INTERVAL_SECONDS" = Some v ->
                  py_int v = None -> interval = 60)
    /\ (truthy_str (environ w !! "LIVE_RUN_LOCK_TTL_SECONDS") = false ->
        lock_ttl = Z.max 120 (interval * 2)
        /\ 120 <= lock_ttl /\ 2 * interval <= lock_ttl)
    /\ (truthy_str (environ w !! "LIVE_CRYPTO_ENABLED") = false -> crypto_enabled = true)
    /\ (forall v, environ w !! "LIVE_CRYPTO_ENABLED" = Some v -> v <> "" ->
                  (crypto_enabled = true <-> In (lower v) ["1"; "true"; "yes"; "on"]))
    /\ (crypto_enabled = true ->
        forall broker now session lock w0,
          main_turn equity_open_only crypto_enabled broker lock_ttl now session lock w0
          = main_turn false crypto_enabled broker lock_ttl now session lock w0).
Proof.
  destruct (env_int_run "LIVE_SCHEDULER_INTERVAL_SECONDS" 60 w)
    as (interval & Hinterval & Hunset & Hset).
  destruct (env_bool_run "LIVE_EQUITY_OPEN_ONLY" true w) as (eo & Heo & _).
  destruct (env_bool_run "LIVE_CRYPTO_ENABLED" true w) as (crypto & Hcrypto & Hcu & Hcs).
  destruct (env_bool_run "LIVE_RUN_ON_STARTUP" true w) as (startup & Hstartup & _).
  destruct (env_int_run "LIVE_RUN_LOCK_TTL_SECONDS" (Z.max 120 (interval * 2)) w)
    as (ttl & Httl & Htu & _).
  exists interval, eo, crypto, startup, ttl.
  split; [|split; [|split; [|split; [|split; [|split]]]]].
  - unfold main_settings.
    rewrite (bind_return _ _ _ _ _ Hinterval), (bind_return _ _ _ _ _ Heo),
      (bind_return _ _ _ _ _ Hcrypto), (bind_return _ _ _ _ _ Hstartup).
    by rewrite (bind_return _ _ _ _ _ Httl).
  - exact Hunset.
  - intros v Hv Hparse.
    destruct (String.eqb_spec v "") as [->|Hne].
    + apply Hunset. by rewrite Hv.
    + rewrite (Hset v Hv Hne), Hparse. done.
  - intros Hunset_ttl. rewrite (Htu Hunset_ttl). lia.
  - exact Hcu.
  - exact Hcs.
  - intros -> broker now session lock w0. unfold main_turn. by destruct eo.
Qed.

(** ** The query tools *)

Lemma tool_sends_one (method path : string) (w : world O) (broker : AlpacaBroker)
  (k s : string) :
  fst (_get_broker w) = Return broker ->
  api_key broker = Some k -> api_secret broker = Some s -> k <> "" -> s <> "" ->
  let tool := do b <- _get_broker ; _request b method path None in
  sent (snd (tool w)) = sent w ++ [broker_call broker method path None]
  /\ _broker (snd (tool w)) = Some broker
  /\ live_state_json (snd (tool w)) = live_state_json w
  /\ live_alerts_jsonl (snd (tool w)) = live_alerts_jsonl w
  /\ environ (snd (tool w)) = environ w.
Proof.
  intros Hbroker Hk Hs Hk0 Hs0 tool. unfold tool, bind.
  assert (exists w1,
             _get_broker w = (Return broker, w1)
             /\ sent w1 = sent w /\ _broker w1 = Some broker
             /\ live_state_json w1 = live_state_json w
             /\ live_alerts_jsonl w1 = live_alerts_jsonl w
             /\ environ w1 = environ w) as (w1 & -> & Hsent & Hb & Hstate & Halerts & Henv).
  { revert Hbroker. unfold _get_broker.
    destruct (_broker w) as [b|] eqn:Hb; simpl.
    - intros [= ->]. by exists w.
    - unfold AlpacaBroker_init, bind, getenv, getenv_default, ret. simpl.
      intros [= <-]. by eexists. }
  rewrite (request_sends_one broker method path None w1 k s Hk Hs Hk0 Hs0), Hsent.
  split; [done|].
  rewrite (keeps_request (@_broker O) ltac:(done) ltac:(done) broker method path None w1).
  rewrite (keeps_request (@live_state_json O) ltac:(done) ltac:(done)
             broker method path None w1).
  rewrite (keeps_request (@live_alerts_jsonl O) ltac:(done) ltac:(done)
             broker method path None w1).
  by rewrite (keeps_request (@environ O) ltac:(done) ltac:(done)
                broker method path None w1).
Qed.

(** X28: the four query tools of the router.  With the adapter's two
    credentials set, each of [live_get_account], [live_get_positions],
    [live_get_clock] and [live_cancel_all_orders] makes exactly one call to
    the broker, whatever the answer: a [GET] of [/v2/account],
    [/v2/positions] or [/v2/clock], or a [DELETE] of [/v2/orders], with no
    body.  None of them sends an order, and the adapter, the state file,
    the alert log and the environment are as the adapter's construction
    left them. *)
Theorem query_tools_send_one_request (w : world O) (broker : AlpacaBroker) (k s : string) :
  fst (_get_broker w) = Return broker ->
  api_key broker = Some k -> api_secret broker = Some s -> k <> "" -> s <> "" ->
  Forall (fun '(tool, method, path) =>
            sent (snd (tool w)) = sent w ++ [broker_call broker method path None]
            /\ orders_sent (snd (tool w)) = orders_sent w
            /\ _broker (snd (tool w)) = Some broker
            /\ live_state_json (snd (tool w)) = live_state_json w
            /\ live_alerts_jsonl (snd (tool w)) = live_alerts_jsonl w
            /\ environ (snd (tool w)) = environ w)
         [(live_get_account, "GET", "/v2/account");
          (live_get_positions, "GET", "/v2/positions");
          (live_get_clock, "GET", "/v2/clock");
          (live_cancel_all_orders, "DELETE", "/v2/orders")].
Proof.
  intros Hbroker Hk Hs Hk0 Hs0.
  assert (forall method path,
             String.eqb method "POST" = false ->
             let tool := do b <- _get_broker ; _request b method path None in
             sent (snd (tool w)) = sent w ++ [broker_call broker method path None]
             /\ orders_sent (snd (tool w)) = orders_sent w
             /\ _broker (snd (tool w)) = Some broker
             /\ live_state_json (snd (tool w)) = live_state_json w
             /\ live_alerts_jsonl (snd (tool w)) = live_alerts_jsonl w
             /\ environ (snd (tool w)) = environ w) as Htool.
  { intros method path Hmethod tool.
    destruct (tool_sends_one method path w broker k s Hbroker Hk Hs Hk0 Hs0)
      as (Hsent & Hrest).
    split; [exact Hsent|]. split; [|exact Hrest].
    unfold orders_sent. fold tool in Hsent. rewrite Hsent, List.filter_app. simpl.
    rewrite Hmethod. apply app_nil_r. }
  constructor; [exact (Htool "GET" "/v2/account" eq_refl)|].
  constructor; [exact (Htool "GET" "/v2/positions" eq_refl)|].
  constructor; [exact (Htool "GET" "/v2/clock" eq_refl)|].
  constructor; [exact (Htool "DELETE" "/v2/orders" eq_refl)|].
  constructor.
Qed.

End Engine.

(** * The properties at concrete inputs *)



Lemma day_state_witness :
  (exists w',
      get_or_init_day_state desk_outside 9000 stale_world
        = (Return (fresh_day "2024-01-02" 9000), w')
      /\ stored_day desk_outside w' = Return (fresh_day "2024-01-02" 9000)
      /\ utc_date desk_outside (outside w') = "2024-01-02")
  /\ (let w1 := snd (get_or_init_day_state desk_outside 9000 stale_world) in
      get_or_init_day_state desk_outside 8000 w1
      = (Return (fresh_day "2024-01-02" 9000), w1)).
Proof.
  split.
  - apply (proj2 (day_state_write_once desk_outside) 9000%Q stale_world
             (VStr "2024-01-01")); [reflexivity | discriminate].
  - intros w1.
    apply (proj1 (day_state_write_once desk_outside) 9000%Q 8000%Q stale_world w1 w1);
      reflexivity.
Defined.


Lemma short_sale_witness :
  let w1 := snd (live_get_positions desk_outside holding_world) in
  live_sell decimal_float desk_outside (market_sell "AAPL" (Some 8%Q) None) holding_world
  = (Return (short_sale_rejection 5), w1)
  /\ live_sell decimal_float desk_outside (market_sell "AAPL" (Some 5%Q) None) holding_world
     = sell_submission desk_outside (market_sell "AAPL" (Some 5%Q) None) w1
  /\ fst (sell_submission desk_outside (market_sell "AAPL" (Some 5%Q) None) w1)
     = Return (VDict [("status", VStr "accepted")])
  /\ live_sell decimal_float desk_outside (market_sell "AAPL" None (Some 300%Q)) holding_world
     = sell_submission desk_outside (market_sell "AAPL" None (Some 300%Q)) holding_world.
Proof.
  intros w1.
  pose proof (short_sale_guard decimal_float desk_outside) as (Hguard & Hnotional & _).
  split; [|split; [|split]].
  - apply (Hguard (market_sell "AAPL" (Some 8%Q) None) holding_world w1 8%Q 5%Q
             (VList [holding "MSFT" "2" "800"; holding "AAPL" "5" "900"]));
      reflexivity.
  - apply (Hguard (market_sell "AAPL" (Some 5%Q) None) holding_world w1 5%Q 5%Q
             (VList [holding "MSFT" "2" "800"; holding "AAPL" "5" "900"]));
      try reflexivity. discriminate.
  - reflexivity.
  - apply (Hnotional _ _ 300%Q); reflexivity.
Defined.

Lemma malformed_limit_witness :
  _get_env_float decimal_float desk_outside "MAX_ORDER_NOTIONAL_USD" garbled_world
  = (Return None, garbled_world)
  /\ fst (live_buy decimal_float decimal_int desk_outside
            (market_buy "AAPL" (Some 10%Q) None (Some 200%Q))
            (unset desk_outside "MAX_ORDER_NOTIONAL_USD" garbled_world))
     = fst (live_buy decimal_float decimal_int desk_outside
              (market_buy "AAPL" (Some 10%Q) None (Some 200%Q)) garbled_world).
Proof.
  destruct (malformed_limit_reads_as_unset decimal_float decimal_int desk_outside
              "MAX_ORDER_NOTIONAL_USD" "abc" garbled_world)
    as (Hread & Hbuy & _); [reflexivity | reflexivity | reflexivity |].
  split; [exact Hread|]. apply Hbuy.
Defined.

Lemma fail_closed_witness :
  orders_sent desk_outside
    (snd (live_buy decimal_float decimal_int desk_outside
            (market_buy "AAPL" (Some 10%Q) None None) capped_world)) = []
  /\ fst (live_buy decimal_float decimal_int desk_outside
            (market_buy "AAPL" (Some 10%Q) None None) capped_world)
     = Return fail_closed_rejection.
Proof.
  destruct (unknown_notional_fails_closed decimal_float decimal_int desk_outside
              (market_buy "AAPL" (Some 10%Q) None None) capped_world 10%Q
              "MAX_ORDER_NOTIONAL_USD")
    as (Hsent & _ & Hrun); [reflexivity | reflexivity | reflexivity | | |].
  - left. reflexivity.
  - by exists 1000%Q.
  - split; [exact Hsent|].
    rewrite (Hrun paper_broker
               (snd (_get_broker desk_outside capped_world))
               (VDict [("equity", VStr "9500"); ("buying_power", VStr "20000")])
               (snd (live_get_account desk_outside capped_world))
               (Some 9500%Q) (Some 20000%Q)); reflexivity.
Defined.


(** C1 on the code: no sell ever writes to the alert log; with five shares
    held and shorting disabled, a sell of eight is rejected by the
    short-sale guard and the alert log stays empty, whereas a buy rejected for its buying power in the same world leaves a
    ["risk_limit_triggered"] line in it. *)
Theorem short_sale_rejection_is_not_alerted :
  (forall py_float O a (w : world O),
      live_alerts_jsonl (snd (live_sell py_float O a w)) = live_alerts_jsonl w)
  /\ live_alerts_jsonl holding_world = []
  /\ fst (live_sell decimal_float desk_outside
            (market_sell "AAPL" (Some 8%Q) None) holding_world)
     = Return (short_sale_rejection 5)
  /\ live_alerts_jsonl
       (snd (live_sell decimal_float desk_outside
               (market_sell "AAPL" (Some 8%Q) None) holding_world)) = []
  /\ fst (live_buy decimal_float decimal_int desk_outside
            (market_buy "AAPL" None (Some 50000%Q) None) holding_world)
     = Return (VDict [("error", VStr "Insufficient buying power");
                      ("buying_power", VNum 20000)])
  /\ live_alerts_jsonl
       (snd (live_buy decimal_float decimal_int desk_outside
               (market_buy "AAPL" None (Some 50000%Q) None) holding_world))
     = [VDict [("timestamp", VStr "2024-01-02T09:30:00");
               ("event", VStr "risk_limit_triggered");
               ("details", risk_details "buying_power" "AAPL"
                             (VStr "Insufficient buying power"))]].
Proof.
  split; [intros py_float O a w; apply live_sell_never_alerts|].
  repeat split; vm_compute; reflexivity.
Qed.

(** C2 on the code: a 500 on the account fetch leaves [live_buy] as a
    [RuntimeError], and a timeout on the positions fetch leaves [live_sell]
    as the [requests] exception; only the failure of the order submission
    itself comes back as a result with an ["error"] field. *)
Theorem fetch_failures_escape_the_router :
  fst (live_buy decimal_float decimal_int desk_outside
         (market_buy "AAPL" (Some 1%Q) None None) down_world)
  = Raise (Exn RuntimeError
             (VFmt "Alpaca API error {}: {}" [VNum 500; VStr "Internal Server Error"]))
  /\ fst (live_sell decimal_float desk_outside
            (market_sell "AAPL" (Some 1%Q) None) down_world)
     = Raise (Exn RequestException (VStr "Read timed out. (read timeout=10)"))
  /\ fst (live_sell decimal_float desk_outside
            (market_sell "AAPL" None (Some 100%Q)) down_world)
     = Return (error_dict (VFmt "Alpaca API error {}: {}"
                                [VNum 422; VStr "insufficient qty"])).
Proof. repeat split; vm_compute; reflexivity. Qed.

(** C3 on the code: a TWAP buy of ten shares in three slices whose second
    account fetch is answered 503 raises out of the scheduler; no slice
    count and no per-slice results come back, although the first slice's
    order has been sent. *)
Theorem twap_is_cut_short_by_a_failed_fetch :
  let ran := live_twap_order decimal_float decimal_int desk_outside "buy"
               (market_buy "AAPL" (Some 10%Q) None None) (Some 3) (Some 1) flaky_world in
  fst ran = Raise (Exn RuntimeError
                     (VFmt "Alpaca API error {}: {}"
                           [VNum 503; VStr "Service Unavailable"]))
  /\ List.map call_method (sent (snd ran)) = ["GET"; "POST"; "GET"]
  /\ List.map call_body (orders_sent desk_outside (snd ran))
     = [Some (VDict [("symbol", VStr "AAPL"); ("side", VStr "buy");
                     ("type", VStr "market"); ("qty", VNum 4);
                     ("time_in_force", VStr "day")])].
Proof. repeat split; vm_compute; reflexivity. Qed.

(** * Further properties at concrete inputs *)

Lemma request_errors_witness :
  live_buy decimal_float decimal_int desk_outside (market_buy "AAPL" None None None)
    holding_world
  = (Return size_error, holding_world)
  /\ live_twap_order decimal_float decimal_int desk_outside "hold"
       (market_buy "AAPL" (Some 1%Q) None None) None None holding_world
     = (Return side_error, holding_world).
Proof.
  destruct (request_errors_touch_nothing decimal_float decimal_int desk_outside)
    as (Hsize & Hside).
  split.
  - apply (Hsize (market_buy "AAPL" None None None) holding_world); reflexivity.
  - apply (Hside "hold" (market_buy "AAPL" (Some 1%Q) None None) holding_world None None);
      discriminate.
Defined.

Lemma side_witness :
  live_place_order decimal_float decimal_int desk_outside "Buy"
    (market_buy "AAPL" (Some 1%Q) None None)
  = live_buy decimal_float decimal_int desk_outside (market_buy "AAPL" (Some 1%Q) None None).
Proof.
  apply (side_is_case_insensitive decimal_float decimal_int desk_outside "Buy"
           (market_buy "AAPL" (Some 1%Q) None None)).
  reflexivity.
Defined.

Lemma crypto_twap_witness :
  live_twap_order decimal_float decimal_int desk_outside "buy" (crypto_buy "BTC/USD" 1)
    (Some (-2)) None zero_slices_world
  = (Return (twap_result []), zero_slices_world)
  /\ live_twap_order decimal_float decimal_int desk_outside "buy" (crypto_buy "BTC/USD" 1)
       None None zero_slices_world
     = (Raise (Exn ZeroDivisionError (VStr "float division by zero")), zero_slices_world).
Proof.
  destruct (crypto_twap_slice_count_edges decimal_float decimal_int desk_outside
              "buy" (crypto_buy "BTC/USD" 1) 1%Q zero_slices_world)
    as (Hnegative & Hzero); [left; reflexivity | reflexivity | discriminate |].
  split.
  - apply (Hnegative (-2) None). reflexivity.
  - apply (Hzero None None "0");
      [left; reflexivity | reflexivity | discriminate | reflexivity].
Defined.




Lemma twap_sell_witness :
  exists count results w',
    given_or_env decimal_int desk_outside (Some 3) "TWAP_SLICES" 4 holding_world
    = (Return count, holding_world)
    /\ live_twap_order decimal_float decimal_int desk_outside "SELL"
         (market_sell "AAPL" None (Some 300%Q)) (Some 3) (Some 0) holding_world
       = (Return (twap_result results), w')
    /\ length results = Z.to_nat (Z.max 1 count)
    /\ live_alerts_jsonl w' = live_alerts_jsonl holding_world
    /\ live_state_json w' = live_state_json holding_world.
Proof.
  apply (twap_sell_by_notional_reports_every_slice decimal_float decimal_int desk_outside
           "SELL" (market_sell "AAPL" None (Some 300%Q)) 300%Q (Some 3) (Some 0)
           holding_world); reflexivity.
Defined.

Lemma request_witness :
  _request desk_outside keyless_broker "GET" "/v2/account" None holding_world
  = (Raise credentials_error, holding_world)
  /\ sent (snd (_request desk_outside paper_broker "GET" "/v2/account" None holding_world))
     = [broker_call paper_broker "GET" "/v2/account" None].
Proof.
  split.
  - apply (request_needs_credentials desk_outside keyless_broker "GET" "/v2/account" None
             holding_world).
    left. reflexivity.
  - apply (proj1 (proj2 (request_needs_credentials desk_outside paper_broker "GET"
                           "/v2/account" None holding_world)) "k" "s");
      [reflexivity | reflexivity | discriminate | discriminate].
Defined.

Lemma zero_quantity_witness :
  guarded_submit desk_outside paper_broker "buy" (market_buy "AAPL" (Some 0%Q) None None)
    holding_world
  = (Return size_error, holding_world).
Proof.
  apply (proj1 (zero_quantity_order_is_never_sent desk_outside paper_broker "buy"
                  (market_buy "AAPL" (Some 0%Q) None None) holding_world) 0%Q);
    reflexivity.
Defined.

Lemma broker_witness :
  let w1 := snd (_get_broker desk_outside holding_world) in
  let w2 := @World desk_outside ∅ None [] (Some paper_broker) [] calm_desk in
  _get_broker desk_outside holding_world = (Return paper_broker, w1)
  /\ _get_broker desk_outside w2 = (Return paper_broker, w2).
Proof.
  intros w1 w2.
  destruct (broker_is_built_once desk_outside) as (Hfirst & Hagain).
  split.
  - apply (Hfirst holding_world). reflexivity.
  - apply (Hagain holding_world w1 w2 paper_broker); reflexivity.
Defined.

Lemma other_keys_witness :
  let w' := snd (get_or_init_day_state desk_outside 9000 annotated_world) in
  py_get (stored_state desk_outside w') "notes" VNone = Return (VStr "keep")
  /\ stored_day desk_outside w' = Return (fresh_day "2024-01-02" 9000).
Proof.
  intros w'.
  destruct (day_state_keeps_other_keys desk_outside 9000%Q annotated_world w'
              (fresh_day "2024-01-02" 9000) "notes" VNone) as (Hnotes & _);
    [reflexivity | discriminate |].
  split; [|reflexivity]. rewrite Hnotes. reflexivity.
Defined.

Lemma state_file_witness :
  get_or_init_day_state desk_outside 9000 holding_world
  = (Return (fresh_day "2024-01-02" 9000),
     set_live_state desk_outside
       (Some (VDict [("daily", fresh_day "2024-01-02" 9000)])) holding_world)
  /\ get_or_init_day_state desk_outside 9000 list_file_world
     = (Raise attribute_error, list_file_world).
Proof.
  split.
  - apply (day_state_file_edges desk_outside 9000%Q holding_world). reflexivity.
  - apply (proj1 (proj2 (day_state_file_edges desk_outside 9000%Q list_file_world))
             (VList [])); [reflexivity|]. intros d. discriminate.
Defined.

Lemma breaker_monotone_witness :
  (exists message,
      _daily_loss_exceeded decimal_float desk_outside (Some 9000%Q) (loss_world "9500")
      = (Return (Some message), loss_world "9500"))
  /\ _daily_loss_exceeded decimal_float desk_outside (Some 10250%Q) (loss_world "9500")
     = (Return None, loss_world "9500").
Proof.
  destruct (breaker_is_monotone_over_the_day decimal_float desk_outside
              (1 # 20)%Q 10000%Q
              (VDict [("date", VStr "2024-01-02"); ("equity_start", VNum 10000)])
              (loss_world "9500")) as (Hlower & Hgain);
    [reflexivity | reflexivity | reflexivity | reflexivity | reflexivity |].
  split.
  - apply (Hlower 9500%Q 9000%Q
             (VFmt "Daily loss {:.2%} exceeds MAX_DAILY_LOSS_PCT {:.2%}"
                   [VNum (drawdown 10000 9500); VNum (1 # 20)]));
      [discriminate | reflexivity].
  - apply (Hgain 10250%Q); [reflexivity | discriminate].
Defined.

Lemma first_evaluation_witness :
  exists w',
    _daily_loss_exceeded decimal_float desk_outside (Some 5000%Q) new_day_world
    = (Return None, w')
    /\ stored_day desk_outside w' = Return (fresh_day "2024-01-02" 5000).
Proof.
  apply (first_evaluation_of_the_day_passes decimal_float desk_outside 5000%Q (1 # 20)%Q
           (VStr "2024-01-01") new_day_world);
    [reflexivity | reflexivity | reflexivity | discriminate].
Defined.

Lemma quiet_alert_witness :
  notify_alert decimal_int desk_outside "risk_limit_triggered" (VStr "order_notional")
    holding_world
  = (Return tt,
     set_live_alerts desk_outside
       [alert_entry desk_outside holding_world "risk_limit_triggered"
          (VStr "order_notional")] holding_world).
Proof.
  apply (alert_without_channels_is_one_line decimal_int desk_outside
           "risk_limit_triggered" (VStr "order_notional") holding_world);
    [reflexivity | by exists 587 | left; reflexivity].
Defined.

Lemma bad_port_witness :
  exists e w',
    notify_alert decimal_int desk_outside "risk_limit_triggered" (VStr "order_notional")
      bad_port_world
    = (Raise e, w')
    /\ exn_cls e = ValueError
    /\ live_alerts_jsonl w'
       = [alert_entry desk_outside bad_port_world "risk_limit_triggered"
            (VStr "order_notional")].
Proof.
  apply (proj1 (malformed_smtp_port_breaks_alerts decimal_float decimal_int desk_outside
                  bad_port_world eq_refl)
           "risk_limit_triggered" (VStr "order_notional")).
Defined.

Lemma webhook_witness :
  (fst (notify_alert decimal_int desk_outside "risk_limit_triggered" (VStr "order_notional")
          hooked_world) = Return tt
   /\ live_alerts_jsonl
        (snd (notify_alert decimal_int desk_outside "risk_limit_triggered"
                (VStr "order_notional") hooked_world))
      = [alert_entry desk_outside hooked_world "risk_limit_triggered"
           (VStr "order_notional")])
  /\ (fst (notify_alert decimal_int deaf_outside "risk_limit_triggered"
             (VStr "order_notional") unheard_world) = Return tt
      /\ live_alerts_jsonl
           (snd (notify_alert decimal_int deaf_outside "risk_limit_triggered"
                   (VStr "order_notional") unheard_world))
         = [alert_entry deaf_outside unheard_world "risk_limit_triggered"
              (VStr "order_notional");
            delivery_error_entry deaf_outside unheard_world
              (Some (VFmt "Webhook error {}: {}" [VNum 502; VStr "Bad Gateway"])) None]).
Proof.
  split.
  - apply (webhook_failure_is_logged decimal_int desk_outside "risk_limit_triggered"
             (VStr "order_notional") hooked_world "https://hooks.example/alerts");
      [reflexivity | discriminate | by exists 587 | left; reflexivity].
  - apply (webhook_failure_is_logged decimal_int deaf_outside "risk_limit_triggered"
             (VStr "order_notional") unheard_world "https://hooks.example/alerts");
      [reflexivity | discriminate | by exists 587 | left; reflexivity].
Defined.

Lemma run_summary_witness :
  exists account positions w',
    record_run_summary decimal_float desk_outside "run-1" "gpt" "completed" None []
      down_world
    = (Return [VDict (summary_entry decimal_float (utc_iso desk_outside (outside w'))
                        "run-1" "gpt" "completed" account positions None)], w')
    /\ account = error_dict (VFmt "Alpaca API error {}: {}"
                                  [VNum 500; VStr "Internal Server Error"])
    /\ positions = VList [error_dict (VStr "Read timed out. (read timeout=10)")].
Proof.
  destruct (run_summary_is_always_recorded decimal_float desk_outside "run-1" "gpt"
              "completed" None [] down_world)
    as (account & positions & w' & Hrun & Haccount & _ & Hpositions & _).
  exists account, positions, w'. split; [exact Hrun|]. split.
  - apply (Haccount (Exn RuntimeError
                       (VFmt "Alpaca API error {}: {}"
                             [VNum 500; VStr "Internal Server Error"]))).
    reflexivity.
  - apply (Hpositions (Exn RequestException (VStr "Read timed out. (read timeout=10)"))).
    reflexivity.
Defined.

Lemma lock_witness :
  _acquire_lock decimal_float whole_seconds 300 1000 None = (true, Some "1000.0")
  /\ _acquire_lock decimal_float whole_seconds 300 1299 (Some "1000.0")
     = (false, Some "1000.0")
  /\ _acquire_lock decimal_float whole_seconds 300 1300 (Some "1000.0")
     = (true, Some "1300.0").
Proof.
  destruct (lock_excludes_for_ttl decimal_float whole_seconds 300 1000%Q 1299%Q None)
    as (Hheld & _); [reflexivity | reflexivity |].
  destruct (lock_excludes_for_ttl decimal_float whole_seconds 300 1000%Q 1300%Q None)
    as (_ & Hstale & _); [reflexivity | reflexivity |].
  split; [reflexivity|]. split.
  - apply Hheld. reflexivity.
  - apply Hstale. discriminate.
Defined.

Lemma lock_file_witness :
  _acquire_lock decimal_float whole_seconds 300 100 (Some "stale")
  = (false, Some "stale")
  /\ _acquire_lock decimal_float whole_seconds 300 1000 (Some "stale")
     = (true, Some "1000.0").
Proof.
  destruct (lock_file_edges decimal_float whole_seconds 300 100%Q) as (_ & Hearly & _).
  destruct (lock_file_edges decimal_float whole_seconds 300 1000%Q) as (_ & Hlate & _).
  split.
  - apply (Hearly "stale"); reflexivity.
  - apply (Hlate "stale"); [reflexivity | discriminate].
Defined.

Lemma scheduler_witness :
  main_turn decimal_float desk_outside whole_seconds true false paper_broker 300 1000
    (fun w => (Return tt, w)) None closed_world
  = ((Return false, None), snd (get_clock desk_outside paper_broker closed_world))
  /\ main_turn decimal_float desk_outside whole_seconds false false paper_broker 300 1000
       (fun w => (Raise (Exn RuntimeError (VStr "session failed")), w)) None holding_world
     = ((Raise (Exn RuntimeError (VStr "session failed")), None), holding_world).
Proof.
  split.
  - apply (proj1 (scheduler_turn decimal_float desk_outside whole_seconds false true
                    paper_broker 300 1000%Q (fun w => (Return tt, w)) None closed_world));
      reflexivity.
  - apply (proj2 (proj2 (scheduler_turn decimal_float desk_outside whole_seconds false false
                           paper_broker 300 1000%Q
                           (fun w => (Raise (Exn RuntimeError (VStr "session failed")), w))
                           None holding_world)));
      [left; reflexivity | reflexivity].
Defined.

Lemma run_error_witness :
  let failed := Exn RuntimeError (VStr "model unavailable") in
  run_trading_session decimal_float decimal_int desk_outside
    (fun w => (Return tt, w)) (fun _ w => (Raise failed, w)) (fun _ w => (Return tt, w))
    30 "run-1" "gpt" [] holding_world
  = (Raise failed, holding_world).
Proof.
  intros failed.
  apply (proj2 (proj2 (run_error_alert_is_unreachable decimal_float decimal_int desk_outside
                         (fun w => (Return tt, w)) (fun _ w => (Raise failed, w))
                         (fun _ w => (Return tt, w)) 30 "run-1" "gpt" [] holding_world))
           holding_world holding_world failed); reflexivity.
Defined.

Lemma settings_witness :
  main_settings decimal_int desk_outside holding_world
  = (Return (60, true, true, true, 120), holding_world).
Proof.
  destruct (scheduler_settings_defaults decimal_float decimal_int desk_outside
              whole_seconds holding_world)
    as (interval & eo & crypto & startup & ttl & Hrun & Hinterval & _ & Httl & Hcrypto & _).
  rewrite Hrun.
  destruct (Httl eq_refl) as (Hmax & _).
  rewrite (Hinterval eq_refl) in Hmax.
  rewrite (Hinterval eq_refl), Hmax, (Hcrypto eq_refl).
  vm_compute in Hrun. injection Hrun as _ <- _ <- _. reflexivity.
Defined.

Lemma query_tools_witness :
  sent (snd (live_cancel_all_orders desk_outside holding_world))
  = [broker_call paper_broker "DELETE" "/v2/orders" None]
  /\ orders_sent desk_outside (snd (live_cancel_all_orders desk_outside holding_world)) = [].
Proof.
  pose proof (query_tools_send_one_request desk_outside holding_world paper_broker "k" "s"
                eq_refl eq_refl eq_refl ltac:(discriminate) ltac:(discriminate)) as Htools.
  apply Forall_inv_tail, Forall_inv_tail, Forall_inv_tail, Forall_inv in Htools.
  destruct Htools as (Hsent & Horders & _).
  split; [exact Hsent | exact Horders].
Defined.
